(** * Thaxu AI helper: conversation session and remote-completion client

    A shallow embedding of [src/chat.ts] (the [ApolloAI] history, the context
    analysis and [askAI]) and of [src/thaxuAIProvider.ts] (the panel's
    session state), together with the properties of the specification.

    Conventions of the embedding.
    - A JavaScript string is a Rocq [string] holding its UTF-8 bytes.
      Substring tests against ASCII needles are the same on either
      representation.
    - [Date.now()] is an explicit clock value in milliseconds, a [Z].
    - Console logging and notifications to the webview are not modelled:
      they do not change any of the state below. *)

From Stdlib Require Import ZArith String Ascii DecimalString QArith Lia.
From stdpp Require Import base list strings.

Open Scope string_scope.
Open Scope list_scope.
Open Scope Z_scope.

(** ** JavaScript string primitives *)

Module Js.

Definition nl : string := String (ascii_of_nat 10) "".
Definition dquote : string := String (ascii_of_nat 34) "".

(** [s.includes(needle)]. *)
Fixpoint includes (s needle : string) : bool :=
  String.prefix needle s ||
  match s with
  | EmptyString => false
  | String _ s' => includes s' needle
  end.

(** [s.toLowerCase()], as far as a search for ASCII text can tell. The
    letters A-Z are lowered, and so are the two characters outside ASCII
    whose lower case holds an ASCII letter: U+212A KELVIN SIGN (bytes 226,
    132, 170) becomes [k], and U+0130, the capital I with a dot above
    (bytes 196, 176), becomes [i] followed by U+0307 (bytes 204, 135).
    Every other character outside ASCII is lowered to characters outside
    ASCII; its bytes are left as they are, and bytes from 128 on take no
    part in a match of an ASCII needle. *)
Definition lowerAscii (c : ascii) : ascii :=
  let n := nat_of_ascii c in
  if ((65 <=? n) && (n <=? 90))%nat then ascii_of_nat (n + 32) else c.

Definition isByte (c : ascii) (n : nat) : bool := (nat_of_ascii c =? n)%nat.

Fixpoint toLowerCase (s : string) : string :=
  match s with
  | EmptyString => EmptyString
  | String c s' =>
      match s' with
      | EmptyString => String (lowerAscii c) (toLowerCase s')
      | String c2 s2 =>
          if isByte c 196 && isByte c2 176
          then String "i" (String (ascii_of_nat 204) (String (ascii_of_nat 135)
                 (toLowerCase s2)))
          else
            match s2 with
            | EmptyString => String (lowerAscii c) (toLowerCase s')
            | String c3 s3 =>
                if isByte c 226 && isByte c2 132 && isByte c3 170
                then String "k" (toLowerCase s3)
                else String (lowerAscii c) (toLowerCase s')
            end
      end
  end.

(** The UTF-8 encodings of the code points [String.prototype.trim]
    removes: WhiteSpace and LineTerminator of ECMAScript. *)
Definition whiteSpace : list (list nat) :=
  [ [9]; [10]; [11]; [12]; [13]; [32];
    [194; 160];
    [225; 154; 128];
    [226; 128; 128]; [226; 128; 129]; [226; 128; 130]; [226; 128; 131];
    [226; 128; 132]; [226; 128; 133]; [226; 128; 134]; [226; 128; 135];
    [226; 128; 136]; [226; 128; 137]; [226; 128; 138];
    [226; 128; 168]; [226; 128; 169]; [226; 128; 175];
    [226; 129; 159];
    [227; 128; 128];
    [239; 187; 191] ]%nat.

Fixpoint stripPrefix (p l : list nat) : option (list nat) :=
  match p, l with
  | [], _ => Some l
  | a :: p', b :: l' => if (a =? b)%nat then stripPrefix p' l' else None
  | _ :: _, [] => None
  end.

Fixpoint stripAny (ps : list (list nat)) (l : list nat) : option (list nat) :=
  match ps with
  | [] => None
  | p :: ps' =>
      match stripPrefix p l with
      | Some r => Some r
      | None => stripAny ps' l
      end
  end.

Fixpoint stripAll (fuel : nat) (ps : list (list nat)) (l : list nat) : list nat :=
  match fuel with
  | O => l
  | S fuel' =>
      match stripAny ps l with
      | Some r => stripAll fuel' ps r
      | None => l
      end
  end.

Definition bytes (s : string) : list nat :=
  map nat_of_ascii (list_ascii_of_string s).

Definition ofBytes (l : list nat) : string :=
  string_of_list_ascii (map ascii_of_nat l).

(** [s.trim()]: white space is removed at the front, then at the back. *)
Definition trim (s : string) : string :=
  let front := stripAll (String.length s) whiteSpace (bytes s) in
  let back := stripAll (String.length s) (map (@rev nat) whiteSpace) (rev front) in
  ofBytes (rev back).

(** The lines of a template literal, joined by line feeds. *)
Fixpoint lines (ls : list string) : string :=
  match ls with
  | [] => ""
  | [l] => l
  | l :: rest => l +:+ nl +:+ lines rest
  end.

(** Template interpolation of integers. *)
Definition ofNat (n : nat) : string := NilZero.string_of_uint (Nat.to_uint n).
Definition ofZ (z : Z) : string := NilZero.string_of_int (Z.to_int z).

(** [Math.ceil(x / 1000)] for an integer [x]. *)
Definition ceilDiv1000 (x : Z) : Z := - ((- x) / 1000).

(** [arr.slice(-n)]: the last [n] elements, all of them when there are
    fewer. *)
Definition sliceLast {A} (n : nat) (l : list A) : list A :=
  drop (length l - n) l.

End Js.

(** ** ConversationHistory: [ApolloAI] in chat.ts *)

Inductive Role := user | assistant.

Record Message := mkMessage {
  role : Role;
  content : string;
  timestamp : Z
}.

#[global] Instance Role_eq_dec : EqDecision Role.
Proof. solve_decision. Defined.

#[global] Instance Message_eq_dec : EqDecision Message.
Proof. solve_decision. Defined.

Module ApolloAI.

(** [addToHistory(role, content)] at clock value [now]. *)
Definition addToHistory (conversationHistory : list Message)
    (r : Role) (c : string) (now : Z) : list Message :=
  let h := conversationHistory ++ [mkMessage r c now] in
  if (8 <? length h)%nat then Js.sliceLast 8 h else h.

Definition clearHistory (conversationHistory : list Message) : list Message := [].

Definition getHistory (conversationHistory : list Message) : list Message :=
  conversationHistory.

Definition getFormattedHistory (conversationHistory : list Message)
    : list (Role * string) :=
  map (fun msg => (role msg, content msg)) conversationHistory.

Inductive QuestionType :=
  general | concept_inquiry | prediction | project_request | output_prediction.

Inductive Progression := beginner | intermediate | hands_on.

Record Context := mkContext {
  hasCodeQuestions : bool;
  hasPrintQuestions : bool;
  hasCalculatorQuestions : bool;
  repeatedTopics : list string;
  userProgression : Progression;
  lastUserQuestion : string;
  lastAssistantResponse : string;
  conversationLength : nat;
  topicContinuity : bool;
  questionType : QuestionType
}.

(** The state of the [for (const msg of recent)] loop: the context under
    construction and the lower-cased user questions seen so far. *)
Record Scan := mkScan {
  context : Context;
  userQuestions : list string;
  assistantResponses : list string
}.

(** The [if (msg.role === 'user')] branch; [lc] is the lower-cased
    content. The question type is assigned up to three times in a row. *)
Definition withUser (ctx : Context) (msg : Message) (lc : string) : Context :=
  let printQ := Js.includes lc "print" in
  let qt1 :=
    if printQ then
      if Js.includes lc "what" || Js.includes lc "does" || Js.includes lc "use"
      then concept_inquiry
      else if Js.includes lc "output" || Js.includes lc "result"
      then prediction
      else questionType ctx
    else questionType ctx in
  let codeQ :=
    Js.includes lc "code" || Js.includes lc "function" || Js.includes lc "python" in
  let calcQ :=
    Js.includes lc "calculator" || Js.includes lc "create" || Js.includes lc "make" in
  let qt2 := if calcQ then project_request else qt1 in
  let qt3 :=
    if Js.includes lc "output" && (Js.includes lc "print" || Js.includes lc Js.dquote)
    then output_prediction else qt2 in
  {| hasCodeQuestions := if codeQ then true else hasCodeQuestions ctx;
     hasPrintQuestions := if printQ then true else hasPrintQuestions ctx;
     hasCalculatorQuestions := if calcQ then true else hasCalculatorQuestions ctx;
     repeatedTopics := repeatedTopics ctx;
     userProgression := userProgression ctx;
     lastUserQuestion := content msg;
     lastAssistantResponse := lastAssistantResponse ctx;
     conversationLength := conversationLength ctx;
     topicContinuity := topicContinuity ctx;
     questionType := qt3 |}.

(** The [else if (msg.role === 'assistant')] branch. *)
Definition withAssistant (ctx : Context) (msg : Message) : Context :=
  {| hasCodeQuestions := hasCodeQuestions ctx;
     hasPrintQuestions := hasPrintQuestions ctx;
     hasCalculatorQuestions := hasCalculatorQuestions ctx;
     repeatedTopics := repeatedTopics ctx;
     userProgression := userProgression ctx;
     lastUserQuestion := lastUserQuestion ctx;
     lastAssistantResponse := content msg;
     conversationLength := conversationLength ctx;
     topicContinuity := topicContinuity ctx;
     questionType := questionType ctx |}.

(** One iteration of the loop body. *)
Definition scanMessage (st : Scan) (msg : Message) : Scan :=
  let lc := Js.toLowerCase (content msg) in
  match role msg with
  | user =>
      {| context := withUser (context st) msg lc;
         userQuestions := userQuestions st ++ [lc];
         assistantResponses := assistantResponses st |}
  | assistant =>
      {| context := withAssistant (context st) msg;
         userQuestions := userQuestions st;
         assistantResponses := assistantResponses st ++ [lc] |}
  end.

Definition initialContext (len : nat) : Context :=
  {| hasCodeQuestions := false;
     hasPrintQuestions := false;
     hasCalculatorQuestions := false;
     repeatedTopics := [];
     userProgression := beginner;
     lastUserQuestion := "";
     lastAssistantResponse := "";
     conversationLength := len;
     topicContinuity := false;
     questionType := general |}.

Definition every (p : string -> bool) (l : list string) : bool := forallb p l.

(** The condition under which [topicContinuity] is set. *)
Definition checkContinuity (qs : list string) : bool :=
  if (2 <=? length qs)%nat then
    let recentTopics := Js.sliceLast 2 qs in
    every (fun q => Js.includes q "print") recentTopics
    || every (fun q => Js.includes q "calculator") recentTopics
  else false.

(** The two assignments to [userProgression], the second overriding the
    first. *)
Definition progression (ctx : Context) : Progression :=
  let p1 := if (4 <? conversationLength ctx)%nat then intermediate
            else userProgression ctx in
  if hasCodeQuestions ctx && (2 <? conversationLength ctx)%nat then hands_on
  else p1.

(** [analyzeConversationContext()]. *)
Definition analyzeConversationContext (conversationHistory : list Message)
    : Context :=
  let recent := Js.sliceLast 6 conversationHistory in
  let st := fold_left scanMessage recent
              (mkScan (initialContext (length conversationHistory)) [] []) in
  let ctx := context st in
  let ctx1 :=
    {| hasCodeQuestions := hasCodeQuestions ctx;
       hasPrintQuestions := hasPrintQuestions ctx;
       hasCalculatorQuestions := hasCalculatorQuestions ctx;
       repeatedTopics := repeatedTopics ctx;
       userProgression := userProgression ctx;
       lastUserQuestion := lastUserQuestion ctx;
       lastAssistantResponse := lastAssistantResponse ctx;
       conversationLength := conversationLength ctx;
       topicContinuity :=
         if checkContinuity (userQuestions st) then true else topicContinuity ctx;
       questionType := questionType ctx |} in
  {| hasCodeQuestions := hasCodeQuestions ctx1;
     hasPrintQuestions := hasPrintQuestions ctx1;
     hasCalculatorQuestions := hasCalculatorQuestions ctx1;
     repeatedTopics := repeatedTopics ctx1;
     userProgression := progression ctx1;
     lastUserQuestion := lastUserQuestion ctx1;
     lastAssistantResponse := lastAssistantResponse ctx1;
     conversationLength := conversationLength ctx1;
     topicContinuity := topicContinuity ctx1;
     questionType := questionType ctx1 |}.

End ApolloAI.

(** ** RemoteCompletionClient: [askAI] in chat.ts

    The request (the history, the prompt with its editor note, the
    temperature and token bounds) is the same at every attempt of a call and
    only goes out to the HTTP capability; what the capability does in return
    is given attempt by attempt. The retry budget is an integer. *)

Module Remote.

(** A parsed JSON value, as [res.json()] resolves to. *)
#[local] Set Warnings "-register-all".
Inductive Json :=
| JNull
| JBool (b : bool)
| JNum (q : Q)
| JStr (s : string)
| JArr (items : list Json)
| JObj (fields : list (string * Json)).

(** A JavaScript value read out of a JSON document: [None] is
    [undefined]. *)
Definition Value := option Json.

Definition truthy (v : Value) : bool :=
  match v with
  | None => false
  | Some JNull => false
  | Some (JBool b) => b
  | Some (JNum q) => negb (Qeq_bool q 0)
  | Some (JStr s) => negb (String.eqb s "")
  | Some (JArr _) => true
  | Some (JObj _) => true
  end.

(** [JSON.parse] keeps the last of several members of one name. *)
Fixpoint member (key : string) (fields : list (string * Json)) : Value :=
  match fields with
  | [] => None
  | (k, v) :: rest =>
      match member key rest with
      | Some v' => Some v'
      | None => if String.eqb k key then Some v else None
      end
  end.

(** [v.key] for the member names [askAI] reads; none of them is a
    property of arrays, strings, numbers or booleans. Only read on a
    value that is not [null] or [undefined]. *)
Definition prop (v : Value) (key : string) : Value :=
  match v with
  | Some (JObj fields) => member key fields
  | _ => None
  end.

(** [v[0]]. On a string it is the string of its first character; only
    that it is non-empty and has no members is observed. *)
Definition first (v : Value) : Value :=
  match v with
  | Some (JArr items) => head items
  | Some (JObj fields) => member "0" fields
  | Some (JStr (String c _)) => Some (JStr (String c ""))
  | _ => None
  end.

(** A value that was thrown: an object with a string under [message] (an
    [Error] of the engine, of [fetch] or of [askAI] itself), [undefined],
    [null], or another value with nothing under [message] (a thrown string
    or number, a plain object), for which [ThrowsOther] stands. A value
    whose [message] is there and is no string is left out. *)
Record ErrorObject := mkError { name : string; message : string }.

Inductive Thrown :=
| ThrowsError (e : ErrorObject)
| ThrowsUndefined
| ThrowsNull
| ThrowsOther.

Definition newError (m : string) : Thrown := ThrowsError (mkError "Error" m).

(** The engine's own [TypeError]s, in V8's wording. *)
Definition typeError (m : string) : ErrorObject := mkError "TypeError" m.

(** [`${error}`] for an error object: [Error.prototype.toString]. *)
Definition errorToString (e : ErrorObject) : string :=
  if String.eqb (name e) "" then message e
  else if String.eqb (message e) "" then name e
  else name e +:+ ": " +:+ message e.

(** What the HTTP capability does at one attempt. *)
Inductive Body :=
| JsonRejects (t : Thrown)          (* res.json() throws: malformed or empty body *)
| JsonResolves (json : Json).

Inductive Behaviour :=
| FetchUnavailable                   (* getFetch() cannot load node-fetch *)
| FetchRejects (t : Thrown)          (* network failure, abort on timeout *)
| FetchResolves (status : Z) (statusText : string) (body : Body).

(** [res.ok]. *)
Definition ok (status : Z) : bool := (200 <=? status) && (status <=? 299).

(** The text taken out of the response, after [if (!responseText)]. *)
Definition extract (json : Json) : Thrown + string :=
  match json with
  | JNull => inl (ThrowsError
               (typeError "Cannot read properties of null (reading 'apollo_mode')"))
  | _ =>
      let j := Some json in
      let found : Thrown + Value :=
        if truthy (prop j "choices")
           && truthy (first (prop j "choices"))
           && truthy (prop (first (prop j "choices")) "message")
        then
          let c := prop (prop (first (prop j "choices")) "message") "content" in
          inr (if truthy c then c else Some (JStr ""))
        else if truthy (prop j "generated_text")
        then inr (prop j "generated_text")
        else inl (newError "Unexpected response format from AI service") in
      match found with
      | inl t => inl t
      | inr responseText =>
          if negb (truthy responseText)
          then inl (newError "Empty response from AI service")
          else match responseText with
               | Some (JStr s) => inr s
               | _ => inl (ThrowsError
                        (typeError "responseText.substring is not a function"))
               end
      end
  end.

(** The body of the [try] block up to the extracted response text:
    [inl] is the value caught by [catch (err)]. *)
Definition tryAttempt (b : Behaviour) : Thrown + string :=
  match b with
  | FetchUnavailable =>
      inl (newError "Unable to load fetch. Please ensure node-fetch is installed.")
  | FetchRejects t => inl t
  | FetchResolves status statusText body =>
      if negb (ok status) then
        if status =? 429
        then inl (newError "⏱️ Rate limit exceeded. Please wait a moment and try again.")
        else if status =? 401
        then inl (newError "🔑 Authentication failed. Please check your API key.")
        else if status >=? 500
        then inl (newError "🔧 Server error. The AI service is temporarily unavailable.")
        else inl (newError ("API Error (" +:+ Js.ofZ status +:+ "): " +:+ statusText))
      else
        match body with
        | JsonRejects t => inl t
        | JsonResolves json => extract json
        end
  end.

(** The options of one call; an absent field takes the default of the
    destructuring in [askAI]. *)
Record Options := mkOptions {
  temperature : option Q;
  maxTokens : option Z;
  includeContext : option bool;
  retries : option Z;
  forceMode : option bool
}.

Definition MAX_RETRIES : Z := 3.

(** How the promise returned by [askAI] settles. *)
Inductive Settled :=
| Returned (text : string)
| Threw (e : ErrorObject).

(** What the call was seen doing: requests sent and backoff waits. *)
Inductive Step :=
| Attempt (attempt : Z)        (* fetchImpl(API_URL, ...) at this attempt *)
| Wait (ms : Z).               (* setTimeout(resolve, waitTime) *)

Record AskResult := mkAskResult {
  settled : Settled;
  history : list Message;      (* the shared history afterwards *)
  trace : list Step            (* attempts and waits, in order *)
}.

Definition questionTypeName (q : ApolloAI.QuestionType) : string :=
  match q with
  | ApolloAI.general => "general"
  | ApolloAI.concept_inquiry => "concept_inquiry"
  | ApolloAI.prediction => "prediction"
  | ApolloAI.project_request => "project_request"
  | ApolloAI.output_prediction => "output_prediction"
  end.

Definition rateLimitedText (hasHistory : bool) (context : ApolloAI.Context) : string :=
  Js.lines
    [ "⏱️ **Rate Limited**";
      "";
      "Too many requests in a short time. Please wait a moment before trying again.";
      "";
      "**Tip:** Use the Force Answer button sparingly to avoid hitting limits." ]
  +:+ (if hasHistory
       then Js.nl +:+ Js.nl +:+ "*Previous conversation context (" +:+
            Js.ofNat (ApolloAI.conversationLength context) +:+
            " messages) will be preserved.*"
       else "").

Definition authenticationText : string :=
  Js.lines
    [ "🔑 **Authentication Error**";
      "";
      "API key authentication failed. Please contact the extension developer to resolve this issue." ].

Definition networkText (hasHistory : bool) (context : ApolloAI.Context) : string :=
  Js.lines
    [ "🌐 **Network Error**";
      "";
      "Unable to connect to Apollo AI service (Qwen2-0.5B). This could be due to:";
      "- Internet connection issues";
      "- The AI service being temporarily unavailable";
      "- Network firewall blocking the request";
      "";
      "**Solutions:**";
      "- Check your internet connection";
      "- Try again in a few moments";
      "- If the problem persists, the service may be down";
      "";
      if hasHistory
      then "*Your conversation history (" +:+
           Js.ofNat (ApolloAI.conversationLength context) +:+
           " messages) is preserved and will be included when the service is available.*"
      else "" ].

Definition connectionFailedText (modeText errMessage : string)
    (hasHistory : bool) (context : ApolloAI.Context) : string :=
  Js.lines
    [ "❌ **Connection Failed**";
      "";
      "Unable to reach Apollo AI service (Qwen2-0.5B) for " +:+ modeText +:+ ":";
      "`" +:+ errMessage +:+ "`";
      "";
      "**Possible solutions:**";
      "- Check your internet connection";
      "- Try again in a few moments  ";
      "- The AI service might be temporarily unavailable";
      "";
      "**If this error persists:**";
      "- Check VS Code's output panel for more details";
      "- Try restarting VS Code";
      "- Report the issue if it continues";
      "";
      if hasHistory
      then "*Conversation context (" +:+
           Js.ofNat (ApolloAI.conversationLength context) +:+ " messages with " +:+
           questionTypeName (ApolloAI.questionType context) +:+ " focus) is preserved.*"
      else "" ].

Definition gaveUpText : string :=
  "❌ Failed to get response after multiple attempts. Please try again later.".

(** The [if (attempt === retries)] branch of the [catch] block. Reading
    [err.message] of [undefined] or [null], or [includes] of a [message]
    that is not there, throws a [TypeError] out of the [catch] block, and
    so out of [askAI]. *)
Definition lastFailure (force : bool) (conversationHistory : list Message)
    (err : Thrown) : Settled :=
  let modeText := if force then "direct answer" else "learning guidance" in
  let hasHistory := (0 <? length (ApolloAI.getHistory conversationHistory))%nat in
  let context := ApolloAI.analyzeConversationContext conversationHistory in
  match err with
  | ThrowsUndefined =>
      Threw (typeError "Cannot read properties of undefined (reading 'message')")
  | ThrowsNull =>
      Threw (typeError "Cannot read properties of null (reading 'message')")
  | ThrowsOther =>
      Threw (typeError "Cannot read properties of undefined (reading 'includes')")
  | ThrowsError e =>
      if Js.includes (message e) "Rate limit"
      then Returned (rateLimitedText hasHistory context)
      else if Js.includes (message e) "Authentication"
      then Returned authenticationText
      else if Js.includes (message e) "fetch" || String.eqb (name e) "AbortError"
      then Returned (networkText hasHistory context)
      else Returned (connectionFailedText modeText (message e) hasHistory context)
  end.

(** [Math.pow(2, attempt - 1) * 1000]. *)
Definition waitTime (attempt : Z) : Z := 2 ^ (attempt - 1) * 1000.

Section AskAI.

Variable prompt : string.
Variable options : Options.
(** The capability's behaviour at each attempt, counted from 1. *)
Variable http : Z -> Behaviour.
(** The shared history and the clock when the call settles. *)
Variable conversationHistory : list Message.
Variable now : Z.

Definition retriesOf : Z := default MAX_RETRIES (retries options).
Definition forceModeOf : bool := default false (forceMode options).

(** [for (let attempt = 1; attempt <= retries; attempt++)]. The loop
    variable runs over integers, and [fuel] is [retries - attempt + 1]
    cut off at 0: it is 0 exactly when [attempt <= retries] fails. *)
Fixpoint attempts (fuel : nat) (attempt : Z) (seen : list Step) : AskResult :=
  match fuel with
  | O => mkAskResult (Returned gaveUpText) conversationHistory seen
  | S fuel' =>
      let seen := seen ++ [Attempt attempt] in
      match tryAttempt (http attempt) with
      | inr responseText =>
          let finalResponse := Js.trim responseText in
          let h1 := ApolloAI.addToHistory conversationHistory user prompt now in
          let h2 := ApolloAI.addToHistory h1 assistant finalResponse now in
          mkAskResult (Returned finalResponse) h2 seen
      | inl err =>
          if attempt =? retriesOf
          then mkAskResult (lastFailure forceModeOf conversationHistory err)
                           conversationHistory seen
          else attempts fuel' (attempt + 1) (seen ++ [Wait (waitTime attempt)])
      end
  end.

Definition askAI : AskResult := attempts (Z.to_nat retriesOf) 1 [].

End AskAI.

End Remote.

(** ** SessionController: [ThaxuAIProvider] in thaxuAIProvider.ts *)

Module ThaxuAIProvider.

Record Provider := mkProvider {
  _chatHistory : list Message;          (* the display log *)
  _forceAnswerCooldown : bool;
  _forceAnswerEnabled : bool;
  _mentorMode : bool;
  _cooldownEndTime : Z
}.

(** The field initialisers of the class. *)
Definition newProvider : Provider := mkProvider [] false false false 0.

Definition push (p : Provider) (r : Role) (c : string) (now : Z) : Provider :=
  mkProvider (_chatHistory p ++ [mkMessage r c now])
             (_forceAnswerCooldown p) (_forceAnswerEnabled p)
             (_mentorMode p) (_cooldownEndTime p).

Definition _initializeChat (p : Provider) : Provider :=
  mkProvider [] false false false 0.

Definition clearChat (p : Provider) : Provider :=
  mkProvider [] false false false 0.

Definition addUserMessage (p : Provider) (message : string) (now : Z) : Provider :=
  push p user message now.

Definition _generateSimpleMentorResponse (p : Provider) (message : string)
    (now : Z) : string :=
  let lowerMessage := Js.toLowerCase message in
  let remaining := Js.ofZ (Js.ceilDiv1000 (_cooldownEndTime p - now)) in
  if Js.includes lowerMessage "python" || Js.includes lowerMessage "code"
     || Js.includes lowerMessage "function"
  then
    Js.lines
      [ "## 🎓 Learning Mode (Qwen2-0.5B)";
        "";
        "Let's think step by step:";
        "";
        "**What to try:**";
        "1. Break down the problem";
        "2. Look up documentation";
        "3. Start simple";
        "4. Test your idea";
        "";
        "**Learning tip:** Practice makes perfect!";
        "";
        "*Force Answer cooldown: " +:+ remaining +:+ " seconds*" ]
  else
    Js.lines
      [ "## 🎓 Learning Mode (Qwen2-0.5B)";
        "";
        "Good question! Consider:";
        "";
        "**Think about:**";
        "- What do you want to achieve?";
        "- What tools might help?";
        "- How can you break it down?";
        "";
        "**Next step:** Try researching the basics first.";
        "";
        "*Cooldown: " +:+ remaining +:+ " seconds*" ].

Definition toggleForceAnswer (p : Provider) : Provider :=
  if _forceAnswerCooldown p then p
  else mkProvider (_chatHistory p) (_forceAnswerCooldown p)
                  (negb (_forceAnswerEnabled p)) (_mentorMode p) (_cooldownEndTime p).

(** The assignments of [_startCooldown]; its [setTimeout] is in [World]
    below. *)
Definition _startCooldown (p : Provider) (now : Z) : Provider :=
  mkProvider (_chatHistory p) true (_forceAnswerEnabled p) true (now + 120000).

(** The callback given to [setTimeout] by [_startCooldown]. *)
Definition cooldownExpired (p : Provider) : Provider :=
  mkProvider (_chatHistory p) false (_forceAnswerEnabled p) false (_cooldownEndTime p).

Definition apology : string :=
  "I apologize, but I couldn't generate a proper response. Could you please rephrase your question?".

(** [processMessage] from the point where [await askAI(...)] settles. *)
Definition processMessage (p : Provider) (outcome : Remote.Settled) (now : Z)
    : Provider :=
  match outcome with
  | Remote.Returned response =>
      if negb (String.eqb response "") && (0 <? String.length response)%nat
      then push p assistant response now
      else push p assistant apology now
  | Remote.Threw error =>
      push p assistant
        ("❌ I encountered an error: " +:+ Remote.errorToString error
         +:+ ". Please try again.") now
  end.

(** The options [processMessage] passes to [askAI]. *)
Definition processOptions (force : bool) : Remote.Options :=
  Remote.mkOptions (Some (if force then 0.1 else 0.3)%Q)
                   (Some (if force then 150 else 200))
                   (Some true) None (Some force).

End ThaxuAIProvider.

(** ** The running extension

    One panel, the process-wide history of [ApolloAI], the clock, the
    pending cooldown timers and the [askAI] calls in flight. The event
    loop runs one event at a time. A call to [askAI] reads and writes the
    shared history only in the synchronous stretch in which it settles
    (its last [catch], or the two [addToHistory] calls), so a call is
    started by one event and settled by another, and whatever the user
    does in between is interleaved. *)

Module Session.

Import ThaxuAIProvider.

(** Who awaits the call. *)
Inductive Origin :=
| ByHandleUserMessage      (* handleUserMessage, through processMessage *)
| ByProcessMessage         (* processMessage called by an editor command *)
| ByCompleteCode.          (* completeCode called by an editor command *)

Record Call := mkCall {
  callPrompt : string;
  callOptions : Remote.Options;
  callOrigin : Origin
}.

Record World := mkWorld {
  panel : Provider;
  conversationHistory : list Message;
  clock : Z;
  timers : list Z;                       (* due times of the pending expiry callbacks *)
  calls : list Call
}.

Definition initial (t0 : Z) : World := mkWorld newProvider [] t0 [] [].

Inductive Event :=
| Tick (ms : Z)                              (* time passes *)
| WebviewReady                               (* 'webviewReady' *)
| SendMessage (message : string)             (* 'sendMessage' *)
| ToggleForceAnswer                          (* 'toggleForceAnswer' *)
| ClearChat                                  (* 'clearChat', aigen.clearChat *)
| EditorCommand (shown prompt : string)      (* addUserMessage(shown); processMessage(prompt) *)
| CompleteCode (prompt : string)             (* completeCode(...) *)
| Settle (i : nat) (http : Z -> Remote.Behaviour)   (* the i-th call in flight settles *)
| TimerFires (i : nat).                      (* the i-th pending expiry callback runs *)

Definition withPanel (w : World) (p : Provider) : World :=
  mkWorld p (conversationHistory w) (clock w) (timers w) (calls w).

Definition startCall (w : World) (c : Call) : World :=
  mkWorld (panel w) (conversationHistory w) (clock w) (timers w) (calls w ++ [c]).

(** [handleUserMessage(message)] up to [await this.processMessage]. *)
Definition handleUserMessage (w : World) (message : string) : World :=
  let p := panel w in
  if String.eqb (Js.trim message) "" then w
  else if _mentorMode p && _forceAnswerCooldown p && negb (_forceAnswerEnabled p)
  then
    let p1 := addUserMessage p message (clock w) in
    let mentorResponse := _generateSimpleMentorResponse p1 message (clock w) in
    withPanel w (push p1 assistant mentorResponse (clock w))
  else
    let p1 := addUserMessage p message (clock w) in
    startCall (withPanel w p1)
      (mkCall message (processOptions (_forceAnswerEnabled p1)) ByHandleUserMessage).

(** [_startCooldown()]: the assignments and the [setTimeout]. *)
Definition startCooldown (w : World) : World :=
  mkWorld (_startCooldown (panel w) (clock w)) (conversationHistory w) (clock w)
          (timers w ++ [clock w + 120000]) (calls w).

(** The rest of [handleUserMessage], after the awaited [processMessage]. *)
Definition afterProcessMessage (w : World) : World :=
  if _forceAnswerEnabled (panel w) && negb (_forceAnswerCooldown (panel w))
  then startCooldown w else w.

(** The [i]-th call in flight settles, the capability having behaved as
    [http] says; whoever awaited it goes on. *)
Definition settle (w : World) (i : nat) (http : Z -> Remote.Behaviour) : World :=
  match calls w !! i with
  | None => w
  | Some c =>
      let r := Remote.askAI (callPrompt c) (callOptions c) http
                            (conversationHistory w) (clock w) in
      let w1 := mkWorld (panel w) (Remote.history r) (clock w) (timers w)
                        (delete i (calls w)) in
      match callOrigin c with
      | ByCompleteCode => w1
      | ByProcessMessage =>
          withPanel w1 (processMessage (panel w1) (Remote.settled r) (clock w1))
      | ByHandleUserMessage =>
          afterProcessMessage
            (withPanel w1 (processMessage (panel w1) (Remote.settled r) (clock w1)))
      end
  end.

Definition timerFires (w : World) (i : nat) : World :=
  match timers w !! i with
  | None => w
  | Some due =>
      if due <=? clock w
      then mkWorld (cooldownExpired (panel w)) (conversationHistory w) (clock w)
                   (delete i (timers w)) (calls w)
      else w
  end.

(** One turn of the event loop. An event that cannot happen (time running
    backwards, a call or timer that does not exist, a timer before it is
    due) leaves the world as it is. *)
Definition step (w : World) (e : Event) : World :=
  match e with
  | Tick ms =>
      if 0 <=? ms
      then mkWorld (panel w) (conversationHistory w) (clock w + ms) (timers w) (calls w)
      else w
  | WebviewReady => withPanel w (_initializeChat (panel w))
  | SendMessage message => handleUserMessage w message
  | ToggleForceAnswer => withPanel w (toggleForceAnswer (panel w))
  | ClearChat => withPanel w (clearChat (panel w))
  | EditorCommand shown prompt =>
      startCall (withPanel w (addUserMessage (panel w) shown (clock w)))
        (mkCall prompt (processOptions false) ByProcessMessage)
  | CompleteCode prompt =>
      startCall w
        (mkCall prompt
           (Remote.mkOptions (Some 0.2%Q) (Some 200) None None (Some false))
           ByCompleteCode)
  | Settle i http => settle w i http
  | TimerFires i => timerFires w i
  end.

Definition run (es : list Event) (w : World) : World := fold_left step es w.

(** The worlds the extension can be in. *)
Definition Reachable (w : World) : Prop :=
  exists t0 es, w = run es (initial t0).

(** A capability that answers every attempt with status 200 and a chat
    completion of the given text. *)
Definition answers (text : string) : Z -> Remote.Behaviour :=
  fun _ => Remote.FetchResolves 200 "OK"
    (Remote.JsonResolves
       (Remote.JObj
          [("choices",
            Remote.JArr
              [Remote.JObj
                 [("message", Remote.JObj [("content", Remote.JStr text)])]])])).

End Session.

(** ** The request of [askAI]: chat.ts, lines 172-251 *)

Module Request.

(** [s.length]: the number of UTF-16 code units of the string whose UTF-8
    bytes are [s]. A byte that starts a character counts one, and one more
    when the character takes four bytes (a surrogate pair). *)
Definition utf16Length (s : string) : nat :=
  foldr (fun b n =>
           ((if (b <? 128) || (192 <=? b) then 1 else 0)
            + (if 240 <=? b then 1 else 0) + n)%nat)
        0%nat (Js.bytes s).

(** [vscode.window.activeTextEditor], as far as [askAI] reads it. *)
Record Editor := mkEditor {
  fileName : string;
  languageId : string;
  lineCount : Z
}.

Definition isSeparator (c : ascii) : bool :=
  Ascii.eqb c "/" || Ascii.eqb c (ascii_of_nat 92).

(** [fileName.split(/[/\\]/).pop()], the scan keeping in [segment] what
    follows the last separator met. *)
Fixpoint lastSegment (fileName segment : string) : string :=
  match fileName with
  | EmptyString => segment
  | String c rest =>
      if isSeparator c then lastSegment rest ""
      else lastSegment rest (segment +:+ String c "")
  end.

Definition baseName (fileName : string) : string := lastSegment fileName "".

(** The condition on the prompt under which the editor is mentioned. *)
Definition asksAboutCode (prompt : string) : bool :=
  Js.includes (Js.toLowerCase prompt) "explain"
  || Js.includes (Js.toLowerCase prompt) "debug"
  || Js.includes (Js.toLowerCase prompt) "code"
  || Js.includes (Js.toLowerCase prompt) "function".

Definition contextNote (editor : Editor) : string :=
  Js.nl +:+ Js.nl +:+ "[Context: Working in " +:+ baseName (fileName editor)
  +:+ " (" +:+ languageId editor +:+ ", " +:+ Js.ofZ (lineCount editor)
  +:+ " lines)]".

(** [userMessage], the content of the message that carries the prompt. *)
Definition userMessage (prompt : string) (includeContext : bool)
    (editor : option Editor) : string :=
  let userMessage := Js.trim prompt in
  match editor with
  | Some ed =>
      if includeContext && asksAboutCode prompt
      then if (utf16Length prompt <? 300)%nat
           then userMessage +:+ contextNote ed
           else userMessage
      else userMessage
  | None => userMessage
  end.

(** [messages]: the history when asked for and there is one, then the
    prompt. *)
Definition buildMessages (conversationHistory : list Message) (prompt : string)
    (includeContext : bool) (editor : option Editor) : list (Role * string) :=
  (if includeContext && (0 <? length (ApolloAI.getHistory conversationHistory))%nat
   then ApolloAI.getFormattedHistory conversationHistory
   else [])
  ++ [(user, userMessage prompt includeContext editor)].

Record RequestBody := mkRequestBody {
  messages : list (Role * string);
  temperature : Q;
  max_tokens : Z;
  stream : bool;
  force_mode : bool
}.

(** [body], with the defaults of the destructured options. *)
Definition requestBody (options : Remote.Options)
    (conversationHistory : list Message) (prompt : string)
    (editor : option Editor) : RequestBody :=
  let temperature := default 0.3%Q (Remote.temperature options) in
  let maxTokens := default 200 (Remote.maxTokens options) in
  let includeContext := default true (Remote.includeContext options) in
  let forceMode := default false (Remote.forceMode options) in
  {| messages := buildMessages conversationHistory prompt includeContext editor;
     temperature :=
       if forceMode then 0.1%Q
       else if Qle_bool temperature 0.5 then temperature else 0.5%Q;
     max_tokens :=
       if forceMode then Z.min maxTokens 200 else Z.min maxTokens 250;
     stream := false;
     force_mode := forceMode |}.

End Request.

(** ** What the panel tells the webview and the user

    [postMessage] to the webview and the notifications of
    [vscode.window], for a panel whose view has been resolved. *)

Module Webview.

Import ThaxuAIProvider Session.

Inductive Post :=
| UpdateChat (messages : list Message)
    (cooldownActive forceAnswerEnabled mentorMode : bool) (cooldownEndTime : Z)
| ForceReset             (* messages: [], all flags false, cooldownEndTime: 0 *)
| InitComplete
| ShowTyping
| HideTyping.

Inductive Notice :=
| Information (text : string)
| Warning (text : string)
| ErrorMessage (text : string).

(** [_updateWebview()]. *)
Definition _updateWebview (p : Provider) : list Post :=
  [UpdateChat (_chatHistory p) (_forceAnswerCooldown p) (_forceAnswerEnabled p)
     (_mentorMode p) (_cooldownEndTime p)].

(** The posts of one turn of the event loop, in order. *)
Definition posts (w : World) (e : Event) : list Post :=
  let p := panel w in
  match e with
  | Tick _ => []
  | WebviewReady =>
      _updateWebview (_initializeChat p) ++ [ForceReset] ++ [InitComplete]
  | SendMessage message =>
      if String.eqb (Js.trim message) "" then []
      else if _mentorMode p && _forceAnswerCooldown p && negb (_forceAnswerEnabled p)
      then
        let p1 := addUserMessage p message (clock w) in
        _updateWebview p1
        ++ _updateWebview
             (push p1 assistant (_generateSimpleMentorResponse p1 message (clock w))
                (clock w))
      else _updateWebview (addUserMessage p message (clock w)) ++ [ShowTyping]
  | ToggleForceAnswer =>
      if _forceAnswerCooldown p then []
      else _updateWebview (toggleForceAnswer p)
  | ClearChat => _updateWebview (clearChat p) ++ [ForceReset]
  | EditorCommand shown prompt =>
      _updateWebview (addUserMessage p shown (clock w)) ++ [ShowTyping]
  | CompleteCode _ => []
  | Settle i http =>
      match calls w !! i with
      | None => []
      | Some c =>
          let r := Remote.askAI (callPrompt c) (callOptions c) http
                                (conversationHistory w) (clock w) in
          let p1 := processMessage p (Remote.settled r) (clock w) in
          match callOrigin c with
          | ByCompleteCode => []
          | ByProcessMessage => _updateWebview p1 ++ [HideTyping]
          | ByHandleUserMessage =>
              _updateWebview p1 ++ [HideTyping]
              ++ (if _forceAnswerEnabled p1 && negb (_forceAnswerCooldown p1)
                  then _updateWebview (_startCooldown p1 (clock w))
                  else [])
          end
      end
  | TimerFires i =>
      match timers w !! i with
      | None => []
      | Some due =>
          if due <=? clock w then _updateWebview (cooldownExpired p) else []
      end
  end.

(** The seconds [toggleForceAnswer] and the mentor reply tell the user to
    wait: [Math.ceil((this._cooldownEndTime - Date.now()) / 1000)]. *)
Definition remaining (p : Provider) (now : Z) : Z :=
  Js.ceilDiv1000 (_cooldownEndTime p - now).

(** The notification of [toggleForceAnswer()]. *)
Definition toggleNotice (p : Provider) (now : Z) : Notice :=
  if _forceAnswerCooldown p
  then Warning ("⏰ Force Answer is on cooldown (Qwen2-0.5B). Wait "
                +:+ Js.ofZ (remaining p now) +:+ " seconds.")
  else if negb (_forceAnswerEnabled p)
  then Information "⚡ Force Answer ENABLED! (Qwen2-0.5B) Direct answers will be provided."
  else Information "💭 Force Answer DISABLED. (Qwen2-0.5B) Learning mode resumed.".

(** [copyMessageToClipboard(messageIndex)] for an integer index: the text
    handed to the clipboard, if any. *)
Definition copyMessageToClipboard (p : Provider) (messageIndex : Z) : option string :=
  if (0 <=? messageIndex) && (messageIndex <? Z.of_nat (length (_chatHistory p)))
  then content <$> (_chatHistory p !! Z.to_nat messageIndex)
  else None.

End Webview.

(** ** Notions used to state the properties *)

(** The history after a sequence of [addToHistory] calls, given by the
    entries they pass, starting from the empty history. *)
Definition appendAll (appended : list Message) : list Message :=
  fold_left
    (fun h m => ApolloAI.addToHistory h (role m) (content m) (timestamp m))
    appended [].

(** A context with another [conversationLength]. *)
Definition setLength (n : nat) (c : ApolloAI.Context) : ApolloAI.Context :=
  ApolloAI.mkContext
    (ApolloAI.hasCodeQuestions c) (ApolloAI.hasPrintQuestions c)
    (ApolloAI.hasCalculatorQuestions c) (ApolloAI.repeatedTopics c)
    (ApolloAI.userProgression c) (ApolloAI.lastUserQuestion c)
    (ApolloAI.lastAssistantResponse c) n
    (ApolloAI.topicContinuity c) (ApolloAI.questionType c).

(** A context with its [conversationLength] blanked out. *)
Definition forgetLength (c : ApolloAI.Context) : ApolloAI.Context := setLength 0 c.

Definition setLengthScan (n : nat) (st : ApolloAI.Scan) : ApolloAI.Scan :=
  ApolloAI.mkScan (setLength n (ApolloAI.context st))
    (ApolloAI.userQuestions st) (ApolloAI.assistantResponses st).

(** The loop of the analysis run over the recent entries alone. *)
Definition scanRecent (recent : list Message) : ApolloAI.Scan :=
  fold_left ApolloAI.scanMessage recent
    (ApolloAI.mkScan (ApolloAI.initialContext 0) [] []).

(** Three and four exchanges about the same things: the histories after
    them agree on their last six entries. *)
Definition threeExchanges : list Message :=
  [ mkMessage user "what does print do" 30; mkMessage assistant "what do you think?" 30;
    mkMessage user "show me the output" 40; mkMessage assistant "try it" 40;
    mkMessage user "thanks" 50; mkMessage assistant "welcome" 50 ].

Definition fourExchanges : list Message :=
  [ mkMessage user "hi" 20; mkMessage assistant "hello" 20 ] ++ threeExchanges.

Fixpoint zseq (start : Z) (len : nat) : list Z :=
  match len with
  | O => []
  | S len' => start :: zseq (start + 1) len'
  end.

(** What [processMessage] is to show for an outcome of [askAI]: the
    response as it is, the apology for an empty one, the error otherwise. *)
Definition replyText (outcome : Remote.Settled) : string :=
  match outcome with
  | Remote.Returned response =>
      if String.eqb response "" then ThaxuAIProvider.apology else response
  | Remote.Threw error =>
      "❌ I encountered an error: " +:+ Remote.errorToString error
      +:+ ". Please try again."
  end.

(** A force answer is switched on and used once: the cooldown begins. *)
Definition forcedExchange : list Session.Event :=
  [ Session.ToggleForceAnswer; Session.SendMessage "fix this";
    Session.Settle 0 (Session.answers "done") ].

(** A panel in mentor mode during the cooldown, with force answer off. *)
Definition mentoring : Session.World :=
  Session.mkWorld (ThaxuAIProvider.mkProvider [] true false true 120000)
    [] 60000 [120000] [].

(** What the cooldown promises of a world: mentor mode is on, and the
    expiry callback that was scheduled for the end time, 120000 ms after a
    moment that is not in the future, has not run yet. *)
Definition CooldownInvariant (w : Session.World) : Prop :=
  ThaxuAIProvider._forceAnswerCooldown (Session.panel w) = true ->
  ThaxuAIProvider._mentorMode (Session.panel w) = true
  /\ In (ThaxuAIProvider._cooldownEndTime (Session.panel w)) (Session.timers w)
  /\ ThaxuAIProvider._cooldownEndTime (Session.panel w) <= Session.clock w + 120000.

(** No pending expiry callback is due yet. *)
Definition NoTimerDue (w : Session.World) : Prop :=
  forall due, In due (Session.timers w) -> Session.clock w < due.

(** The entries of a log without their timestamps. *)
Definition shown (log : list Message) : list (Role * string) :=
  map (fun m => (role m, content m)) log.

(** An attempt followed by its backoff wait. *)
Definition attemptThenWait (attempt : Z) : list Remote.Step :=
  [Remote.Attempt attempt; Remote.Wait (2 ^ (attempt - 1) * 1000)].

(** The backoff waits among the steps of a call, in order. *)
Definition delays (seen : list Remote.Step) : list Z :=
  flat_map (fun s => match s with Remote.Wait ms => [ms] | _ => [] end) seen.

(** The attempt fails: its [try] block throws. *)
Definition fails (b : Remote.Behaviour) : Prop :=
  exists err, Remote.tryAttempt b = inl err.

(** How many attempts in a row fail, from [attempt] on, among at most
    [upTo] of them. *)
Fixpoint failedRun (http : Z -> Remote.Behaviour) (upTo : nat) (attempt : Z) : nat :=
  match upTo with
  | O => O
  | S upTo' =>
      match Remote.tryAttempt (http attempt) with
      | inl _ => S (failedRun http upTo' (attempt + 1))
      | inr _ => O
      end
  end.

(** The capability of the retry scenario: two empty completions, then
    the text. *)
Definition emptyTwiceThen (text : string) : Z -> Remote.Behaviour :=
  fun attempt => if attempt <? 3 then Session.answers "" attempt
                 else Session.answers text attempt.

Definition retry3 : Remote.Options :=
  Remote.mkOptions None None None (Some 3) None.

(** A capability that answers every attempt with status 429, and one
    whose [fetch] rejects with [undefined]. *)
Definition always429 : Z -> Remote.Behaviour :=
  fun _ => Remote.FetchResolves 429 "Too Many Requests" (Remote.JsonResolves Remote.JNull).

Definition rejectsWithUndefined : Z -> Remote.Behaviour :=
  fun _ => Remote.FetchRejects Remote.ThrowsUndefined.

Definition noOptions : Remote.Options :=
  Remote.mkOptions None None None None None.

(** A capability that answers every attempt with status 407, and two
    whose [fetch] rejects for want of a connection, in the words of the
    runtime's own [fetch] and in those of node-fetch. *)
Definition always407 : Z -> Remote.Behaviour :=
  fun _ => Remote.FetchResolves 407 "Proxy Authentication Required"
             (Remote.JsonResolves Remote.JNull).

Definition fetchFailed : Z -> Remote.Behaviour :=
  fun _ => Remote.FetchRejects (Remote.ThrowsError (Remote.typeError "fetch failed")).

Definition requestFailed : Z -> Remote.Behaviour :=
  fun _ => Remote.FetchRejects (Remote.ThrowsError
             (Remote.mkError "FetchError"
                "request to https://ais0909-aigen.hf.space/v1/chat/completions failed, reason: getaddrinfo ENOTFOUND ais0909-aigen.hf.space")).

(** Every value the capability throws is an error object. *)
Definition throwsErrorsOnly (b : Remote.Behaviour) : Prop :=
  match b with
  | Remote.FetchRejects t
  | Remote.FetchResolves _ _ (Remote.JsonRejects t) => exists e, t = Remote.ThrowsError e
  | _ => True
  end.

(** The kinds of failure the final message tells apart. *)
Inductive FailureKind := RateLimit | Authentication | Network | Generic.

(** The kind of a failed attempt by its cause, as the specification sorts
    failures: a status of 429 is a rate limit and a status of 401 an
    authentication failure; a [fetch] that rejects (no connection, or the
    abort at the timeout) or that cannot be loaded is a network failure or
    timeout; every other failure (a server error, another status, a body
    that is not JSON, an empty or unexpected completion) is generic. *)
Definition kindOf (b : Remote.Behaviour) : FailureKind :=
  match b with
  | Remote.FetchUnavailable => Network
  | Remote.FetchRejects _ => Network
  | Remote.FetchResolves status _ _ =>
      if status =? 429 then RateLimit
      else if status =? 401 then Authentication
      else Generic
  end.

(** A text of the capability's that holds neither of the words that stand
    for a rate limit and for an authentication failure. *)
Definition unmarked (text : string) : bool :=
  negb (Js.includes text "Rate limit") && negb (Js.includes text "Authentication").

(** The failures whose message tells their kind. [askAI] words a status of
    429, of 401 and of 500 or more, a [fetch] that cannot be loaded and
    an empty or unexpected completion itself. The other failures come with
    a text of the capability's: the error of a rejected [fetch] is to be
    the [AbortError] of the timeout or to speak of [fetch]; the status text
    of another status and the error of a body that is not JSON are not to;
    and none is to hold the words for a rate limit or an authentication
    failure. *)
Definition tellsItsKind (b : Remote.Behaviour) : bool :=
  match b with
  | Remote.FetchUnavailable => true
  | Remote.FetchRejects (Remote.ThrowsError e) =>
      (String.eqb (Remote.name e) "AbortError" || Js.includes (Remote.message e) "fetch")
      && unmarked (Remote.message e)
  | Remote.FetchRejects _ => false
  | Remote.FetchResolves status statusText body =>
      if Remote.ok status then
        match body with
        | Remote.JsonResolves _ => true
        | Remote.JsonRejects (Remote.ThrowsError e) =>
            negb (String.eqb (Remote.name e) "AbortError")
            && negb (Js.includes (Remote.message e) "fetch")
            && unmarked (Remote.message e)
        | Remote.JsonRejects _ => false
        end
      else
        (status =? 429) || (status =? 401) || (500 <=? status)
        || negb (Js.includes statusText "fetch") && unmarked statusText
  end.

(** Whether a character occurs in a string. *)
Fixpoint occurs (c : ascii) (s : string) : bool :=
  match s with
  | EmptyString => false
  | String a s' => Ascii.eqb a c || occurs c s'
  end.

(** The templated message of each kind; the generic one quotes the message
    of the error. *)
Definition failureText (k : FailureKind) (force : bool) (errMessage : string)
    (h : list Message) : string :=
  let hasHistory := (0 <? length h)%nat in
  let context := ApolloAI.analyzeConversationContext h in
  match k with
  | RateLimit => Remote.rateLimitedText hasHistory context
  | Authentication => Remote.authenticationText
  | Network => Remote.networkText hasHistory context
  | Generic =>
      Remote.connectionFailedText
        (if force then "direct answer" else "learning guidance")
        errMessage hasHistory context
  end.

(** The history is made of whole exchanges: a [user] entry, then an
    [assistant] entry, and so on. *)
Fixpoint wholeExchanges (h : list Message) : bool :=
  match h with
  | [] => true
  | q :: a :: rest =>
      bool_decide (role q = user) && bool_decide (role a = assistant)
      && wholeExchanges rest
  | _ => false
  end.

(** The entries are in the order of their timestamps, none after [now]. *)
Definition Chronological (l : list Message) (now : Z) : Prop :=
  forall i j mi mj,
    (i <= j)%nat -> l !! i = Some mi -> l !! j = Some mj ->
    timestamp mi <= timestamp mj <= now.

Definition total (waits : list Z) : Z := foldr Z.add 0 waits.

(** A capability that answers every attempt with the given status. *)
Definition answersStatus (status : Z) (http : Z -> Remote.Behaviour) : Prop :=
  forall k, exists statusText body, http k = Remote.FetchResolves status statusText body.

(** What one user message makes of the question type, if anything: the
    outcome of the three assignments in the loop of the analysis. *)
Definition verdict (lc : string) : option ApolloAI.QuestionType :=
  if Js.includes lc "output" && (Js.includes lc "print" || Js.includes lc Js.dquote)
  then Some ApolloAI.output_prediction
  else if Js.includes lc "calculator" || Js.includes lc "create" || Js.includes lc "make"
  then Some ApolloAI.project_request
  else if Js.includes lc "print"
  then if Js.includes lc "what" || Js.includes lc "does" || Js.includes lc "use"
       then Some ApolloAI.concept_inquiry
       else if Js.includes lc "output" || Js.includes lc "result"
       then Some ApolloAI.prediction
       else None
  else None.

(** The lower-cased contents of the [user] entries, oldest first. *)
Definition userTexts (l : list Message) : list string :=
  Js.toLowerCase <$> (content <$> filter (fun m => role m = user) l).

Definition mentions (needles : list string) (lc : string) : bool :=
  existsb (Js.includes lc) needles.

(** The last verdict among the texts, [general] when there is none. *)
Definition lastVerdict (texts : list string) : ApolloAI.QuestionType :=
  foldl (fun q lc => default q (verdict lc)) ApolloAI.general texts.

(** The content of the latest entry of a role, empty when there is none. *)
Definition lastContent (r : Role) (l : list Message) : string :=
  default "" (last (content <$> filter (fun m => role m = r) l)).

(** Roles of [k] whole exchanges. *)
Definition exchangeRoles (k : nat) : list Role :=
  concat (replicate k [user; assistant]).

(** No character of the string is a path separator. *)
Definition hasNoSeparator (s : string) : bool :=
  forallb (fun c => negb (Request.isSeparator c)) (list_ascii_of_string s).

(** The entries of one role in a log. *)
Definition countRole (r : Role) (l : list Message) : nat :=
  length (filter (fun m => role m = r) l).

#[global] Instance Origin_eq_dec : EqDecision Session.Origin.
Proof. solve_decision. Defined.

(** The calls in flight that [processMessage] awaits. *)
Definition awaited (cs : list Session.Call) : nat :=
  length (filter (fun c => Session.callOrigin c <> Session.ByCompleteCode) cs).

(** No event of the list clears the panel. *)
Definition neverCleared (es : list Session.Event) : Prop :=
  Forall (fun e => e <> Session.ClearChat /\ e <> Session.WebviewReady) es.

(** The state carried by the last [updateChat] among the posts. *)
Definition lastUpdate (ps : list Webview.Post) : option ThaxuAIProvider.Provider :=
  foldl (fun acc post =>
           match post with
           | Webview.UpdateChat log cooldown force mentor endTime =>
               Some (ThaxuAIProvider.mkProvider log cooldown force mentor endTime)
           | _ => acc
           end) None ps.

(** The posts of a run of the event loop, in order. *)
Fixpoint runPosts (es : list Session.Event) (w : Session.World) : list Webview.Post :=
  match es with
  | [] => []
  | e :: es' => Webview.posts w e ++ runPosts es' (Session.step w e)
  end.

(** A cooldown begun, the chat cleared after [d] ms, force answer used
    again at once, and the clock brought to the end of the first cooldown. *)
Definition clearedAndForcedAgain (d : Z) : list Session.Event :=
  forcedExchange
  ++ [ Session.Tick d; Session.ClearChat ]
  ++ forcedExchange
  ++ [ Session.Tick (120000 - d); Session.TimerFires 0 ].

(** ** The embedding at work *)

Example trim_outer_white_space :
  Js.trim (Js.ofBytes [32; 9; 194; 160]%nat +:+ "Hi there " +:+ Js.nl) = "Hi there".
Proof. reflexivity. Qed.

Example trim_blank : Js.trim ("  " +:+ Js.nl) = "".
Proof. reflexivity. Qed.

Example toLowerCase_includes :
  Js.includes (Js.toLowerCase "What does PRINT do?") "print" = true
  /\ Js.includes "printer" "prints" = false.
Proof. split; reflexivity. Qed.

(** The Kelvin sign lowers to [k] and the dotted capital I to [i] with a
    combining dot, so the first is found by a search for "make" and the
    second is not found by a search for "print". *)
Example toLowerCase_outside_ascii :
  Js.toLowerCase ("ma" +:+ Js.ofBytes [226; 132; 170]%nat +:+ "e it") = "make it"
  /\ Js.toLowerCase ("PR" +:+ Js.ofBytes [196; 176]%nat +:+ "NT")
     = "pri" +:+ Js.ofBytes [204; 135]%nat +:+ "nt"
  /\ Js.includes (Js.toLowerCase ("PR" +:+ Js.ofBytes [196; 176]%nat +:+ "NT")) "print"
     = false.
Proof. repeat split. Qed.

Example analysis_of_kelvin_sign :
  let m := mkMessage user ("ma" +:+ Js.ofBytes [226; 132; 170]%nat +:+ "e it") 0 in
  let c := ApolloAI.analyzeConversationContext [m] in
  ApolloAI.hasCalculatorQuestions c = true
  /\ ApolloAI.questionType c = ApolloAI.project_request.
Proof. split; reflexivity. Qed.

Example remaining_seconds :
  Js.ceilDiv1000 119001 = 120 /\ Js.ceilDiv1000 2000 = 2 /\ Js.ceilDiv1000 (-1500) = -1.
Proof. repeat split. Qed.

Example generated_text_is_read :
  Remote.tryAttempt
    (Remote.FetchResolves 200 "OK"
       (Remote.JsonResolves (Remote.JObj [("generated_text", Remote.JStr " ok ")])))
  = inr " ok ".
Proof. reflexivity. Qed.

Example status_503 :
  Remote.tryAttempt
    (Remote.FetchResolves 503 "Service Unavailable" (Remote.JsonResolves Remote.JNull))
  = inl (Remote.newError "🔧 Server error. The AI service is temporarily unavailable.").
Proof. reflexivity. Qed.

Example status_404 :
  Remote.tryAttempt
    (Remote.FetchResolves 404 "Not Found" (Remote.JsonResolves Remote.JNull))
  = inl (Remote.newError "API Error (404): Not Found").
Proof. reflexivity. Qed.

Example analysis_of_three_exchanges :
  let c := ApolloAI.analyzeConversationContext (appendAll threeExchanges) in
  ApolloAI.hasPrintQuestions c = true
  /\ ApolloAI.questionType c = ApolloAI.concept_inquiry
  /\ ApolloAI.userProgression c = ApolloAI.intermediate
  /\ ApolloAI.lastUserQuestion c = "thanks"
  /\ ApolloAI.conversationLength c = 6%nat.
Proof. repeat split. Qed.

Example cooldown_after_forced_exchange :
  Session.panel (Session.run forcedExchange (Session.initial 0))
  = ThaxuAIProvider.mkProvider
      [mkMessage user "fix this" 0; mkMessage assistant "done" 0]
      true true true 120000
  /\ Session.timers (Session.run forcedExchange (Session.initial 0)) = [120000].
Proof. split; reflexivity. Qed.

(** ** ConversationHistory *)

Section History.

Implicit Types (h l : list Message) (m : Message).

Lemma sliceLast_length {A} (n : nat) (l : list A) :
  length (Js.sliceLast n l) = Nat.min n (length l).
Proof. unfold Js.sliceLast. rewrite length_drop. lia. Qed.

Lemma sliceLast_short {A} (n : nat) (l : list A) :
  (length l <= n)%nat -> Js.sliceLast n l = l.
Proof.
  intros H. unfold Js.sliceLast.
  replace (length l - n)%nat with 0%nat by lia. reflexivity.
Qed.

Lemma sliceLast_snoc {A} (n m : nat) (l : list A) (x : A) :
  (1 <= n <= S m)%nat ->
  Js.sliceLast n (Js.sliceLast m l ++ [x]) = Js.sliceLast n (l ++ [x]).
Proof.
  intros Hn. unfold Js.sliceLast. rewrite !length_app, length_drop. simpl.
  destruct (decide (length l <= m)%nat) as [Hle | Hgt].
  - replace (length l - m)%nat with 0%nat by lia.
    rewrite drop_0, Nat.sub_0_r. reflexivity.
  - rewrite !drop_app_le by (rewrite ?length_drop; lia).
    rewrite drop_drop. f_equal. f_equal. lia.
Qed.

Lemma addToHistory_sliceLast h r c now :
  (length h <= 8)%nat ->
  ApolloAI.addToHistory h r c now = Js.sliceLast 8 (h ++ [mkMessage r c now]).
Proof.
  intros Hlen. unfold ApolloAI.addToHistory. cbv zeta.
  destruct (8 <? length (h ++ [mkMessage r c now]))%nat eqn:E; [reflexivity|].
  apply Nat.ltb_ge in E. symmetry. apply sliceLast_short. exact E.
Qed.

Lemma appendAll_snoc l m :
  appendAll (l ++ [m]) =
  ApolloAI.addToHistory (appendAll l) (role m) (content m) (timestamp m).
Proof. unfold appendAll. rewrite fold_left_app. reflexivity. Qed.

Lemma appendAll_sliceLast l : appendAll l = Js.sliceLast 8 l.
Proof.
  induction l as [| m l IH] using rev_ind; [reflexivity|].
  rewrite appendAll_snoc, IH.
  rewrite addToHistory_sliceLast by (rewrite sliceLast_length; lia).
  destruct m as [r c t]. simpl. apply sliceLast_snoc. lia.
Qed.

Lemma addToHistory_length h r c now :
  (length h <= 8)%nat -> (length (ApolloAI.addToHistory h r c now) <= 8)%nat.
Proof.
  intros H. rewrite addToHistory_sliceLast by exact H.
  rewrite sliceLast_length. lia.
Qed.

Lemma addToHistory_last h r c now :
  last (ApolloAI.addToHistory h r c now) = Some (mkMessage r c now).
Proof.
  unfold ApolloAI.addToHistory. cbv zeta.
  destruct (8 <? length (h ++ [mkMessage r c now]))%nat eqn:E.
  - apply Nat.ltb_lt in E. unfold Js.sliceLast.
    rewrite length_app in *. simpl in *.
    rewrite drop_app_le by lia. apply last_snoc.
  - apply last_snoc.
Qed.

(** C5. After any prefix of any sequence of [addToHistory] calls on the
    empty history, the history holds min(number of calls, 8) entries, and
    they are the most recently appended ones in the order of the calls. *)
Theorem history_keeps_last_eight (appended : list Message) (k : nat) :
  let done := take k appended in
  length (appendAll done) = Nat.min (length done) 8
  /\ appendAll done = drop (length done - 8) done.
Proof.
  intros done. rewrite appendAll_sliceLast. split.
  - rewrite sliceLast_length. lia.
  - reflexivity.
Qed.

Example history_after_ten_calls :
  map content
    (appendAll (map (fun c => mkMessage user c 0)
       ["a"; "b"; "c"; "d"; "e"; "f"; "g"; "h"; "i"; "j"]))
  = ["c"; "d"; "e"; "f"; "g"; "h"; "i"; "j"].
Proof. reflexivity. Qed.

End History.

(** ** ConversationContextAnalyzer *)

Section Analysis.

Import ApolloAI.

(** The loop never looks at [conversationLength], and never writes it. *)
Lemma scanMessage_setLength n st msg :
  scanMessage (setLengthScan n st) msg = setLengthScan n (scanMessage st msg).
Proof. unfold scanMessage. destruct (role msg); reflexivity. Qed.

Lemma scan_setLength n l st :
  fold_left scanMessage l (setLengthScan n st)
  = setLengthScan n (fold_left scanMessage l st).
Proof.
  revert st. induction l as [| msg l IH]; intros st; [reflexivity|].
  simpl. rewrite scanMessage_setLength. apply IH.
Qed.

(** Nor does it touch [userProgression]. *)
Lemma scan_userProgression l st :
  userProgression (context (fold_left scanMessage l st))
  = userProgression (context st).
Proof.
  revert st. induction l as [| msg l IH]; intros st; [reflexivity|].
  simpl. rewrite IH. unfold scanMessage. destruct (role msg); reflexivity.
Qed.

Lemma analyze_by_recent h :
  let st := scanRecent (Js.sliceLast 6 h) in
  let c := context st in
  analyzeConversationContext h =
  mkContext (hasCodeQuestions c) (hasPrintQuestions c) (hasCalculatorQuestions c)
    (repeatedTopics c)
    (if hasCodeQuestions c && (2 <? length h)%nat then hands_on
     else if (4 <? length h)%nat then intermediate else beginner)
    (lastUserQuestion c) (lastAssistantResponse c) (length h)
    (if checkContinuity (userQuestions st) then true else topicContinuity c)
    (questionType c).
Proof.
  intros st c. unfold analyzeConversationContext. cbv zeta.
  change (mkScan (initialContext (length h)) [] [])
    with (setLengthScan (length h) (mkScan (initialContext 0) [] [])).
  rewrite scan_setLength. fold (scanRecent (Js.sliceLast 6 h)). fold st.
  unfold progression. simpl. fold c.
  replace (userProgression c) with beginner; [reflexivity|].
  unfold c, st, scanRecent. rewrite scan_userProgression. reflexivity.
Qed.

Lemma analyze_conversationLength h :
  conversationLength (analyzeConversationContext h) = length h.
Proof. rewrite analyze_by_recent. reflexivity. Qed.

Lemma sliceLast_eq_lengths {A} (n : nat) (l1 l2 : list A) :
  Js.sliceLast n l1 = Js.sliceLast n l2 ->
  length l1 = length l2 \/ (n <= length l1 /\ n <= length l2)%nat.
Proof.
  intros H. apply (f_equal length) in H. rewrite !sliceLast_length in H. lia.
Qed.

(** C9, as the code has it. Two histories with the same last six entries
    (the whole history when it is shorter) get the same signals, all but
    [conversationLength], which is the length of the whole history. *)
Theorem analysis_reads_last_six (h1 h2 : list Message) :
  Js.sliceLast 6 h1 = Js.sliceLast 6 h2 ->
  forgetLength (analyzeConversationContext h1)
  = forgetLength (analyzeConversationContext h2)
  /\ conversationLength (analyzeConversationContext h1) = length h1
  /\ conversationLength (analyzeConversationContext h2) = length h2.
Proof.
  intros H. split; [| split; apply analyze_conversationLength].
  rewrite !analyze_by_recent. cbv zeta. rewrite H.
  unfold forgetLength, setLength. simpl.
  f_equal.
  destruct (sliceLast_eq_lengths _ _ _ H) as [-> | [H1 H2]]; [reflexivity|].
  replace (2 <? length h1)%nat with true by (symmetry; apply Nat.ltb_lt; lia).
  replace (2 <? length h2)%nat with true by (symmetry; apply Nat.ltb_lt; lia).
  replace (4 <? length h1)%nat with true by (symmetry; apply Nat.ltb_lt; lia).
  replace (4 <? length h2)%nat with true by (symmetry; apply Nat.ltb_lt; lia).
  reflexivity.
Qed.

Lemma analysis_reads_last_six_witness :
  Js.sliceLast 6 (appendAll threeExchanges) = Js.sliceLast 6 (appendAll fourExchanges)
  /\ forgetLength (analyzeConversationContext (appendAll threeExchanges))
     = forgetLength (analyzeConversationContext (appendAll fourExchanges)).
Proof.
  split; [reflexivity|].
  apply (analysis_reads_last_six (appendAll threeExchanges) (appendAll fourExchanges)).
  reflexivity.
Defined.

(** C9 as stated fails: after three and after four exchanges the last six
    entries are the same, and [conversationLength] is 6 and 8. *)
Lemma analysis_not_only_last_six :
  ~ (forall h1 h2 : list Message,
       Js.sliceLast 6 h1 = Js.sliceLast 6 h2 ->
       analyzeConversationContext h1 = analyzeConversationContext h2).
Proof.
  intros H.
  specialize (H (appendAll threeExchanges) (appendAll fourExchanges) eq_refl).
  apply (f_equal conversationLength) in H. vm_compute in H. discriminate H.
Qed.

End Analysis.

(** ** RemoteCompletionClient *)

Section Retry.

Import Remote.

Variable prompt : string.
Variable options : Options.
Variable http : Z -> Behaviour.
Variable h : list Message.
Variable now : Z.

Local Abbreviation n := (retriesOf options).
Local Abbreviation loop := (attempts prompt options http h now).

(** One iteration of the loop. *)
Lemma attempts_S fuel attempt seen :
  loop (S fuel) attempt seen =
  match tryAttempt (http attempt) with
  | inr responseText =>
      mkAskResult (Returned (Js.trim responseText))
        (ApolloAI.addToHistory (ApolloAI.addToHistory h user prompt now)
           assistant (Js.trim responseText) now)
        (seen ++ [Attempt attempt])
  | inl err =>
      if attempt =? n
      then mkAskResult (lastFailure (forceModeOf options) h err) h
                       (seen ++ [Attempt attempt])
      else loop fuel (attempt + 1)
                ((seen ++ [Attempt attempt]) ++ [Wait (waitTime attempt)])
  end.
Proof. reflexivity. Qed.

(** The attempts and waits of a run of the loop. *)
Lemma attempts_trace fuel attempt seen :
  S fuel = Z.to_nat (n - attempt + 1) ->
  trace (loop (S fuel) attempt seen)
  = seen ++ flat_map attemptThenWait (zseq attempt (failedRun http fuel attempt))
         ++ [Attempt (attempt + Z.of_nat (failedRun http fuel attempt))].
Proof.
  revert attempt seen.
  induction fuel as [| fuel IH]; intros attempt seen Hfuel; rewrite attempts_S.
  - cbn [failedRun zseq flat_map app Z.of_nat]. rewrite Z.add_0_r.
    destruct (tryAttempt (http attempt)); [| reflexivity].
    replace (attempt =? n) with true by (symmetry; apply Z.eqb_eq; lia).
    reflexivity.
  - cbn [failedRun].
    destruct (tryAttempt (http attempt)) as [err | text] eqn:Etry.
    + replace (attempt =? n) with false by (symmetry; apply Z.eqb_neq; lia).
      rewrite IH by lia. cbn [zseq flat_map attemptThenWait app].
      rewrite <- !app_assoc. cbn [app]. unfold waitTime.
      rewrite Nat2Z.inj_succ. do 6 f_equal. lia.
    + cbn [zseq flat_map app Z.of_nat trace]. rewrite Z.add_0_r. reflexivity.
Qed.

(** Failed attempts before the last one are passed over. *)
Lemma attempts_skip_failed (m : nat) fuel attempt seen :
  (forall k, attempt <= k < attempt + Z.of_nat m -> fails (http k)) ->
  attempt + Z.of_nat m <= n ->
  loop (m + fuel) attempt seen
  = loop fuel (attempt + Z.of_nat m)
         (seen ++ flat_map attemptThenWait (zseq attempt m)).
Proof.
  revert attempt seen.
  induction m as [| m IH]; intros attempt seen Hfail Hn.
  - cbn [zseq flat_map Nat.add Z.of_nat]. rewrite app_nil_r, Z.add_0_r. reflexivity.
  - destruct (Hfail attempt ltac:(lia)) as [err Herr].
    change (S m + fuel)%nat with (S (m + fuel)). rewrite attempts_S, Herr.
    replace (attempt =? n) with false by (symmetry; apply Z.eqb_neq; lia).
    rewrite IH; [| intros k Hk; apply Hfail; lia | lia].
    cbn [zseq flat_map attemptThenWait app]. rewrite <- !app_assoc. cbn [app].
    unfold waitTime. f_equal. lia.
Qed.

End Retry.

Section RemoteProperties.

Import Remote.

Lemma delays_schedule start len :
  delays (flat_map attemptThenWait (zseq start len))
  = map (fun k => 2 ^ (k - 1) * 1000) (zseq start len).
Proof.
  revert start. induction len as [| len IH]; intros start; [reflexivity|].
  cbn [zseq flat_map map attemptThenWait app delays]. fold (delays).
  f_equal. apply IH.
Qed.

Lemma delays_app s1 s2 : delays (s1 ++ s2) = delays s1 ++ delays s2.
Proof. unfold delays. apply flat_map_app. Qed.

Lemma failedRun_le http upTo attempt : (failedRun http upTo attempt <= upTo)%nat.
Proof.
  revert attempt. induction upTo as [| upTo IH]; intros attempt; simpl; [lia|].
  destruct (tryAttempt (http attempt)); [| lia].
  specialize (IH (attempt + 1)). lia.
Qed.

Lemma tryAttempt_answers text attempt :
  text <> "" -> tryAttempt (Session.answers text attempt) = inr text.
Proof.
  intros Htext. apply String.eqb_neq in Htext.
  cbn. rewrite Htext. cbn. rewrite Htext. reflexivity.
Qed.

Lemma tryAttempt_answers_empty attempt :
  tryAttempt (Session.answers "" attempt)
  = inl (newError "Empty response from AI service").
Proof. reflexivity. Qed.

(** C6. With a retry budget [n >= 1], the call makes attempts 1, 2, ...
    and, after the k-th failed attempt with k < n, waits 2^(k-1) * 1000 ms
    before attempt k+1; the last step is always an attempt, so nothing is
    waited after attempt n. With a budget below 1 nothing is attempted.
    The budget is 3 when none is given. When the
    first two attempts get an empty completion and the third gets a text,
    with a budget of 3, the text (trimmed) is returned and the waits are
    1000 ms and 2000 ms, in that order. *)
Theorem backoff_schedule :
  (forall prompt options http h now,
     1 <= retriesOf options ->
     let f := failedRun http (Z.to_nat (retriesOf options) - 1) 1 in
     let r := askAI prompt options http h now in
     trace r = flat_map attemptThenWait (zseq 1 f) ++ [Attempt (1 + Z.of_nat f)]
     /\ delays (trace r) = map (fun k => 2 ^ (k - 1) * 1000) (zseq 1 f)
     /\ Z.of_nat f < retriesOf options)
  /\ (forall prompt options http h now,
        retriesOf options <= 0 -> trace (askAI prompt options http h now) = [])
  /\ (forall t m c f, retriesOf (mkOptions t m c None f) = 3)
  /\ (forall prompt h now text,
        text <> "" ->
        let r := askAI prompt retry3 (emptyTwiceThen text) h now in
        settled r = Returned (Js.trim text)
        /\ trace r = [Attempt 1; Wait 1000; Attempt 2; Wait 2000; Attempt 3]
        /\ delays (trace r) = [1000; 2000]).
Proof.
  split; [| split; [| split]].
  - intros prompt options http h now Hn f r. subst r. unfold askAI.
    destruct (Z.to_nat (retriesOf options)) as [| fuel] eqn:Efuel; [lia|].
    assert (Htrace := attempts_trace prompt options http h now fuel 1 []
                        ltac:(lia)).
    cbn [app] in Htrace. subst f. rewrite Nat.sub_succ, Nat.sub_0_r.
    split; [exact Htrace|]. split.
    + rewrite Htrace, delays_app, delays_schedule. cbn. apply app_nil_r.
    + pose proof (failedRun_le http fuel 1). lia.
  - intros prompt options http h now Hn. unfold askAI.
    replace (Z.to_nat (retriesOf options)) with 0%nat by lia. reflexivity.
  - reflexivity.
  - intros prompt h now text Htext r. subst r.
    unfold askAI. change (Z.to_nat (retriesOf retry3)) with 3%nat.
    rewrite attempts_S.
    change (emptyTwiceThen text 1) with (Session.answers "" 1).
    rewrite tryAttempt_answers_empty. change (1 =? retriesOf retry3) with false.
    cbv iota. rewrite attempts_S.
    change (emptyTwiceThen text (1 + 1)) with (Session.answers "" 2).
    rewrite tryAttempt_answers_empty. change (1 + 1 =? retriesOf retry3) with false.
    cbv iota. rewrite attempts_S.
    change (emptyTwiceThen text (1 + 1 + 1)) with (Session.answers text 3).
    rewrite tryAttempt_answers by exact Htext.
    repeat split.
Qed.

Lemma backoff_schedule_witness :
  (1 <= retriesOf retry3
   /\ trace (askAI "hello" retry3 always429 [] 0)
      = [Attempt 1; Wait 1000; Attempt 2; Wait 2000; Attempt 3])
  /\ (retriesOf (mkOptions None None None (Some 0) None) <= 0
      /\ trace (askAI "hello" (mkOptions None None None (Some 0) None) always429 [] 0)
         = [])
  /\ ("Hi there" <> ""
      /\ settled (askAI "hello" retry3 (emptyTwiceThen "Hi there") [] 0)
         = Returned "Hi there"
      /\ delays (trace (askAI "hello" retry3 (emptyTwiceThen "Hi there") [] 0))
         = [1000; 2000]).
Proof.
  destruct backoff_schedule as [Hmany [Hnone [_ Hscenario]]].
  assert (H3 : 1 <= retriesOf retry3) by (vm_compute; discriminate).
  assert (H0 : retriesOf (mkOptions None None None (Some 0) None) <= 0)
    by (vm_compute; discriminate).
  assert (Htext : "Hi there" <> "") by discriminate.
  split; [| split].
  - split; [exact H3|]. exact (proj1 (Hmany "hello" retry3 always429 [] 0 H3)).
  - split; [exact H0|]. exact (Hnone "hello" _ always429 [] 0 H0).
  - split; [exact Htext|].
    destruct (Hscenario "hello" [] 0 "Hi there" Htext) as [H1 [_ H2]].
    split; [exact H1 | exact H2].
Defined.

End RemoteProperties.

Section Failure.

Import Remote.

(** Whatever the body of a successful response holds, what [extract]
    throws is an error object. *)
Lemma extract_throws_error json t :
  extract json = inl t -> exists e, t = ThrowsError e.
Proof.
  unfold extract, newError. intros H.
  repeat case_match; simplify_eq; eauto.
Qed.

Lemma tryAttempt_throws_error b t :
  throwsErrorsOnly b -> tryAttempt b = inl t -> exists e, t = ThrowsError e.
Proof.
  intros Hthrows H. destruct b as [| t' | status statusText body].
  - inversion H. unfold newError. eauto.
  - simpl in H. inversion H; subst. exact Hthrows.
  - simpl in H. unfold newError in H.
    destruct (negb (ok status)).
    + repeat case_match; simplify_eq; eauto.
    + destruct body as [t' | json].
      * inversion H; subst. exact Hthrows.
      * eapply extract_throws_error; exact H.
Qed.

(** The last [catch], test by test. *)
Lemma lastFailure_rate_limit force h e :
  Js.includes (message e) "Rate limit" = true ->
  lastFailure force h (ThrowsError e)
  = Returned (failureText RateLimit force (message e) h).
Proof. intros H. unfold lastFailure. rewrite H. reflexivity. Qed.

Lemma lastFailure_authentication force h e :
  Js.includes (message e) "Rate limit" = false ->
  Js.includes (message e) "Authentication" = true ->
  lastFailure force h (ThrowsError e)
  = Returned (failureText Authentication force (message e) h).
Proof. intros H1 H2. unfold lastFailure. rewrite H1, H2. reflexivity. Qed.

Lemma lastFailure_network force h e :
  unmarked (message e) = true ->
  Js.includes (message e) "fetch" || String.eqb (name e) "AbortError" = true ->
  lastFailure force h (ThrowsError e)
  = Returned (failureText Network force (message e) h).
Proof.
  unfold unmarked. intros [H1 H2]%andb_true_iff H3.
  apply negb_true_iff in H1, H2.
  unfold lastFailure. rewrite H1, H2, H3. reflexivity.
Qed.

Lemma lastFailure_generic force h e :
  unmarked (message e) = true ->
  Js.includes (message e) "fetch" = false ->
  String.eqb (name e) "AbortError" = false ->
  lastFailure force h (ThrowsError e)
  = Returned (failureText Generic force (message e) h).
Proof.
  unfold unmarked. intros [H1 H2]%andb_true_iff H3 H4.
  apply negb_true_iff in H1, H2.
  unfold lastFailure. rewrite H1, H2, H3, H4. reflexivity.
Qed.

(** Whatever the error, the text is one of the four templates. *)
Lemma lastFailure_templated force h e :
  exists k,
    lastFailure force h (ThrowsError e)
    = Returned (failureText k force (message e) h).
Proof.
  destruct (Js.includes (message e) "Rate limit") eqn:H1;
    [exists RateLimit; apply lastFailure_rate_limit; exact H1|].
  destruct (Js.includes (message e) "Authentication") eqn:H2;
    [exists Authentication; apply lastFailure_authentication; assumption|].
  assert (Hun : unmarked (message e) = true) by (unfold unmarked; rewrite H1, H2; reflexivity).
  destruct (Js.includes (message e) "fetch" || String.eqb (name e) "AbortError") eqn:H3;
    [exists Network; apply lastFailure_network; assumption|].
  apply orb_false_iff in H3 as [H3 H4].
  exists Generic. apply lastFailure_generic; assumption.
Qed.

(** A search for a needle whose first character does not occur in the
    front part of a string is a search in the rest. *)
Lemma includes_fresh_front (front rest : string) (c : ascii) (needle : string) :
  occurs c front = false ->
  Js.includes (front +:+ rest) (String c needle)
  = Js.includes rest (String c needle).
Proof.
  induction front as [| a front IH]; intros Hfresh; [reflexivity|].
  cbn [occurs] in Hfresh. apply orb_false_iff in Hfresh as [Hac Hfront].
  change (String a front +:+ rest) with (String a (front +:+ rest)).
  cbn [Js.includes String.prefix].
  destruct (ascii_dec c a) as [-> | _].
  - rewrite Ascii.eqb_refl in Hac. discriminate Hac.
  - cbn [orb]. apply IH. exact Hfront.
Qed.

(** The decimal digits of a status hold no letter. *)
Lemma occurs_digits (c : ascii) (d : Decimal.uint) :
  occurs c "0123456789" = false ->
  occurs c (NilEmpty.string_of_uint d) = false.
Proof.
  intros Hc. cbn in Hc. repeat (apply orb_false_iff in Hc as [? Hc]).
  induction d; cbn [NilEmpty.string_of_uint occurs]; [reflexivity | ..];
    apply orb_false_iff; split; assumption.
Qed.

Lemma occurs_ofZ (c : ascii) (status : Z) :
  occurs c "-0123456789" = false -> occurs c (Js.ofZ status) = false.
Proof.
  intros Hc. cbn [occurs] in Hc. apply orb_false_iff in Hc as [Hminus Hc].
  unfold Js.ofZ, NilZero.string_of_int.
  assert (Hzero : occurs c "0" = false).
  { cbn in Hc |- *. repeat (apply orb_false_iff in Hc as [? Hc]).
    apply orb_false_iff; split; [assumption | reflexivity]. }
  assert (Huint : forall d, occurs c (NilZero.string_of_uint d) = false).
  { intros d. unfold NilZero.string_of_uint.
    destruct d; try exact Hzero; apply (occurs_digits c); exact Hc. }
  destruct (Z.to_int status) as [d | d]; [apply Huint|].
  cbn [occurs]. apply orb_false_iff. split; [exact Hminus | apply Huint].
Qed.

(** In the message for a status [askAI] has no words of its own for, only
    the status text can hold one of the words the last [catch] looks for. *)
Lemma includes_api_error status statusText (c : ascii) (needle : string) :
  (forall rest,
     Js.includes ("API Error (" +:+ rest) (String c needle)
     = Js.includes rest (String c needle)) ->
  occurs c "): -0123456789" = false ->
  Js.includes ("API Error (" +:+ Js.ofZ status +:+ "): " +:+ statusText) (String c needle)
  = Js.includes statusText (String c needle).
Proof.
  intros Hfront Hc.
  assert (H1 : occurs c "): " = false /\ occurs c "-0123456789" = false).
  { cbn in Hc |- *. repeat (apply orb_false_iff in Hc as [? Hc]).
    split; repeat (apply orb_false_iff; split); assumption || reflexivity. }
  destruct H1 as (Hb & Hd).
  rewrite Hfront.
  rewrite includes_fresh_front by (apply occurs_ofZ; exact Hd).
  apply includes_fresh_front. exact Hb.
Qed.

(** What [extract] throws holds none of the words, whatever the body. *)
Lemma extract_generic force h json e :
  extract json = inl (ThrowsError e) ->
  lastFailure force h (ThrowsError e)
  = Returned (failureText Generic force (message e) h).
Proof.
  unfold extract, newError, typeError. intros H.
  repeat case_match; simplify_eq; apply lastFailure_generic; reflexivity.
Qed.

(** Where the message tells the kind, the last [catch] picks the template
    of the kind the failure has by its cause. *)
Lemma lastFailure_by_cause force h b e :
  tryAttempt b = inl (ThrowsError e) ->
  tellsItsKind b = true ->
  lastFailure force h (ThrowsError e)
  = Returned (failureText (kindOf b) force (message e) h).
Proof.
  intros Htry Htells. destruct b as [| t | status statusText body].
  - inversion Htry; subst. apply lastFailure_network; reflexivity.
  - cbn in Htry. inversion Htry; subst t. cbn in Htells.
    apply andb_true_iff in Htells as [Hnet Hun].
    apply lastFailure_network; [exact Hun | rewrite orb_comm; exact Hnet].
  - cbn [tryAttempt] in Htry. cbn [tellsItsKind kindOf] in *.
    destruct (ok status) eqn:Hok; cbn [negb] in Htry.
    + assert (H429 : (status =? 429) = false)
        by (apply Z.eqb_neq; unfold ok in Hok; lia).
      assert (H401 : (status =? 401) = false)
        by (apply Z.eqb_neq; unfold ok in Hok; lia).
      rewrite H429, H401.
      destruct body as [t | json].
      * inversion Htry; subst t.
        apply andb_true_iff in Htells as [[Hname Hfetch]%andb_true_iff Hun].
        apply negb_true_iff in Hname, Hfetch.
        apply lastFailure_generic; assumption.
      * eapply extract_generic; exact Htry.
    + destruct (status =? 429) eqn:H429.
      { inversion Htry; subst. apply lastFailure_rate_limit. reflexivity. }
      destruct (status =? 401) eqn:H401.
      { inversion Htry; subst. apply lastFailure_authentication; reflexivity. }
      destruct (status >=? 500) eqn:H500.
      { inversion Htry; subst. apply lastFailure_generic; reflexivity. }
      assert (H500' : (500 <=? status) = false).
      { apply Z.leb_gt. rewrite Z.geb_leb in H500. apply Z.leb_gt in H500. exact H500. }
      rewrite H500' in Htells. cbn [orb] in Htells.
      apply andb_true_iff in Htells as [Hfetch Hun].
      apply negb_true_iff in Hfetch.
      unfold unmarked in Hun. unfold newError in Htry. inversion Htry; subst e.
      apply lastFailure_generic; cbn [message name]; [unfold unmarked | | reflexivity];
        rewrite !includes_api_error
          by (reflexivity || (intros rest; vm_compute; reflexivity));
        assumption.
Qed.

Lemma attempts_return prompt options http h now fuel attempt seen :
  throwsErrorsOnly (http (retriesOf options)) ->
  exists text,
    settled (attempts prompt options http h now fuel attempt seen) = Returned text.
Proof.
  intros Hthrows. revert attempt seen.
  induction fuel as [| fuel IH]; intros attempt seen.
  - simpl. eauto.
  - rewrite attempts_S.
    destruct (tryAttempt (http attempt)) as [t | text] eqn:Etry; [| simpl; eauto].
    destruct (Z.eqb_spec attempt (retriesOf options)) as [-> | _]; [| apply IH].
    destruct (tryAttempt_throws_error _ _ Hthrows Etry) as [e ->].
    cbn [settled]. destruct (lastFailure_templated (forceModeOf options) h e) as [k ->].
    eauto.
Qed.

(** C7, as the code has it. When the value thrown at the last attempt,
    if any, is an error object (it has a string [message]), [askAI] settles
    by returning a text, whatever the prompt, the options, the status
    codes, the bodies and the failures of the earlier attempts. When all
    [n >= 1] attempts fail, the text is one of the four templated messages
    (the generic one quoting the last error), and it is the one of the kind
    of the last failure wherever the message of that failure tells its
    kind: always for a status of 429, of 401 or of 500 and more, for a
    [fetch] that cannot be loaded and for an empty or unexpected
    completion; for a timeout, a rejected [fetch], another status and a
    body that is not JSON as far as the text that the capability supplies
    with them allows. *)
Theorem askAI_returns_text prompt options http h now :
  throwsErrorsOnly (http (retriesOf options)) ->
  let r := askAI prompt options http h now in
  let n := retriesOf options in
  (exists text, settled r = Returned text)
  /\ (1 <= n ->
      (forall k, 1 <= k <= n -> fails (http k)) ->
      exists e,
        tryAttempt (http n) = inl (ThrowsError e)
        /\ (exists k,
              settled r = Returned (failureText k (forceModeOf options) (message e) h))
        /\ (tellsItsKind (http n) = true ->
            settled r
            = Returned (failureText (kindOf (http n)) (forceModeOf options)
                          (message e) h))).
Proof.
  intros Hthrows r n. split.
  - apply attempts_return. exact Hthrows.
  - intros Hn Hfail.
    destruct (Hfail n ltac:(lia)) as [t Ht].
    destruct (tryAttempt_throws_error _ _ Hthrows Ht) as [e ->].
    assert (Hr : settled r = lastFailure (forceModeOf options) h (ThrowsError e)).
    { subst r. unfold askAI. fold n.
      replace (Z.to_nat n) with (Z.to_nat (n - 1) + 1)%nat by lia.
      rewrite attempts_skip_failed;
        [| intros k Hk; apply Hfail; lia | fold n; lia].
      replace (1 + Z.of_nat (Z.to_nat (n - 1))) with n by lia.
      change (1%nat) with (S O). rewrite attempts_S, Ht.
      fold n. rewrite Z.eqb_refl. reflexivity. }
    exists e. split; [exact Ht|]. rewrite Hr. split.
    + apply lastFailure_templated.
    + intros Htells. apply lastFailure_by_cause; assumption.
Qed.

Lemma askAI_returns_text_witness :
  throwsErrorsOnly (always429 (retriesOf noOptions))
  /\ settled (askAI "hello" noOptions always429 [] 0)
     = Returned (rateLimitedText false (ApolloAI.analyzeConversationContext [])).
Proof.
  assert (Hthrows : throwsErrorsOnly (always429 (retriesOf noOptions))) by exact I.
  split; [exact Hthrows|].
  destruct (askAI_returns_text "hello" noOptions always429 [] 0 Hthrows) as [_ H].
  destruct H as [e [He [_ Hs]]].
  - vm_compute. discriminate.
  - intros k _. eexists. reflexivity.
  - exact (Hs eq_refl).
Defined.

(** C7 as stated fails, twice. When [fetch] rejects with [undefined],
    reading [err.message] in the last [catch] throws, and the promise of
    [askAI] is rejected. And the wording does not always follow the kind
    of the last failure: a status of 407 is a failure of the generic kind,
    and with the status text "Proxy Authentication Required" the call ends
    with the authentication message. *)
Lemma askAI_can_throw :
  ~ (forall prompt options http h now,
       exists text, settled (askAI prompt options http h now) = Returned text)
  /\ ~ (forall prompt options http h now,
          throwsErrorsOnly (http (retriesOf options)) ->
          1 <= retriesOf options ->
          (forall k, 1 <= k <= retriesOf options -> fails (http k)) ->
          exists m,
            settled (askAI prompt options http h now)
            = Returned (failureText (kindOf (http (retriesOf options)))
                          (forceModeOf options) m h)).
Proof.
  split.
  - intros H.
    destruct (H "hello" noOptions rejectsWithUndefined [] 0) as [text Htext].
    vm_compute in Htext. discriminate Htext.
  - intros H.
    destruct (H "hello" noOptions always407 [] 0) as [m Hm].
    + exact I.
    + vm_compute. discriminate.
    + intros k _. eexists. reflexivity.
    + vm_compute in Hm. discriminate Hm.
Qed.

(** Two failures of one kind, worded differently: without a connection,
    the runtime's own [fetch] rejects with "fetch failed" and the call ends
    with the network message; node-fetch rejects with "request to ...
    failed", and the call ends with the generic message. *)
Lemma network_failure_wording :
  kindOf (fetchFailed 3) = kindOf (requestFailed 3)
  /\ settled (askAI "hello" noOptions fetchFailed [] 0)
     = Returned (failureText Network false "fetch failed" [])
  /\ settled (askAI "hello" noOptions requestFailed [] 0)
     = Returned (failureText Generic false
         "request to https://ais0909-aigen.hf.space/v1/chat/completions failed, reason: getaddrinfo ENOTFOUND ais0909-aigen.hf.space"
         []).
Proof. repeat split. Qed.

(** A call that succeeds at attempt [j], after failing before. *)
Lemma askAI_success prompt options http h now (j : Z) text :
  1 <= j <= retriesOf options ->
  (forall k, 1 <= k < j -> fails (http k)) ->
  tryAttempt (http j) = inr text ->
  let r := askAI prompt options http h now in
  settled r = Returned (Js.trim text)
  /\ history r
     = ApolloAI.addToHistory (ApolloAI.addToHistory h user prompt now)
         assistant (Js.trim text) now.
Proof.
  intros Hj Hfail Hok r. subst r. unfold askAI.
  replace (Z.to_nat (retriesOf options))
    with (Z.to_nat (j - 1) + S (Z.to_nat (retriesOf options - j)))%nat by lia.
  rewrite attempts_skip_failed; [| intros k Hk; apply Hfail; lia | lia].
  replace (1 + Z.of_nat (Z.to_nat (j - 1))) with j by lia.
  rewrite attempts_S, Hok. split; reflexivity.
Qed.

(** A call that does not succeed leaves the shared history as it was. *)
Lemma attempts_history prompt options http h now fuel attempt seen :
  let r := attempts prompt options http h now fuel attempt seen in
  history r = h
  \/ exists j text,
       tryAttempt (http j) = inr text
       /\ settled r = Returned (Js.trim text)
       /\ history r
          = ApolloAI.addToHistory (ApolloAI.addToHistory h user prompt now)
              assistant (Js.trim text) now.
Proof.
  revert attempt seen. induction fuel as [| fuel IH]; intros attempt seen.
  - left. reflexivity.
  - cbv zeta. rewrite attempts_S.
    destruct (tryAttempt (http attempt)) as [t | text] eqn:Etry.
    + destruct (attempt =? retriesOf options); [left; reflexivity | apply IH].
    + right. exists attempt, text. repeat split. exact Etry.
Qed.

End Failure.

(** ** SessionController *)

Section SessionProperties.

Import ThaxuAIProvider Session.

Lemma withPanel_same w : withPanel w (panel w) = w.
Proof. destruct w. reflexivity. Qed.

(** [processMessage] only appends to the display log. *)
Lemma processMessage_flags p outcome now :
  let p' := processMessage p outcome now in
  _forceAnswerCooldown p' = _forceAnswerCooldown p
  /\ _forceAnswerEnabled p' = _forceAnswerEnabled p
  /\ _mentorMode p' = _mentorMode p
  /\ _cooldownEndTime p' = _cooldownEndTime p.
Proof.
  unfold processMessage. destruct outcome as [response | error].
  - destruct (negb (response =? "")%string && (0 <? String.length response)%nat);
      repeat split.
  - repeat split.
Qed.

Lemma processMessage_log p outcome now :
  _chatHistory (processMessage p outcome now)
  = _chatHistory p ++ [mkMessage assistant (replyText outcome) now].
Proof.
  unfold processMessage, replyText. destruct outcome as [response | error].
  - destruct (String.eqb_spec response "") as [-> | Hne]; [reflexivity|].
    destruct response as [| c response]; [contradiction | reflexivity].
  - reflexivity.
Qed.

Lemma afterProcessMessage_history w :
  conversationHistory (afterProcessMessage w) = conversationHistory w.
Proof.
  unfold afterProcessMessage.
  destruct (_forceAnswerEnabled (panel w) && negb (_forceAnswerCooldown (panel w)));
    reflexivity.
Qed.

(** Settling a call puts the history [askAI] leaves in place of the old. *)
Lemma settle_history w i http c :
  calls w !! i = Some c ->
  conversationHistory (settle w i http)
  = Remote.history (Remote.askAI (callPrompt c) (callOptions c) http
                      (conversationHistory w) (clock w)).
Proof.
  intros Hc. unfold settle. rewrite Hc.
  destruct (callOrigin c); rewrite ?afterProcessMessage_history; reflexivity.
Qed.

(** C10. When the awaited [askAI] settles, [processMessage] appends one
    assistant entry to the display log and changes nothing else in it: the
    response itself when it is a non-empty string, the apology when it is
    empty, a message quoting the error when [askAI] threw. So it is for
    every call in flight that came through [processMessage]. *)
Theorem processMessage_appends_one_reply :
  (forall p outcome now,
     _chatHistory (processMessage p outcome now)
     = _chatHistory p ++ [mkMessage assistant (replyText outcome) now])
  /\ (forall response, response <> "" -> replyText (Remote.Returned response) = response)
  /\ replyText (Remote.Returned "") = apology
  /\ (forall error,
        replyText (Remote.Threw error)
        = "❌ I encountered an error: " +:+ Remote.errorToString error
          +:+ ". Please try again.")
  /\ (forall w i http c,
        calls w !! i = Some c ->
        callOrigin c <> ByCompleteCode ->
        let r := Remote.askAI (callPrompt c) (callOptions c) http
                   (conversationHistory w) (clock w) in
        _chatHistory (panel (step w (Settle i http)))
        = _chatHistory (panel w)
          ++ [mkMessage assistant (replyText (Remote.settled r)) (clock w)]).
Proof.
  split; [exact processMessage_log|]. split; [| split; [| split]].
  - intros response Hne. unfold replyText.
    destruct (String.eqb_spec response ""); [contradiction | reflexivity].
  - reflexivity.
  - reflexivity.
  - intros w i http c Hc Horigin r. subst r.
    cbn [step]. unfold settle. rewrite Hc.
    destruct (callOrigin c); [| | contradiction].
    + unfold afterProcessMessage.
      match goal with |- context [if ?b then _ else _] => destruct b end;
        cbn [startCooldown withPanel panel _startCooldown _chatHistory clock];
        apply processMessage_log.
    + cbn [withPanel panel clock]. apply processMessage_log.
Qed.

Lemma processMessage_appends_one_reply_witness :
  ("Hi there" <> "" /\ replyText (Remote.Returned "Hi there") = "Hi there")
  /\ let w := run [SendMessage "hello"] (initial 0) in
     _chatHistory (panel (step w (Settle 0 (answers "Hi there"))))
     = _chatHistory (panel w) ++ [mkMessage assistant "Hi there" 0].
Proof.
  destruct processMessage_appends_one_reply as [_ [Hsame [_ [_ H]]]].
  split.
  - split; [discriminate | apply Hsame; discriminate].
  - intros w.
    refine (H w 0%nat (answers "Hi there")
              (mkCall "hello" (processOptions false) ByHandleUserMessage) _ _).
    + reflexivity.
    + discriminate.
Defined.

(** C1. [clearChat] puts the panel's fields back to their defaults (no
    force answer, no cooldown, end time 0, no mentor mode, an empty display
    log), but it does not empty the shared history, although it tells the
    user that the chat history is cleared: [ApolloAI.clearHistory], which
    would, is called nowhere. After the exchange "hello" / "Hi there",
    [getHistory()] still returns the two entries of the exchange once the
    chat is cleared, where the specification has it return none. *)
Theorem clearChat_keeps_history :
  (forall w,
     panel (step w ClearChat) = mkProvider [] false false false 0
     /\ ApolloAI.getHistory (conversationHistory (step w ClearChat))
        = ApolloAI.getHistory (conversationHistory w))
  /\ let w := run [SendMessage "hello"; Settle 0 (answers "Hi there")] (initial 0) in
     Reachable w
     /\ ApolloAI.getHistory (conversationHistory (step w ClearChat))
        = [mkMessage user "hello" 0; mkMessage assistant "Hi there" 0].
Proof.
  split; [intros w; split; reflexivity|].
  split; [| reflexivity].
  exists 0, [SendMessage "hello"; Settle 0 (answers "Hi there")]. reflexivity.
Qed.

(** C3. While the cooldown is on, [toggleForceAnswer] changes nothing:
    not the force-answer flag, not any other field, not the world. *)
Theorem toggle_rejected_in_cooldown (w : World) :
  _forceAnswerCooldown (panel w) = true ->
  step w ToggleForceAnswer = w.
Proof.
  intros Hcool. cbn [step]. unfold toggleForceAnswer. rewrite Hcool.
  apply withPanel_same.
Qed.

Lemma toggle_rejected_in_cooldown_witness :
  _forceAnswerCooldown (panel (run forcedExchange (initial 0))) = true
  /\ step (run forcedExchange (initial 0)) ToggleForceAnswer
     = run forcedExchange (initial 0).
Proof.
  split; [reflexivity|].
  apply (toggle_rejected_in_cooldown (run forcedExchange (initial 0))).
  reflexivity.
Defined.

(** The only event that changes the shared history is the settling of a
    call one of whose attempts succeeded. *)
Lemma history_changes_on_success w e :
  conversationHistory (step w e) <> conversationHistory w ->
  exists i http c j text,
    e = Settle i http
    /\ calls w !! i = Some c
    /\ Remote.tryAttempt (http j) = inr text
    /\ conversationHistory (step w e)
       = ApolloAI.addToHistory
           (ApolloAI.addToHistory (conversationHistory w) user
              (callPrompt c) (clock w))
           assistant (Js.trim text) (clock w).
Proof.
  intros Hchanged.
  destruct e as [ms | | message | | | shown prompt | prompt | i http | i];
    cbn [step] in *.
  - destruct (0 <=? ms); contradiction.
  - contradiction.
  - unfold handleUserMessage in Hchanged.
    repeat match type of Hchanged with
           | context [if ?b then _ else _] => destruct b
           end; contradiction.
  - contradiction.
  - contradiction.
  - contradiction.
  - contradiction.
  - destruct (calls w !! i) as [c |] eqn:Hc;
      [| unfold settle in Hchanged; rewrite Hc in Hchanged; contradiction].
    pose proof (attempts_history (callPrompt c) (callOptions c) http
                  (conversationHistory w) (clock w)
                  (Z.to_nat (Remote.retriesOf (callOptions c))) 1 []) as Hist.
    cbv zeta in Hist. fold (Remote.askAI (callPrompt c) (callOptions c) http
                              (conversationHistory w) (clock w)) in Hist.
    rewrite (settle_history w i http c Hc) in *.
    destruct Hist as [Hist | [j [text [Hok [_ Hist]]]]]; [contradiction|].
    exists i, http, c, j, text. repeat split; assumption.
  - unfold timerFires in Hchanged.
    destruct (timers w !! i) as [due |]; [| contradiction].
    destruct (due <=? clock w); contradiction.
Qed.

(** C2. A message handled in mentor mode, during the cooldown and
    without force answer, leaves the shared history and the calls in flight
    as they are; when it is not blank, the display log gets the message and
    the mentor reply. And the only event that changes the shared history is
    the settling of a call to [askAI] one of whose attempts succeeded: it
    appends the prompt and the trimmed text. *)
Theorem mentor_reply_stays_local :
  (forall w message,
     _mentorMode (panel w) = true ->
     _forceAnswerCooldown (panel w) = true ->
     _forceAnswerEnabled (panel w) = false ->
     let w' := step w (SendMessage message) in
     conversationHistory w' = conversationHistory w
     /\ calls w' = calls w
     /\ (Js.trim message <> "" ->
         _chatHistory (panel w')
         = _chatHistory (panel w)
           ++ [ mkMessage user message (clock w);
                mkMessage assistant
                  (_generateSimpleMentorResponse (panel w) message (clock w))
                  (clock w) ]))
  /\ (forall w e,
        conversationHistory (step w e) <> conversationHistory w ->
        exists i http c j text,
          e = Settle i http
          /\ calls w !! i = Some c
          /\ Remote.tryAttempt (http j) = inr text
          /\ conversationHistory (step w e)
             = ApolloAI.addToHistory
                 (ApolloAI.addToHistory (conversationHistory w) user
                    (callPrompt c) (clock w))
                 assistant (Js.trim text) (clock w)).
Proof.
  split; [| exact history_changes_on_success].
  intros w message Hmentor Hcool Hforce w'. subst w'.
  cbn [step]. unfold handleUserMessage. rewrite Hmentor, Hcool, Hforce.
  cbn [andb negb].
  destruct (String.eqb_spec (Js.trim message) "") as [Hblank | Hne].
  - repeat split. intros Hne. contradiction.
  - repeat split. intros _. cbn. rewrite <- app_assoc. reflexivity.
Qed.

Lemma mentor_reply_stays_local_witness :
  (conversationHistory (step mentoring (SendMessage "how do I write a function?"))
   = conversationHistory mentoring
   /\ shown (_chatHistory
               (panel (step mentoring (SendMessage "how do I write a function?"))))
      = [ (user, "how do I write a function?");
          (assistant,
           _generateSimpleMentorResponse (panel mentoring)
             "how do I write a function?" 60000) ])
  /\ let w := run [SendMessage "hello"] (initial 0) in
     conversationHistory (step w (Settle 0 (answers "Hi there")))
     <> conversationHistory w
     /\ exists i http c j text,
          Settle 0 (answers "Hi there") = Settle i http
          /\ calls w !! i = Some c
          /\ Remote.tryAttempt (http j) = inr text
          /\ conversationHistory (step w (Settle 0 (answers "Hi there")))
             = ApolloAI.addToHistory
                 (ApolloAI.addToHistory (conversationHistory w) user
                    (callPrompt c) (clock w))
                 assistant (Js.trim text) (clock w).
Proof.
  destruct mentor_reply_stays_local as [Hlocal Honly].
  split.
  - destruct (Hlocal mentoring "how do I write a function?" eq_refl eq_refl eq_refl)
      as [Hhist [_ Hlog]].
    split; [exact Hhist|].
    rewrite Hlog; [reflexivity|]. vm_compute. discriminate.
  - intros w.
    assert (Hchanged : conversationHistory (step w (Settle 0 (answers "Hi there")))
                       <> conversationHistory w)
      by (vm_compute; discriminate).
    split; [exact Hchanged|].
    exact (Honly w (Settle 0 (answers "Hi there")) Hchanged).
Defined.

(** The cooldown invariant holds at the start and is kept by every turn
    of the event loop. *)
Lemma CooldownInvariant_initial t0 : CooldownInvariant (initial t0).
Proof. intros Hcool. discriminate Hcool. Qed.

Lemma CooldownInvariant_step w e :
  CooldownInvariant w -> CooldownInvariant (step w e).
Proof.
  unfold CooldownInvariant. intros Inv.
  destruct e as [ms | | message | | | shown prompt | prompt | i http | i];
    cbn [step].
  - destruct (0 <=? ms) eqn:Hms; [| exact Inv].
    cbn [panel timers clock]. intros Hcool. destruct (Inv Hcool) as (Hm & Ht & Hc).
    repeat split; [assumption | assumption | lia].
  - intros Hcool. discriminate Hcool.
  - unfold handleUserMessage.
    repeat match goal with
           | |- context [if ?b then _ else _] => destruct b
           end; exact Inv.
  - unfold toggleForceAnswer.
    destruct (_forceAnswerCooldown (panel w)) eqn:Hcool.
    + rewrite withPanel_same. rewrite Hcool. exact Inv.
    + cbn. intros H. discriminate H.
  - intros Hcool. discriminate Hcool.
  - exact Inv.
  - exact Inv.
  - unfold settle. destruct (calls w !! i) as [c |]; [| exact Inv].
    pose proof (processMessage_flags (panel w)
                  (Remote.settled (Remote.askAI (callPrompt c) (callOptions c) http
                     (conversationHistory w) (clock w))) (clock w)) as Hflags.
    cbv zeta in Hflags. destruct Hflags as (Hf1 & Hf2 & Hf3 & Hf4).
    destruct (callOrigin c).
    + unfold afterProcessMessage. cbn [withPanel panel timers clock calls].
      match goal with |- context [if ?b then _ else _] => destruct b end.
      * cbn. intros _. repeat split; [| lia].
        apply in_or_app. right. left. reflexivity.
      * cbn. rewrite Hf1, Hf3, Hf4. exact Inv.
    + cbn. rewrite Hf1, Hf3, Hf4. exact Inv.
    + exact Inv.
  - unfold timerFires. destruct (timers w !! i) as [due |]; [| exact Inv].
    destruct (due <=? clock w); [| exact Inv].
    intros Hcool. discriminate Hcool.
Qed.

Lemma CooldownInvariant_run es w :
  CooldownInvariant w -> CooldownInvariant (run es w).
Proof.
  revert w. induction es as [| e es IH]; intros w Inv; [exact Inv|].
  apply IH, CooldownInvariant_step, Inv.
Qed.

(** C4, as the code has it. In every world the extension can reach, a
    cooldown that is on comes with mentor mode on and with an end time
    whose expiry callback is still pending; the end time lies 120000 ms
    after a moment that is not in the future. So the end time is in the
    future for as long as no pending callback is due. *)
Theorem cooldown_invariant (w : World) :
  Reachable w ->
  _forceAnswerCooldown (panel w) = true ->
  _mentorMode (panel w) = true
  /\ In (_cooldownEndTime (panel w)) (timers w)
  /\ _cooldownEndTime (panel w) <= clock w + 120000
  /\ (NoTimerDue w -> clock w < _cooldownEndTime (panel w)).
Proof.
  intros (t0 & es & ->) Hcool.
  destruct (CooldownInvariant_run es (initial t0) (CooldownInvariant_initial t0) Hcool)
    as (Hm & Ht & Hc).
  repeat split; try assumption.
  intros Hdue. apply Hdue, Ht.
Qed.

Lemma cooldown_invariant_witness :
  Reachable (run forcedExchange (initial 0))
  /\ _forceAnswerCooldown (panel (run forcedExchange (initial 0))) = true
  /\ _mentorMode (panel (run forcedExchange (initial 0))) = true
  /\ In (_cooldownEndTime (panel (run forcedExchange (initial 0))))
        (timers (run forcedExchange (initial 0))).
Proof.
  assert (Hreach : Reachable (run forcedExchange (initial 0))).
  { exists 0, forcedExchange. reflexivity. }
  split; [exact Hreach|]. split; [reflexivity|].
  destruct (cooldown_invariant (run forcedExchange (initial 0)) Hreach eq_refl)
    as (Hm & Ht & _).
  split; [exact Hm | exact Ht].
Defined.

(** C4 as stated fails: the expiry callback runs no earlier than the end
    time, so when the clock has passed the end time and the callback has
    not run yet, the cooldown is still on and the end time is no longer in
    the future. *)
Lemma cooldown_end_time_can_be_past :
  ~ (forall w, Reachable w ->
       _forceAnswerCooldown (panel w) = true ->
       _mentorMode (panel w) = true /\ clock w < _cooldownEndTime (panel w)).
Proof.
  intros H.
  destruct (H (run (forcedExchange ++ [Tick 125000]) (initial 0))) as [_ Hlt].
  - exists 0, (forcedExchange ++ [Tick 125000]). reflexivity.
  - reflexivity.
  - vm_compute in Hlt. discriminate Hlt.
Qed.

(** While the cooldown is on, force answer is on: it is needed to start
    the cooldown and cannot be switched off before the cooldown ends. The
    mentor reply of [handleUserMessage] is therefore out of reach of the
    panel's events. *)
Lemma cooldown_keeps_force_on (w : World) :
  Reachable w ->
  _forceAnswerCooldown (panel w) = true -> _forceAnswerEnabled (panel w) = true.
Proof.
  intros (t0 & es & ->).
  assert (Hinit : _forceAnswerCooldown (panel (initial t0)) = true ->
                  _forceAnswerEnabled (panel (initial t0)) = true)
    by (intros H; discriminate H).
  revert Hinit. generalize (initial t0). induction es as [| e es IH]; intros w Inv;
    [exact Inv|].
  apply IH. clear IH.
  destruct e as [ms | | message | | | shown prompt | prompt | i http | i];
    cbn [step].
  - destruct (0 <=? ms); exact Inv.
  - intros Hcool. discriminate Hcool.
  - unfold handleUserMessage.
    repeat match goal with
           | |- context [if ?b then _ else _] => destruct b
           end; exact Inv.
  - unfold toggleForceAnswer.
    destruct (_forceAnswerCooldown (panel w)) eqn:Hcool.
    + rewrite withPanel_same. rewrite Hcool. exact Inv.
    + cbn. intros H. discriminate H.
  - intros Hcool. discriminate Hcool.
  - exact Inv.
  - exact Inv.
  - unfold settle. destruct (calls w !! i) as [c |]; [| exact Inv].
    pose proof (processMessage_flags (panel w)
                  (Remote.settled (Remote.askAI (callPrompt c) (callOptions c) http
                     (conversationHistory w) (clock w))) (clock w)) as Hflags.
    cbv zeta in Hflags. destruct Hflags as (Hf1 & Hf2 & Hf3 & Hf4).
    destruct (callOrigin c).
    + unfold afterProcessMessage. cbn [withPanel panel timers clock calls].
      match goal with |- context [if ?b then _ else _] => destruct b eqn:Hb end.
      * cbn. intros _. rewrite Hf2 in Hb. rewrite Hf2.
        apply andb_true_iff in Hb. apply Hb.
      * cbn. rewrite Hf1, Hf2. exact Inv.
    + cbn. rewrite Hf1, Hf2. exact Inv.
    + exact Inv.
  - unfold timerFires. destruct (timers w !! i) as [due |]; [| exact Inv].
    destruct (due <=? clock w); [| exact Inv].
    intros Hcool. discriminate Hcool.
Qed.

(** The shared history never holds more than eight entries. *)
Lemma history_bounded (w : World) :
  Reachable w -> (length (conversationHistory w) <= 8)%nat.
Proof.
  intros (t0 & es & ->).
  assert (Hinit : (length (conversationHistory (initial t0)) <= 8)%nat)
    by (simpl; lia).
  revert Hinit. generalize (initial t0). induction es as [| e es IH]; intros w Inv;
    [exact Inv|].
  apply IH. clear IH.
  destruct (decide (conversationHistory (step w e) = conversationHistory w))
    as [-> | Hchanged]; [exact Inv|].
  destruct (history_changes_on_success w e Hchanged)
    as (i & http & c & j & text & _ & _ & _ & ->).
  apply addToHistory_length, addToHistory_length, Inv.
Qed.

(** C8. When an attempt of [askAI] succeeds, the earlier ones having
    failed, the call appends two entries to the shared history, the prompt
    as [user] and then the trimmed completion as [assistant], and returns
    the trimmed completion. So [handleUserMessage("hello")] on a fresh
    panel, answered with "Hi there", leaves user "hello" and assistant
    "Hi there" in the display log and the same two in the history. *)
Theorem successful_exchange_is_recorded :
  (forall prompt options http h now j text,
     1 <= j <= Remote.retriesOf options ->
     (forall k, 1 <= k < j -> fails (http k)) ->
     Remote.tryAttempt (http j) = inr text ->
     let r := Remote.askAI prompt options http h now in
     let asked := mkMessage user prompt now in
     let answered := mkMessage assistant (Js.trim text) now in
     Remote.settled r = Remote.Returned (Js.trim text)
     /\ Remote.history r
        = ApolloAI.addToHistory (ApolloAI.addToHistory h user prompt now)
            assistant (Js.trim text) now
     /\ ((length h <= 8)%nat ->
         Remote.history r = Js.sliceLast 8 (h ++ [asked; answered]))
     /\ ((length h <= 6)%nat -> Remote.history r = h ++ [asked; answered]))
  /\ (forall t0 d,
        0 <= d ->
        let w := run [SendMessage "hello"; Tick d; Settle 0 (answers "Hi there")]
                     (initial t0) in
        shown (_chatHistory (panel w)) = [(user, "hello"); (assistant, "Hi there")]
        /\ shown (conversationHistory w) = [(user, "hello"); (assistant, "Hi there")]
        /\ _chatHistory (panel w)
           = [mkMessage user "hello" t0; mkMessage assistant "Hi there" (t0 + d)]
        /\ conversationHistory w
           = [mkMessage user "hello" (t0 + d); mkMessage assistant "Hi there" (t0 + d)]
        /\ calls w = []).
Proof.
  split.
  - intros prompt options http h now j text Hj Hfail Hok r asked answered.
    destruct (askAI_success prompt options http h now j text Hj Hfail Hok)
      as [Hsettled Hhist].
    fold r in Hsettled, Hhist.
    assert (Hslice : (length h <= 8)%nat ->
              Remote.history r = Js.sliceLast 8 (h ++ [asked; answered])).
    { intros Hlen. rewrite Hhist.
      rewrite (addToHistory_sliceLast h) by exact Hlen.
      rewrite addToHistory_sliceLast by (rewrite sliceLast_length; lia).
      rewrite sliceLast_snoc by lia. rewrite <- app_assoc. reflexivity. }
    repeat split; [exact Hsettled | exact Hhist | exact Hslice |].
    intros Hlen. rewrite Hslice by lia. apply sliceLast_short.
    rewrite length_app. simpl. lia.
  - intros t0 d Hd w. subst w. unfold run. cbn [fold_left].
    change (step (initial t0) (SendMessage "hello"))
      with (mkWorld (mkProvider [mkMessage user "hello" t0] false false false 0)
              [] t0 [] [mkCall "hello" (processOptions false) ByHandleUserMessage]).
    cbn [step panel conversationHistory clock timers calls].
    rewrite (proj2 (Z.leb_le 0 d) Hd).
    repeat split.
Qed.

Lemma successful_exchange_is_recorded_witness :
  (1 <= 3 <= Remote.retriesOf retry3
   /\ (forall k, 1 <= k < 3 -> fails (emptyTwiceThen "Hi there" k))
   /\ Remote.tryAttempt (emptyTwiceThen "Hi there" 3) = inr "Hi there"
   /\ Remote.settled (Remote.askAI "hello" retry3 (emptyTwiceThen "Hi there") [] 7)
      = Remote.Returned "Hi there"
   /\ Remote.history (Remote.askAI "hello" retry3 (emptyTwiceThen "Hi there") [] 7)
      = [mkMessage user "hello" 7; mkMessage assistant "Hi there" 7])
  /\ let w := run [SendMessage "hello"; Tick 5; Settle 0 (answers "Hi there")]
                  (initial 1000) in
     0 <= 5
     /\ _chatHistory (panel w)
        = [mkMessage user "hello" 1000; mkMessage assistant "Hi there" 1005]
     /\ conversationHistory w
        = [mkMessage user "hello" 1005; mkMessage assistant "Hi there" 1005].
Proof.
  destruct successful_exchange_is_recorded as [Hsuccess Hscenario].
  split.
  - assert (Hj : 1 <= 3 <= Remote.retriesOf retry3) by (vm_compute; split; discriminate).
    assert (Hfail : forall k, 1 <= k < 3 -> fails (emptyTwiceThen "Hi there" k)).
    { intros k Hk. assert (k = 1 \/ k = 2) as [-> | ->] by lia;
        eexists; reflexivity. }
    assert (Hok : Remote.tryAttempt (emptyTwiceThen "Hi there" 3) = inr "Hi there")
      by reflexivity.
    destruct (Hsuccess "hello" retry3 (emptyTwiceThen "Hi there") [] 7 3 "Hi there"
                Hj Hfail Hok) as (Hsettled & _ & _ & Hhist).
    split; [exact Hj|]. split; [exact Hfail|]. split; [exact Hok|].
    split; [exact Hsettled|]. apply Hhist. simpl. lia.
  - intros w. assert (Hd : 0 <= 5) by lia.
    destruct (Hscenario 1000 5 Hd) as (_ & _ & Hlog & Hhist & _).
    split; [exact Hd|]. split; [exact Hlog | exact Hhist].
Defined.

End SessionProperties.

(** ** More on the remote call *)

Section RemoteMore.

Import Remote.

(** The call when every attempt but the last fails and the last throws. *)
Lemma askAI_exhausted prompt options http h now t :
  1 <= retriesOf options ->
  (forall k, 1 <= k < retriesOf options -> fails (http k)) ->
  tryAttempt (http (retriesOf options)) = inl t ->
  askAI prompt options http h now
  = mkAskResult (lastFailure (forceModeOf options) h t) h
      (flat_map attemptThenWait (zseq 1 (Z.to_nat (retriesOf options - 1)))
       ++ [Attempt (retriesOf options)]).
Proof.
  intros Hn Hfail Ht. unfold askAI.
  replace (Z.to_nat (retriesOf options))
    with (Z.to_nat (retriesOf options - 1) + 1)%nat by lia.
  rewrite attempts_skip_failed; [| intros k Hk; apply Hfail; lia | lia].
  replace (1 + Z.of_nat (Z.to_nat (retriesOf options - 1)))
    with (retriesOf options) by lia.
  change (1%nat) with (S O). rewrite attempts_S, Ht, Z.eqb_refl. reflexivity.
Qed.

Lemma askAI_all_failed_history prompt options http h now :
  (forall k, 1 <= k <= retriesOf options -> fails (http k)) ->
  history (askAI prompt options http h now) = h.
Proof.
  intros Hfail. destruct (Z_lt_le_dec (retriesOf options) 1) as [Hlt | Hge].
  - unfold askAI. replace (Z.to_nat (retriesOf options)) with 0%nat by lia.
    reflexivity.
  - destruct (Hfail (retriesOf options) ltac:(lia)) as [t Ht].
    rewrite (askAI_exhausted prompt options http h now t); try assumption.
    + reflexivity.
    + intros k Hk. apply Hfail. lia.
Qed.

(** X3. A call all of whose attempts fail leaves the shared history as it
    was, entry for entry: nothing of the unanswered prompt is recorded.
    So does the settling of such a call in the running extension. *)
Theorem failed_call_keeps_history :
  (forall prompt options http h now,
     (forall k, 1 <= k <= retriesOf options -> fails (http k)) ->
     history (askAI prompt options http h now) = h)
  /\ (forall w i http c,
        Session.calls w !! i = Some c ->
        (forall k, 1 <= k <= retriesOf (Session.callOptions c) -> fails (http k)) ->
        Session.conversationHistory (Session.step w (Session.Settle i http))
        = Session.conversationHistory w).
Proof.
  split; [exact askAI_all_failed_history|].
  intros w i http c Hc Hfail. cbn [Session.step].
  rewrite (settle_history w i http c Hc). apply askAI_all_failed_history, Hfail.
Qed.

Lemma failed_call_keeps_history_witness :
  (forall k, 1 <= k <= retriesOf noOptions -> fails (always429 k))
  /\ history (askAI "hello" noOptions always429 threeExchanges 0) = threeExchanges
  /\ let w := Session.run [Session.SendMessage "hello"] (Session.initial 0) in
     Session.calls w !! 0%nat
     = Some (Session.mkCall "hello" (ThaxuAIProvider.processOptions false)
               Session.ByHandleUserMessage)
     /\ Session.conversationHistory (Session.step w (Session.Settle 0 always429))
        = Session.conversationHistory w.
Proof.
  assert (Hfail : forall n k, 1 <= k <= n -> fails (always429 k)).
  { intros n k _. eexists. reflexivity. }
  destruct failed_call_keeps_history as [Hcall Hworld].
  split; [apply Hfail|]. split.
  - exact (Hcall "hello" noOptions always429 threeExchanges 0 (Hfail _)).
  - intros w. split; [reflexivity|].
    exact (Hworld w 0%nat always429 _ eq_refl (Hfail _)).
Defined.

Lemma pow2_S (k : nat) : 2 ^ Z.of_nat (S k) = 2 * 2 ^ Z.of_nat k.
Proof. rewrite Nat2Z.inj_succ, Z.pow_succ_r by lia. reflexivity. Qed.

(** The waits from attempt [start] on add up to a geometric sum. *)
Lemma total_schedule (start : Z) (len : nat) :
  1 <= start ->
  total (map (fun k => 2 ^ (k - 1) * 1000) (zseq start len))
  = 2 ^ (start - 1) * (2 ^ Z.of_nat len - 1) * 1000.
Proof.
  revert start. induction len as [| len IH]; intros start Hstart.
  - simpl. lia.
  - cbn [zseq map total foldr]. fold (total (map (fun k => 2 ^ (k - 1) * 1000)
                                                  (zseq (start + 1) len))).
    rewrite IH by lia. rewrite pow2_S.
    replace (start + 1 - 1) with (Z.succ (start - 1)) by lia.
    rewrite Z.pow_succ_r by lia. lia.
Qed.

Lemma askAI_delays prompt options http h now :
  1 <= retriesOf options ->
  delays (trace (askAI prompt options http h now))
  = map (fun k => 2 ^ (k - 1) * 1000)
      (zseq 1 (failedRun http (Z.to_nat (retriesOf options) - 1) 1)).
Proof.
  intros Hn. unfold askAI.
  destruct (Z.to_nat (retriesOf options)) as [| fuel] eqn:Efuel; [lia|].
  rewrite attempts_trace by lia. cbn [app].
  rewrite Nat.sub_succ, Nat.sub_0_r, delays_app, delays_schedule.
  cbn. apply app_nil_r.
Qed.

(** X4. The backoff waits of a call add up to (2^f - 1) * 1000 ms, [f]
    being the number of waits; that is at most (2^(n-1) - 1) * 1000 ms for
    a budget of [n >= 1] attempts, and 3000 ms for the default budget. *)
Theorem backoff_total prompt options http h now :
  let r := askAI prompt options http h now in
  let f := length (delays (trace r)) in
  total (delays (trace r)) = (2 ^ Z.of_nat f - 1) * 1000
  /\ total (delays (trace r))
     <= (2 ^ (Z.max (retriesOf options) 1 - 1) - 1) * 1000
  /\ (retries options = None -> total (delays (trace r)) <= 3000).
Proof.
  intros r f.
  assert (Hmain : total (delays (trace r)) = (2 ^ Z.of_nat f - 1) * 1000
                  /\ Z.of_nat f <= Z.max (retriesOf options) 1 - 1).
  { subst r f. destruct (Z_lt_le_dec (retriesOf options) 1) as [Hlt | Hge].
    - unfold askAI. replace (Z.to_nat (retriesOf options)) with 0%nat by lia.
      simpl. lia.
    - rewrite askAI_delays by exact Hge.
      rewrite length_map.
      assert (Hlen : forall s l, length (zseq s l) = l).
      { intros s l. revert s. induction l as [| l IHl]; intros s; simpl;
          [reflexivity | rewrite IHl; reflexivity]. }
      rewrite Hlen, total_schedule by lia. split; [simpl; lia|].
      pose proof (failedRun_le http (Z.to_nat (retriesOf options) - 1) 1). lia. }
  destruct Hmain as [Hsum Hf]. split; [exact Hsum|].
  assert (Hpow : 2 ^ Z.of_nat f <= 2 ^ (Z.max (retriesOf options) 1 - 1))
    by (apply Z.pow_le_mono_r; lia).
  split; [rewrite Hsum; lia|].
  intros Hnone. rewrite Hsum.
  assert (Hn : retriesOf options = 3) by (unfold retriesOf; rewrite Hnone; reflexivity).
  rewrite Hn in Hpow. change (2 ^ (Z.max 3 1 - 1)) with 4 in Hpow. lia.
Qed.

Lemma backoff_total_witness :
  retries noOptions = None
  /\ total (delays (trace (askAI "hello" noOptions always429 [] 0))) = 3000.
Proof.
  split; [reflexivity|].
  destruct (backoff_total "hello" noOptions always429 [] 0) as [H _].
  exact H.
Defined.

End RemoteMore.

Section RemoteEdges.

Import Remote.

Lemma tryAttempt_status status statusText body :
  ok status = false ->
  tryAttempt (FetchResolves status statusText body)
  = if status =? 429
    then inl (newError "⏱️ Rate limit exceeded. Please wait a moment and try again.")
    else if status =? 401
    then inl (newError "🔑 Authentication failed. Please check your API key.")
    else if status >=? 500
    then inl (newError "🔧 Server error. The AI service is temporarily unavailable.")
    else inl (newError ("API Error (" +:+ Js.ofZ status +:+ "): " +:+ statusText)).
Proof. intros Hok. cbn [tryAttempt]. rewrite Hok. reflexivity. Qed.

Lemma ok_false_outside status : status < 200 \/ 300 <= status -> ok status = false.
Proof. intros H. unfold ok. apply andb_false_iff. lia. Qed.

(** X5. When the service answers every attempt with status 429, the call
    (budget at least 1) ends with the rate-limit text; with 401, with the
    authentication text; with a status of 500 or more, with the
    connection-failed text quoting the server error. With any status
    outside 200-299 the history is untouched. *)
Theorem exhausted_by_status prompt options http h now status :
  1 <= retriesOf options ->
  answersStatus status http ->
  let r := askAI prompt options http h now in
  let hasHistory := (0 <? length h)%nat in
  let context := ApolloAI.analyzeConversationContext h in
  (status < 200 \/ 300 <= status -> history r = h)
  /\ (status = 429 -> settled r = Returned (rateLimitedText hasHistory context))
  /\ (status = 401 -> settled r = Returned authenticationText)
  /\ (500 <= status ->
      settled r
      = Returned
          (connectionFailedText
             (if forceModeOf options then "direct answer" else "learning guidance")
             "🔧 Server error. The AI service is temporarily unavailable."
             hasHistory context)).
Proof.
  intros Hn Hstatus r hasHistory context.
  assert (Hcase : forall t,
            (forall statusText body,
               tryAttempt (FetchResolves status statusText body) = inl t) ->
            r = mkAskResult (lastFailure (forceModeOf options) h t) h
                  (flat_map attemptThenWait (zseq 1 (Z.to_nat (retriesOf options - 1)))
                   ++ [Attempt (retriesOf options)])).
  { intros t Ht. apply askAI_exhausted; [exact Hn | |].
    - intros k _. destruct (Hstatus k) as (statusText & body & ->).
      exists t. apply Ht.
    - destruct (Hstatus (retriesOf options)) as (statusText & body & ->). apply Ht. }
  split.
  - intros Hout. apply askAI_all_failed_history. intros k _.
    destruct (Hstatus k) as (statusText & body & ->).
    unfold fails. rewrite tryAttempt_status by (apply ok_false_outside; exact Hout).
    repeat match goal with |- context [if ?b then _ else _] => destruct b end;
      eexists; reflexivity.
  - split; [| split].
    + intros ->. rewrite (Hcase (newError "⏱️ Rate limit exceeded. Please wait a moment and try again.")).
      * reflexivity.
      * intros statusText body. rewrite tryAttempt_status by reflexivity. reflexivity.
    + intros ->. rewrite (Hcase (newError "🔑 Authentication failed. Please check your API key.")).
      * reflexivity.
      * intros statusText body. rewrite tryAttempt_status by reflexivity. reflexivity.
    + intros H500.
      rewrite (Hcase (newError "🔧 Server error. The AI service is temporarily unavailable.")).
      * reflexivity.
      * intros statusText body.
        rewrite tryAttempt_status by (apply ok_false_outside; lia).
        replace (status =? 429) with false by (symmetry; apply Z.eqb_neq; lia).
        replace (status =? 401) with false by (symmetry; apply Z.eqb_neq; lia).
        replace (status >=? 500) with true by (symmetry; apply Z.geb_le; lia).
        reflexivity.
Qed.

Lemma exhausted_by_status_witness :
  1 <= retriesOf noOptions
  /\ answersStatus 429 always429
  /\ settled (askAI "hello" noOptions always429 threeExchanges 0)
     = Returned (rateLimitedText true (ApolloAI.analyzeConversationContext threeExchanges)).
Proof.
  assert (Hn : 1 <= retriesOf noOptions) by (vm_compute; discriminate).
  assert (Hs : answersStatus 429 always429).
  { intros k. eexists. eexists. reflexivity. }
  split; [exact Hn|]. split; [exact Hs|].
  destruct (exhausted_by_status "hello" noOptions always429 threeExchanges 0 429 Hn Hs)
    as (_ & H & _).
  exact (H eq_refl).
Defined.





(** X7. A completion made of white space only counts as a success: the
    call returns the empty string and records an empty [assistant] entry
    after the prompt, and [processMessage] shows the apology in its place. *)
Theorem blank_completion_is_recorded prompt options http h now j text :
  1 <= j <= retriesOf options ->
  (forall k, 1 <= k < j -> fails (http k)) ->
  tryAttempt (http j) = inr text ->
  Js.trim text = "" ->
  let r := askAI prompt options http h now in
  settled r = Returned ""
  /\ last (history r) = Some (mkMessage assistant "" now)
  /\ history r
     = ApolloAI.addToHistory (ApolloAI.addToHistory h user prompt now) assistant "" now
  /\ replyText (settled r) = ThaxuAIProvider.apology.
Proof.
  intros Hj Hfail Hok Hblank r.
  destruct (askAI_success prompt options http h now j text Hj Hfail Hok)
    as [Hsettled Hhist].
  fold r in Hsettled, Hhist. rewrite Hblank in Hsettled, Hhist.
  rewrite Hsettled, Hhist. repeat split. apply addToHistory_last.
Qed.

Lemma blank_completion_is_recorded_witness :
  1 <= 1 <= retriesOf noOptions
  /\ (forall k, 1 <= k < 1 -> fails (Session.answers "  " k))
  /\ tryAttempt (Session.answers "  " 1) = inr "  "
  /\ Js.trim "  " = ""
  /\ history (askAI "hello" noOptions (Session.answers "  ") [] 5)
     = [mkMessage user "hello" 5; mkMessage assistant "" 5].
Proof.
  assert (Hj : 1 <= 1 <= retriesOf noOptions) by (vm_compute; split; discriminate).
  assert (Hfail : forall k, 1 <= k < 1 -> fails (Session.answers "  " k))
    by (intros k Hk; lia).
  split; [exact Hj|]. split; [exact Hfail|]. split; [reflexivity|].
  split; [reflexivity|].
  destruct (blank_completion_is_recorded "hello" noOptions (Session.answers "  ")
              [] 5 1 "  " Hj Hfail eq_refl eq_refl) as (_ & _ & H & _).
  exact H.
Defined.

End RemoteEdges.

(** ** Invariants of the running extension *)

Section SessionInvariants.

Import ThaxuAIProvider Session.

Lemma run_snoc es e w : run (es ++ [e]) w = step (run es w) e.
Proof. unfold run. rewrite fold_left_app. reflexivity. Qed.

Lemma Reachable_initial t0 : Reachable (initial t0).
Proof. exists t0, []. reflexivity. Qed.

Lemma Reachable_step w e : Reachable w -> Reachable (step w e).
Proof.
  intros (t0 & es & ->). exists t0, (es ++ [e]). symmetry. apply run_snoc.
Qed.

(** Induction over the worlds the extension can reach. *)
Lemma Reachable_invariant (P : World -> Prop) :
  (forall t0, P (initial t0)) ->
  (forall w e, Reachable w -> P w -> P (step w e)) ->
  forall w, Reachable w -> P w.
Proof.
  intros Hinit Hstep w (t0 & es & ->).
  induction es as [| e es IH] using rev_ind; [apply Hinit|].
  rewrite run_snoc. apply Hstep; [| exact IH].
  exists t0, es. reflexivity.
Qed.

Lemma list_pair_ind {A} (P : list A -> Prop) :
  P [] -> (forall x, P [x]) -> (forall x y l, P l -> P (x :: y :: l)) ->
  forall l, P l.
Proof.
  intros Hnil Hone Hpair l.
  enough (H : P l /\ forall x, P (x :: l)) by apply H.
  induction l as [| y l [IH1 IH2]]; split; auto.
Qed.

Lemma wholeExchanges_app l1 l2 :
  wholeExchanges l1 = true -> wholeExchanges l2 = true ->
  wholeExchanges (l1 ++ l2) = true.
Proof.
  induction l1 as [| x | q a l1 IH] using list_pair_ind; intros H1 H2.
  - exact H2.
  - discriminate H1.
  - cbn [app wholeExchanges] in *.
    apply andb_true_iff in H1. destruct H1 as [Hroles H1].
    rewrite Hroles, IH by assumption. reflexivity.
Qed.

Lemma wholeExchanges_even l :
  wholeExchanges l = true -> exists k, length l = (2 * k)%nat.
Proof.
  induction l as [| x | q a l IH] using list_pair_ind; intros H.
  - exists 0%nat. reflexivity.
  - discriminate H.
  - cbn [wholeExchanges] in H. apply andb_true_iff in H. destruct H as [_ H].
    destruct (IH H) as [k Hk]. exists (S k). simpl. lia.
Qed.

Lemma wholeExchanges_drop2 l :
  wholeExchanges l = true -> wholeExchanges (drop 2 l) = true.
Proof.
  destruct l as [| q [| a l]]; intros H; try discriminate H; [reflexivity|].
  cbn [wholeExchanges] in H. apply andb_true_iff in H. apply H.
Qed.

(** The two appends of a successful call, taken together. *)
Lemma exchange_sliceLast h prompt text now :
  ApolloAI.addToHistory (ApolloAI.addToHistory h user prompt now) assistant text now
  = Js.sliceLast 8 (h ++ [mkMessage user prompt now; mkMessage assistant text now]).
Proof.
  assert (Hadd : forall l r c, ApolloAI.addToHistory l r c now
                               = Js.sliceLast 8 (l ++ [mkMessage r c now])).
  { intros l r c. unfold ApolloAI.addToHistory. cbv zeta.
    destruct (8 <? length (l ++ [mkMessage r c now]))%nat eqn:E; [reflexivity|].
    apply Nat.ltb_ge in E. symmetry. apply sliceLast_short. exact E. }
  rewrite !Hadd. rewrite sliceLast_snoc by lia. rewrite <- app_assoc. reflexivity.
Qed.

Lemma exchange_keeps_whole h prompt text now :
  wholeExchanges h = true -> (length h <= 8)%nat ->
  wholeExchanges
    (ApolloAI.addToHistory (ApolloAI.addToHistory h user prompt now) assistant text now)
  = true.
Proof.
  intros Hwhole Hlen. rewrite exchange_sliceLast. unfold Js.sliceLast.
  rewrite length_app. cbn [length].
  destruct (wholeExchanges_even h Hwhole) as [k Hk].
  destruct (decide (length h = 8%nat)) as [H8 | Hne].
  - rewrite H8. change (8 + 2 - 8)%nat with 2%nat.
    rewrite drop_app_le by lia.
    apply wholeExchanges_app; [apply wholeExchanges_drop2, Hwhole | reflexivity].
  - replace (length h + 2 - 8)%nat with 0%nat by lia. rewrite drop_0.
    apply wholeExchanges_app; [exact Hwhole | reflexivity].
Qed.

Lemma history_whole (w : World) :
  Reachable w -> wholeExchanges (conversationHistory w) = true.
Proof.
  revert w. apply Reachable_invariant; [reflexivity|].
  intros w e Hreach Hwhole.
  destruct (decide (conversationHistory (step w e) = conversationHistory w))
    as [-> | Hchanged]; [exact Hwhole|].
  destruct (history_changes_on_success w e Hchanged)
    as (i & http & c & j & text & _ & _ & _ & ->).
  apply exchange_keeps_whole; [exact Hwhole | apply history_bounded, Hreach].
Qed.

(** X1. In every world the extension can reach, the shared history holds
    whole exchanges only, a [user] entry followed by an [assistant] entry,
    at most four of them: what is sent to the model as context starts with
    a question and ends with an answer. *)
Theorem history_holds_whole_exchanges (w : World) :
  Reachable w ->
  wholeExchanges (conversationHistory w) = true
  /\ (length (conversationHistory w) <= 8)%nat
  /\ exists k, (k <= 4)%nat /\ length (conversationHistory w) = (2 * k)%nat.
Proof.
  intros Hreach.
  pose proof (history_whole w Hreach) as Hwhole.
  pose proof (history_bounded w Hreach) as Hlen.
  split; [exact Hwhole|]. split; [exact Hlen|].
  destruct (wholeExchanges_even _ Hwhole) as [k Hk]. exists k. lia.
Qed.

Lemma history_holds_whole_exchanges_witness :
  Reachable (run forcedExchange (initial 0))
  /\ wholeExchanges (conversationHistory (run forcedExchange (initial 0))) = true.
Proof.
  assert (Hreach : Reachable (run forcedExchange (initial 0))).
  { exists 0, forcedExchange. reflexivity. }
  split; [exact Hreach|].
  exact (proj1 (history_holds_whole_exchanges _ Hreach)).
Defined.

Lemma processMessage_push p outcome now :
  processMessage p outcome now = push p assistant (replyText outcome) now.
Proof.
  unfold processMessage, replyText. destruct outcome as [response | error].
  - destruct (String.eqb_spec response "") as [-> | Hne]; [reflexivity|].
    destruct response as [| c response]; [contradiction | reflexivity].
  - reflexivity.
Qed.

(** What one turn of the event loop does to the display log: it is
    emptied by the two resets, and otherwise gets at most two entries
    more, stamped with the clock. *)
Lemma log_step w e :
  (e = ClearChat \/ e = WebviewReady) /\ _chatHistory (panel (step w e)) = []
  \/ exists added,
       _chatHistory (panel (step w e)) = _chatHistory (panel w) ++ added
       /\ (length added <= 2)%nat
       /\ Forall (fun m => timestamp m = clock w) added.
Proof.
  destruct e as [ms | | message | | | shown prompt | prompt | i http | i];
    cbn [step].
  - right. exists []. rewrite app_nil_r. destruct (0 <=? ms); repeat split; auto.
  - left. split; [right |]; reflexivity.
  - right. unfold handleUserMessage.
    destruct (String.eqb (Js.trim message) "").
    + exists []. rewrite app_nil_r. repeat split; auto.
    + destruct (_mentorMode (panel w) && _forceAnswerCooldown (panel w)
                && negb (_forceAnswerEnabled (panel w))).
      * eexists [_; _]. cbn. rewrite <- app_assoc. repeat split; [lia|].
        repeat constructor.
      * eexists [_]. cbn. repeat split; [lia|]. repeat constructor.
  - right. exists []. rewrite app_nil_r. unfold toggleForceAnswer.
    destruct (_forceAnswerCooldown (panel w)); repeat split; auto.
  - left. split; [left |]; reflexivity.
  - right. eexists [_]. cbn. repeat split; [lia|]. repeat constructor.
  - right. exists []. rewrite app_nil_r. repeat split; auto.
  - right. unfold settle. destruct (calls w !! i) as [c |];
      [| exists []; rewrite app_nil_r; repeat split; auto].
    destruct (callOrigin c).
    + eexists [_]. unfold afterProcessMessage. rewrite processMessage_push.
      match goal with |- context [if ?b then _ else _] => destruct b end;
        cbn; (repeat split; [lia|]); repeat constructor.
    + eexists [_]. rewrite processMessage_push. cbn.
      repeat split; [lia|]. repeat constructor.
    + exists []. rewrite app_nil_r. repeat split; auto.
  - right. exists []. rewrite app_nil_r. unfold timerFires.
    destruct (timers w !! i) as [due |]; [| repeat split; auto].
    destruct (due <=? clock w); repeat split; auto.
Qed.

Lemma clock_step w e : clock w <= clock (step w e).
Proof.
  destruct e as [ms | | message | | | shown prompt | prompt | i http | i];
    cbn [step]; try reflexivity.
  - destruct (0 <=? ms) eqn:Hms; cbn; lia.
  - unfold handleUserMessage.
    repeat match goal with |- context [if ?b then _ else _] => destruct b end;
      reflexivity.
  - unfold settle. destruct (calls w !! i) as [c |]; [| reflexivity].
    destruct (callOrigin c); try reflexivity.
    unfold afterProcessMessage.
    match goal with |- context [if ?b then _ else _] => destruct b end; reflexivity.
  - unfold timerFires. destruct (timers w !! i) as [due |]; [| reflexivity].
    destruct (due <=? clock w); reflexivity.
Qed.

Lemma Chronological_nil now : Chronological [] now.
Proof. intros i j mi mj _ Hi. rewrite lookup_nil in Hi. discriminate Hi. Qed.

Lemma Chronological_later l now now' :
  now <= now' -> Chronological l now -> Chronological l now'.
Proof.
  intros Hle H i j mi mj Hij Hi Hj. specialize (H i j mi mj Hij Hi Hj). lia.
Qed.

Lemma Chronological_app l added now :
  Chronological l now ->
  Forall (fun m => timestamp m = now) added ->
  Chronological (l ++ added) now.
Proof.
  intros Hl Hadded i j mi mj Hij Hi Hj.
  assert (Hbound : forall k m, (l ++ added) !! k = Some m -> timestamp m <= now).
  { intros k m Hk. apply lookup_app_Some in Hk. destruct Hk as [Hk | [_ Hk]].
    - apply (Hl k k m m); auto.
    - rewrite Forall_forall in Hadded.
      rewrite (Hadded m); [lia|]. eapply list_elem_of_lookup_2, Hk. }
  split; [| eapply Hbound, Hj].
  apply lookup_app_Some in Hj. destruct Hj as [Hj | [Hlen Hj]].
  - apply lookup_app_Some in Hi. destruct Hi as [Hi | [Hlen' _]].
    + apply (Hl i j mi mj); auto.
    + apply lookup_lt_Some in Hj. lia.
  - rewrite Forall_forall in Hadded.
    rewrite (Hadded mj) by (eapply list_elem_of_lookup_2, Hj).
    eapply Hbound, Hi.
Qed.

Lemma Chronological_drop l n now :
  Chronological l now -> Chronological (drop n l) now.
Proof.
  intros Hl i j mi mj Hij Hi Hj. rewrite lookup_drop in Hi, Hj.
  apply (Hl (n + i)%nat (n + j)%nat mi mj); auto. lia.
Qed.

(** X2. In every world the extension can reach, the entries of the
    display log and those of the shared history are in the order of their
    timestamps, and no entry is stamped later than the clock. *)
Theorem logs_are_chronological (w : World) :
  Reachable w ->
  Chronological (_chatHistory (panel w)) (clock w)
  /\ Chronological (conversationHistory w) (clock w).
Proof.
  revert w. apply Reachable_invariant.
  - intros t0. split; apply Chronological_nil.
  - intros w e _ [Hlog Hhist]. pose proof (clock_step w e) as Hclock. split.
    + destruct (log_step w e) as [[_ ->] | (added & -> & _ & Hadded)].
      * apply Chronological_nil.
      * eapply Chronological_later; [exact Hclock|].
        apply Chronological_app; assumption.
    + eapply Chronological_later; [exact Hclock|].
      destruct (decide (conversationHistory (step w e) = conversationHistory w))
        as [-> | Hchanged]; [exact Hhist|].
      destruct (history_changes_on_success w e Hchanged)
        as (i & http & c & j & text & _ & _ & _ & ->).
      rewrite exchange_sliceLast. apply Chronological_drop.
      apply Chronological_app; [exact Hhist|]. repeat constructor.
Qed.

Lemma logs_are_chronological_witness :
  Reachable (run (forcedExchange ++ [Tick 5; SendMessage "again"]) (initial 0))
  /\ Chronological
       (_chatHistory
          (panel (run (forcedExchange ++ [Tick 5; SendMessage "again"]) (initial 0))))
       5.
Proof.
  assert (Hreach : Reachable
            (run (forcedExchange ++ [Tick 5; SendMessage "again"]) (initial 0))).
  { exists 0, (forcedExchange ++ [Tick 5; SendMessage "again"]). reflexivity. }
  split; [exact Hreach|].
  exact (proj1 (logs_are_chronological _ Hreach)).
Defined.

(** X18. Apart from the two resets ([clearChat], [_initializeChat]), no
    event removes or rewrites an entry of the display log: the log before
    is a prefix of the log after, which has at most two entries more. *)
Theorem log_only_grows (w : World) (e : Event) :
  e <> ClearChat -> e <> WebviewReady ->
  exists added,
    _chatHistory (panel (step w e)) = _chatHistory (panel w) ++ added
    /\ (length added <= 2)%nat.
Proof.
  intros Hclear Hinit.
  destruct (log_step w e) as [[[-> | ->] _] | (added & Hlog & Hlen & _)];
    [contradiction | contradiction |].
  exists added. split; assumption.
Qed.

Lemma log_only_grows_witness :
  exists added,
    _chatHistory (panel (step (run forcedExchange (initial 0)) (SendMessage "again")))
    = _chatHistory (panel (run forcedExchange (initial 0))) ++ added
    /\ (length added <= 2)%nat.
Proof.
  apply (log_only_grows (run forcedExchange (initial 0)) (SendMessage "again"));
    discriminate.
Defined.

Lemma countRole_app r l1 l2 :
  countRole r (l1 ++ l2) = (countRole r l1 + countRole r l2)%nat.
Proof. unfold countRole. rewrite filter_app, length_app. reflexivity. Qed.

Lemma awaited_app cs1 cs2 : awaited (cs1 ++ cs2) = (awaited cs1 + awaited cs2)%nat.
Proof. unfold awaited. rewrite filter_app, length_app. reflexivity. Qed.

Lemma awaited_delete cs i c :
  cs !! i = Some c ->
  awaited cs = (awaited (delete i cs) + awaited [c])%nat.
Proof.
  intros Hc. rewrite delete_take_drop.
  rewrite <- (take_drop_middle cs i c Hc) at 1.
  rewrite !awaited_app. change (c :: drop (S i) cs) with ([c] ++ drop (S i) cs).
  rewrite awaited_app. lia.
Qed.

#[local] Arguments countRole : simpl never.
#[local] Arguments awaited : simpl never.

Lemma countRole_one r m :
  countRole r [m] = if decide (role m = r) then 1%nat else 0%nat.
Proof. unfold countRole. cbn. destruct (decide (role m = r)); reflexivity. Qed.

Lemma awaited_one c :
  awaited [c] = if decide (callOrigin c <> ByCompleteCode) then 1%nat else 0%nat.
Proof.
  unfold awaited. cbn. destruct (decide (callOrigin c <> ByCompleteCode)); reflexivity.
Qed.

Ltac tally :=
  cbn in *; repeat case_decide; try congruence; try lia.

(** The balance of questions and answers over one turn. *)
Lemma balance_step w e :
  e <> ClearChat -> e <> WebviewReady ->
  countRole user (_chatHistory (panel w))
  = (countRole assistant (_chatHistory (panel w)) + awaited (calls w))%nat ->
  countRole user (_chatHistory (panel (step w e)))
  = (countRole assistant (_chatHistory (panel (step w e)))
     + awaited (calls (step w e)))%nat.
Proof.
  intros Hclear Hinit Inv.
  destruct e as [ms | | message | | | shown prompt | prompt | i http | i];
    cbn [step]; try contradiction.
  - destruct (0 <=? ms); exact Inv.
  - unfold handleUserMessage.
    destruct (String.eqb (Js.trim message) ""); [exact Inv|].
    destruct (_mentorMode (panel w) && _forceAnswerCooldown (panel w)
              && negb (_forceAnswerEnabled (panel w))).
    + cbn. rewrite !countRole_app, !countRole_one. tally.
    + cbn. rewrite !countRole_app, awaited_app, !countRole_one, awaited_one. tally.
  - unfold toggleForceAnswer. destruct (_forceAnswerCooldown (panel w)); exact Inv.
  - cbn. rewrite !countRole_app, awaited_app, !countRole_one, awaited_one. tally.
  - cbn. rewrite awaited_app, awaited_one. tally.
  - unfold settle. destruct (calls w !! i) as [c |] eqn:Hc; [| exact Inv].
    rewrite (awaited_delete _ _ _ Hc), awaited_one in Inv.
    destruct (callOrigin c) eqn:Horigin.
    + unfold afterProcessMessage. rewrite processMessage_push.
      match goal with |- context [if ?b then _ else _] => destruct b end;
        cbn; rewrite !countRole_app, !countRole_one; tally.
    + rewrite processMessage_push.
      cbn. rewrite !countRole_app, !countRole_one. tally.
    + tally.
  - unfold timerFires. destruct (timers w !! i) as [due |]; [| exact Inv].
    destruct (due <=? clock w); exact Inv.
Qed.

(** X19. As long as the chat is not reset, every [user] entry of the
    display log has its answer or is waiting for it: the [user] entries
    are as many as the [assistant] entries and the calls that
    [processMessage] still awaits, taken together. *)
Theorem questions_balance_answers (t0 : Z) (es : list Event) :
  neverCleared es ->
  let w := run es (initial t0) in
  countRole user (_chatHistory (panel w))
  = (countRole assistant (_chatHistory (panel w)) + awaited (calls w))%nat.
Proof.
  intros Hnever w. subst w.
  induction es as [| e es IH] using rev_ind; [reflexivity|].
  unfold neverCleared in Hnever. rewrite Forall_app in Hnever.
  destruct Hnever as [Hes He]. rewrite Forall_singleton in He.
  destruct He as [Hclear Hinit].
  rewrite run_snoc. apply balance_step; auto.
Qed.

Lemma questions_balance_answers_witness :
  neverCleared [SendMessage "one"; EditorCommand "two" "explain two";
                Settle 1 (answers "second"); CompleteCode "three"]
  /\ countRole user
       (_chatHistory
          (panel (run [SendMessage "one"; EditorCommand "two" "explain two";
                       Settle 1 (answers "second"); CompleteCode "three"]
                      (initial 0)))) = 2%nat.
Proof.
  assert (Hnever : neverCleared
            [SendMessage "one"; EditorCommand "two" "explain two";
             Settle 1 (answers "second"); CompleteCode "three"]).
  { repeat constructor; discriminate. }
  split; [exact Hnever|].
  rewrite (questions_balance_answers 0 _ Hnever). vm_compute. reflexivity.
Defined.

(** X15. Toggling force answer twice in a row always brings the world
    back to where it was: the toggle is undone by itself outside the
    cooldown and does nothing during it. *)
Theorem toggle_twice (w : World) :
  step (step w ToggleForceAnswer) ToggleForceAnswer = w.
Proof.
  cbn [step]. unfold toggleForceAnswer.
  destruct w as [[log cooldown force mentor endTime] h now ts cs].
  destruct cooldown; cbn; [reflexivity|].
  rewrite negb_involutive. reflexivity.
Qed.

(** X16. What ends and what begins the cooldown. A cooldown that is on
    stays on through every event but the two resets and the firing of a
    timer that is due. A cooldown that is off stays off through every
    event but the settling of a call of [handleUserMessage] at a moment
    when force answer is on. *)
Theorem cooldown_changes_only_by (w : World) (e : Event) :
  (_forceAnswerCooldown (panel w) = true ->
   _forceAnswerCooldown (panel (step w e)) = false ->
   e = ClearChat \/ e = WebviewReady
   \/ exists i due, e = TimerFires i /\ timers w !! i = Some due /\ due <= clock w)
  /\ (_forceAnswerCooldown (panel w) = false ->
      _forceAnswerCooldown (panel (step w e)) = true ->
      exists i http c,
        e = Settle i http /\ calls w !! i = Some c
        /\ callOrigin c = ByHandleUserMessage
        /\ _forceAnswerEnabled (panel w) = true
        /\ _cooldownEndTime (panel (step w e)) = clock w + 120000).
Proof.
  split; intros Hbefore Hafter;
    destruct e as [ms | | message | | | shown prompt | prompt | i http | i];
    cbn [step] in Hafter.
  - destruct (0 <=? ms); cbn in Hafter; congruence.
  - auto.
  - unfold handleUserMessage in Hafter.
    repeat match type of Hafter with
           | context [if ?b then _ else _] => destruct b
           end; cbn in Hafter; congruence.
  - unfold toggleForceAnswer in Hafter. rewrite Hbefore in Hafter.
    rewrite withPanel_same in Hafter. congruence.
  - auto.
  - cbn in Hafter. congruence.
  - cbn in Hafter. congruence.
  - unfold settle in Hafter. destruct (calls w !! i) as [c |]; [| congruence].
    pose proof (processMessage_flags (panel w)
                  (Remote.settled (Remote.askAI (callPrompt c) (callOptions c) http
                     (conversationHistory w) (clock w))) (clock w)) as Hflags.
    cbv zeta in Hflags. destruct Hflags as (Hf1 & Hf2 & Hf3 & Hf4).
    destruct (callOrigin c); cbn in Hafter; try congruence.
    unfold afterProcessMessage in Hafter. cbn in Hafter.
    rewrite Hf1, Hbefore, andb_false_r in Hafter. cbn in Hafter. congruence.
  - right. right. unfold timerFires in Hafter.
    destruct (timers w !! i) as [due |] eqn:Hdue; [| congruence].
    destruct (due <=? clock w) eqn:Hle; [| congruence].
    exists i, due. split; [reflexivity|]. split; [exact Hdue | apply Z.leb_le, Hle].
  - destruct (0 <=? ms); cbn in Hafter; congruence.
  - discriminate Hafter.
  - unfold handleUserMessage in Hafter.
    repeat match type of Hafter with
           | context [if ?b then _ else _] => destruct b
           end; cbn in Hafter; congruence.
  - unfold toggleForceAnswer in Hafter. rewrite Hbefore in Hafter.
    cbn in Hafter. congruence.
  - discriminate Hafter.
  - cbn in Hafter. congruence.
  - cbn in Hafter. congruence.
  - unfold settle in Hafter. destruct (calls w !! i) as [c |] eqn:Hc; [| congruence].
    pose proof (processMessage_flags (panel w)
                  (Remote.settled (Remote.askAI (callPrompt c) (callOptions c) http
                     (conversationHistory w) (clock w))) (clock w)) as Hflags.
    cbv zeta in Hflags. destruct Hflags as (Hf1 & Hf2 & Hf3 & Hf4).
    destruct (callOrigin c) eqn:Horigin; cbn in Hafter; try congruence.
    exists i, http, c. cbn [step]. unfold settle. rewrite Hc, Horigin.
    unfold afterProcessMessage in *. cbn in *.
    rewrite Hf1, Hf2, Hbefore in *.
    destruct (_forceAnswerEnabled (panel w)); cbn in *; [| congruence].
    repeat split.
  - unfold timerFires in Hafter.
    destruct (timers w !! i) as [due |]; [| congruence].
    destruct (due <=? clock w); cbn in Hafter; congruence.
Qed.

Lemma cooldown_changes_only_by_witness :
  (let w := run forcedExchange (initial 0) in
   _forceAnswerCooldown (panel w) = true
   /\ _forceAnswerCooldown (panel (step w ClearChat)) = false
   /\ (ClearChat = ClearChat \/ ClearChat = WebviewReady
       \/ exists i due,
            ClearChat = TimerFires i /\ timers w !! i = Some due /\ due <= clock w))
  /\ (let w := run [ToggleForceAnswer; SendMessage "fix this"] (initial 0) in
      _forceAnswerCooldown (panel w) = false
      /\ _forceAnswerCooldown (panel (step w (Settle 0 (answers "done")))) = true
      /\ exists i http c,
           Settle 0 (answers "done") = Settle i http /\ calls w !! i = Some c
           /\ callOrigin c = ByHandleUserMessage
           /\ _forceAnswerEnabled (panel w) = true
           /\ _cooldownEndTime (panel (step w (Settle 0 (answers "done"))))
              = clock w + 120000).
Proof.
  split; intros w.
  - split; [reflexivity|]. split; [reflexivity|].
    exact (proj1 (cooldown_changes_only_by w ClearChat) eq_refl eq_refl).
  - split; [reflexivity|]. split; [reflexivity|].
    exact (proj2 (cooldown_changes_only_by w (Settle 0 (answers "done")))
             eq_refl eq_refl).
Defined.

(** X17. Whether a cooldown follows is decided by the force-answer flag
    at the moment the reply arrives, not by the mode the message was sent
    in. A message sent with force answer on goes out in force mode; if
    force answer is switched off before the reply arrives, no cooldown and
    no mentor mode follow, and no timer is set. *)
Theorem force_answer_without_cooldown (w : World) (message : string)
    (http : Z -> Remote.Behaviour) :
  _forceAnswerCooldown (panel w) = false ->
  _forceAnswerEnabled (panel w) = true ->
  Js.trim message <> "" ->
  let w1 := step w (SendMessage message) in
  let w2 := step w1 ToggleForceAnswer in
  let w3 := step w2 (Settle (length (calls w)) http) in
  calls w1 = calls w ++ [mkCall message (processOptions true) ByHandleUserMessage]
  /\ _forceAnswerEnabled (panel w2) = false
  /\ _forceAnswerCooldown (panel w3) = false
  /\ _mentorMode (panel w3) = _mentorMode (panel w)
  /\ timers w3 = timers w
  /\ calls w3 = calls w.
Proof.
  intros Hcool Hforce Hblank w1 w2 w3.
  apply String.eqb_neq in Hblank.
  assert (H1 : w1 = startCall
                 (withPanel w (addUserMessage (panel w) message (clock w)))
                 (mkCall message (processOptions true) ByHandleUserMessage)).
  { subst w1. cbn [step]. unfold handleUserMessage.
    rewrite Hblank, Hcool, andb_false_r. cbn [andb]. cbn. rewrite Hforce. reflexivity. }
  assert (H2 : w2 = withPanel w1 (toggleForceAnswer (panel w1))) by reflexivity.
  clearbody w1 w2.
  assert (Hlookup : calls w2 !! length (calls w)
                    = Some (mkCall message (processOptions true) ByHandleUserMessage)).
  { rewrite H2, H1. cbn. apply list_lookup_middle. reflexivity. }
  assert (Hdelete : delete (length (calls w)) (calls w2) = calls w).
  { rewrite H2, H1. cbn. rewrite delete_take_drop.
    rewrite take_app_length. replace (S (length (calls w)))
      with (length (calls w ++ [mkCall message (processOptions true) ByHandleUserMessage]))
      by (rewrite length_app; simpl; lia).
    rewrite drop_all. apply app_nil_r. }
  assert (Hflags : _forceAnswerEnabled (panel w2) = false
                   /\ _forceAnswerCooldown (panel w2) = false
                   /\ _mentorMode (panel w2) = _mentorMode (panel w)
                   /\ timers w2 = timers w).
  { rewrite H2, H1. cbn. unfold toggleForceAnswer. cbn. rewrite Hcool. cbn.
    rewrite Hforce. repeat split. }
  destruct Hflags as (Hf & Hc & Hm & Ht).
  split; [rewrite H1; reflexivity|]. split; [exact Hf|].
  subst w3. cbn [step]. unfold settle. rewrite Hlookup. cbn [callOrigin].
  set (r := Remote.askAI _ _ _ _ _).
  pose proof (processMessage_flags (panel w2) (Remote.settled r) (clock w2)) as Hp.
  cbv zeta in Hp. destruct Hp as (Hp1 & Hp2 & Hp3 & Hp4).
  unfold afterProcessMessage. cbn [withPanel panel timers calls clock].
  rewrite Hp2, Hf. cbn [andb]. cbn [withPanel panel timers calls].
  rewrite Hp1, Hp3, Hc, Hm, Ht, Hdelete. repeat split.
Qed.

Lemma force_answer_without_cooldown_witness :
  let w := step (initial 0) ToggleForceAnswer in
  _forceAnswerCooldown (panel w) = false
  /\ _forceAnswerEnabled (panel w) = true
  /\ Js.trim "fix this" <> ""
  /\ _forceAnswerCooldown
       (panel (run [SendMessage "fix this"; ToggleForceAnswer;
                    Settle 0 (answers "done")] w)) = false.
Proof.
  intros w.
  assert (Hblank : Js.trim "fix this" <> "") by (vm_compute; discriminate).
  split; [reflexivity|]. split; [reflexivity|]. split; [exact Hblank|].
  destruct (force_answer_without_cooldown w "fix this" (answers "done")
              eq_refl eq_refl Hblank) as (_ & _ & H & _).
  exact H.
Defined.

Lemma ceilDiv1000_spec x :
  1000 * (Js.ceilDiv1000 x - 1) < x <= 1000 * Js.ceilDiv1000 x.
Proof.
  unfold Js.ceilDiv1000.
  pose proof (Z.div_mod (- x) 1000 ltac:(lia)) as Hdiv.
  pose proof (Z.mod_pos_bound (- x) 1000 ltac:(lia)) as Hmod.
  lia.
Qed.

(** X21. The seconds the user is told to wait are the remaining time of
    the cooldown rounded up to whole seconds. In a world the extension can
    reach, with the cooldown on and no pending expiry due, they are
    between 1 and 120. *)
Theorem remaining_seconds_in_range :
  (forall p now,
     1000 * (Webview.remaining p now - 1) < _cooldownEndTime p - now
     <= 1000 * Webview.remaining p now)
  /\ (forall w,
        Reachable w ->
        _forceAnswerCooldown (panel w) = true ->
        NoTimerDue w ->
        1 <= Webview.remaining (panel w) (clock w) <= 120
        /\ Webview.toggleNotice (panel w) (clock w)
           = Webview.Warning
               ("⏰ Force Answer is on cooldown (Qwen2-0.5B). Wait "
                +:+ Js.ofZ (Webview.remaining (panel w) (clock w)) +:+ " seconds.")).
Proof.
  split.
  - intros p now. apply ceilDiv1000_spec.
  - intros w (t0 & es & ->) Hcool Hdue.
    destruct (CooldownInvariant_run es (initial t0) (CooldownInvariant_initial t0) Hcool)
      as (_ & Hin & Hend).
    specialize (Hdue _ Hin).
    pose proof (ceilDiv1000_spec
                  (_cooldownEndTime (panel (run es (initial t0)))
                   - clock (run es (initial t0)))) as Hceil.
    split; [unfold Webview.remaining; lia|].
    unfold Webview.toggleNotice. rewrite Hcool. reflexivity.
Qed.

Lemma remaining_seconds_in_range_witness :
  let w := run (forcedExchange ++ [Tick 1500]) (initial 0) in
  Reachable w
  /\ _forceAnswerCooldown (panel w) = true
  /\ NoTimerDue w
  /\ Webview.remaining (panel w) (clock w) = 119.
Proof.
  intros w.
  assert (Hreach : Reachable w) by (exists 0, (forcedExchange ++ [Tick 1500]); reflexivity).
  assert (Hdue : NoTimerDue w).
  { intros due [<- | []]. vm_compute. reflexivity. }
  split; [exact Hreach|]. split; [reflexivity|]. split; [exact Hdue|].
  destruct remaining_seconds_in_range as [_ H].
  destruct (H w Hreach eq_refl Hdue) as [_ _]. reflexivity.
Defined.

Lemma run_app es1 es2 w : run (es1 ++ es2) w = run es2 (run es1 w).
Proof. unfold run. apply fold_left_app. Qed.

(** The force answer used once, from a panel at rest. *)
Lemma forcedExchange_from log h now ts :
  (length h <= 6)%nat ->
  run forcedExchange (mkWorld (mkProvider log false false false 0) h now ts [])
  = mkWorld
      (mkProvider
         (log ++ [mkMessage user "fix this" now; mkMessage assistant "done" now])
         true true true (now + 120000))
      (h ++ [mkMessage user "fix this" now; mkMessage assistant "done" now])
      now (ts ++ [now + 120000]) [].
Proof.
  intros Hlen. unfold run, forcedExchange. cbn [fold_left].
  change (step (mkWorld (mkProvider log false false false 0) h now ts [])
               ToggleForceAnswer)
    with (mkWorld (mkProvider log false true false 0) h now ts []).
  change (step (mkWorld (mkProvider log false true false 0) h now ts [])
               (SendMessage "fix this"))
    with (mkWorld (mkProvider (log ++ [mkMessage user "fix this" now]) false true false 0)
            h now ts [mkCall "fix this" (processOptions true) ByHandleUserMessage]).
  cbn [step]. unfold settle. cbn [calls lookup list_lookup callOrigin callPrompt
                                    callOptions conversationHistory clock panel].
  destruct (askAI_success "fix this" (processOptions true) (answers "done") h now 1 "done")
    as [Hsettled Hhist].
  { vm_compute. split; discriminate. }
  { intros k Hk. lia. }
  { reflexivity. }
  rewrite Hsettled, Hhist. change (Js.trim "done") with "done".
  rewrite exchange_sliceLast, sliceLast_short by (rewrite length_app; simpl; lia).
  cbn. unfold startCooldown, withPanel, push, _startCooldown. cbn.
  rewrite <- app_assoc. reflexivity.
Qed.

(** X22. The expiry timer of a cooldown is not cancelled by [clearChat],
    and when it fires it ends whatever cooldown is on. A cooldown begun
    [d] ms after an earlier one that was cleared is ended by the earlier
    timer after 120000 - d ms, while its own end time is still [d] ms
    away. *)
Theorem earlier_timer_ends_later_cooldown (t0 d : Z) :
  0 <= d <= 120000 ->
  let begun := run (forcedExchange ++ [Tick d; ClearChat] ++ forcedExchange)
                   (initial t0) in
  let w := run (clearedAndForcedAgain d) (initial t0) in
  (clock begun = t0 + d
   /\ _forceAnswerCooldown (panel begun) = true
   /\ _cooldownEndTime (panel begun) = t0 + d + 120000)
  /\ (clock w = t0 + 120000
      /\ _forceAnswerCooldown (panel w) = false
      /\ _mentorMode (panel w) = false
      /\ _cooldownEndTime (panel w) = clock w + d).
Proof.
  intros Hd begun w.
  assert (Hbegun : begun
            = mkWorld
                (mkProvider
                   [mkMessage user "fix this" (t0 + d); mkMessage assistant "done" (t0 + d)]
                   true true true (t0 + d + 120000))
                ([mkMessage user "fix this" t0; mkMessage assistant "done" t0]
                 ++ [mkMessage user "fix this" (t0 + d); mkMessage assistant "done" (t0 + d)])
                (t0 + d) ([t0 + 120000] ++ [t0 + d + 120000]) []).
  { subst begun. rewrite !run_app.
    unfold initial, newProvider. rewrite forcedExchange_from by (simpl; lia).
    unfold run at 2. cbn [fold_left step app].
    rewrite (proj2 (Z.leb_le 0 d)) by lia.
    unfold withPanel, clearChat.
    cbn [panel conversationHistory clock timers calls].
    rewrite forcedExchange_from by (simpl; lia). reflexivity. }
  split; [rewrite Hbegun; repeat split|].
  assert (Hw : w = run [Tick (120000 - d); TimerFires 0] begun).
  { subst w begun. unfold clearedAndForcedAgain. rewrite !run_app. reflexivity. }
  rewrite Hw, Hbegun. unfold run. cbn [fold_left step app].
  rewrite (proj2 (Z.leb_le 0 (120000 - d))) by lia.
  unfold timerFires. cbn [timers lookup list_lookup clock].
  rewrite (proj2 (Z.leb_le (t0 + 120000) (t0 + d + (120000 - d)))) by lia.
  cbn. repeat split; lia.
Qed.

Lemma earlier_timer_ends_later_cooldown_witness :
  0 <= 90000 <= 120000
  /\ _forceAnswerCooldown (panel (run (clearedAndForcedAgain 90000) (initial 0))) = false
  /\ clock (run (clearedAndForcedAgain 90000) (initial 0)) = 120000
  /\ _cooldownEndTime (panel (run (clearedAndForcedAgain 90000) (initial 0))) = 210000.
Proof.
  assert (Hd : 0 <= 90000 <= 120000) by lia.
  split; [exact Hd|].
  destruct (earlier_timer_ends_later_cooldown 0 90000 Hd) as (_ & Hc & Hf & _ & _).
  split; [exact Hf|]. split; [exact Hc | reflexivity].
Defined.

Lemma lastUpdate_app ps1 ps2 :
  lastUpdate (ps1 ++ ps2)
  = match lastUpdate ps2 with
    | Some p => Some p
    | None => lastUpdate ps1
    end.
Proof.
  unfold lastUpdate. rewrite foldl_app. generalize (foldl
    (fun acc post =>
       match post with
       | Webview.UpdateChat log cooldown force mentor endTime =>
           Some (mkProvider log cooldown force mentor endTime)
       | _ => acc
       end) None ps1) as acc.
  induction ps2 as [| post ps2 IH] using rev_ind; intros acc; [reflexivity|].
  rewrite !foldl_snoc. destruct post; try reflexivity; apply IH.
Qed.

Lemma lastUpdate_updateWebview p : lastUpdate (Webview._updateWebview p) = Some p.
Proof. destruct p. reflexivity. Qed.

(** What the webview was last told in a turn is the state after it. *)
Lemma posts_step w e :
  match lastUpdate (Webview.posts w e) with
  | Some p => p = panel (step w e)
  | None => panel (step w e) = panel w
  end.
Proof.
  destruct e as [ms | | message | | | shown prompt | prompt | i http | i];
    cbn [step Webview.posts].
  - destruct (0 <=? ms); reflexivity.
  - reflexivity.
  - unfold handleUserMessage.
    destruct (String.eqb (Js.trim message) ""); [reflexivity|].
    destruct (_mentorMode (panel w) && _forceAnswerCooldown (panel w)
              && negb (_forceAnswerEnabled (panel w))).
    + rewrite lastUpdate_app, lastUpdate_updateWebview. reflexivity.
    + rewrite lastUpdate_app. cbn [lastUpdate foldl].
      rewrite lastUpdate_updateWebview. reflexivity.
  - unfold toggleForceAnswer. destruct (_forceAnswerCooldown (panel w)) eqn:Hcool.
    + reflexivity.
    + rewrite lastUpdate_updateWebview. reflexivity.
  - reflexivity.
  - rewrite lastUpdate_app. cbn [lastUpdate foldl].
    rewrite lastUpdate_updateWebview. reflexivity.
  - reflexivity.
  - unfold settle. destruct (calls w !! i) as [c |]; [| reflexivity].
    destruct (callOrigin c).
    + unfold afterProcessMessage. cbn [withPanel panel clock].
      match goal with |- context [if ?b then _ else _] => destruct b end.
      * rewrite !lastUpdate_app, lastUpdate_updateWebview. reflexivity.
      * rewrite !lastUpdate_app. cbn [lastUpdate foldl].
        rewrite lastUpdate_updateWebview. reflexivity.
    + rewrite lastUpdate_app. cbn [lastUpdate foldl].
      rewrite lastUpdate_updateWebview. reflexivity.
    + reflexivity.
  - unfold timerFires. destruct (timers w !! i) as [due |]; [| reflexivity].
    destruct (due <=? clock w); [| reflexivity].
    rewrite lastUpdate_updateWebview. reflexivity.
Qed.

(** X23. The webview is never left with a stale state. In every turn of
    the event loop, the last [updateChat] posted carries the panel's state
    as it is after the turn, and a turn that posts none leaves the state as
    it was. So after [webviewReady] and any events, what the webview was
    last told is the panel's state. *)
Theorem webview_is_up_to_date :
  (forall w e,
     match lastUpdate (Webview.posts w e) with
     | Some p => p = panel (step w e)
     | None => panel (step w e) = panel w
     end)
  /\ (forall w es,
        lastUpdate (runPosts (WebviewReady :: es) w)
        = Some (panel (run (WebviewReady :: es) w))).
Proof.
  split; [exact posts_step|].
  intros w es.
  assert (Hgen : forall es w0 ps,
            lastUpdate ps = Some (panel w0) ->
            lastUpdate (ps ++ runPosts es w0) = Some (panel (run es w0))).
  { clear. intros es. induction es as [| e es IH]; intros w0 ps Hps.
    - cbn. rewrite app_nil_r. exact Hps.
    - cbn [runPosts]. rewrite app_assoc. apply IH.
      rewrite lastUpdate_app. pose proof (posts_step w0 e) as Hstep.
      destruct (lastUpdate (Webview.posts w0 e)) as [p |].
      + rewrite Hstep. reflexivity.
      + rewrite Hps, Hstep. reflexivity. }
  cbn [runPosts]. apply (Hgen es (step w WebviewReady)). reflexivity.
Qed.

(** X20. [copyMessageToClipboard] hands a text to the clipboard exactly
    for the indices of the display log, and then the content of the entry
    at that index; for any other index it does nothing. Right after
    [processMessage] has settled, the index that was the length of the log
    copies the reply just shown. *)
Theorem copy_within_bounds (p : Provider) :
  (forall messageIndex,
     messageIndex < 0 \/ Z.of_nat (length (_chatHistory p)) <= messageIndex ->
     Webview.copyMessageToClipboard p messageIndex = None)
  /\ (forall (i : nat) m,
        _chatHistory p !! i = Some m ->
        Webview.copyMessageToClipboard p (Z.of_nat i) = Some (content m))
  /\ (forall outcome now,
        Webview.copyMessageToClipboard (processMessage p outcome now)
          (Z.of_nat (length (_chatHistory p)))
        = Some (replyText outcome)).
Proof.
  assert (Hin : forall (q : Provider) (i : nat) m,
            _chatHistory q !! i = Some m ->
            Webview.copyMessageToClipboard q (Z.of_nat i) = Some (content m)).
  { intros q i m Hm. unfold Webview.copyMessageToClipboard.
    pose proof (lookup_lt_Some _ _ _ Hm) as Hlt.
    replace (0 <=? Z.of_nat i) with true by (symmetry; apply Z.leb_le; lia).
    replace (Z.of_nat i <? Z.of_nat (length (_chatHistory q))) with true
      by (symmetry; apply Z.ltb_lt; lia).
    cbn [andb]. rewrite Nat2Z.id, Hm. reflexivity. }
  split; [| split; [exact (Hin p)|]].
  - intros messageIndex Hout. unfold Webview.copyMessageToClipboard.
    destruct Hout as [Hneg | Hbig].
    + replace (0 <=? messageIndex) with false by (symmetry; apply Z.leb_gt; lia).
      reflexivity.
    + replace (messageIndex <? Z.of_nat (length (_chatHistory p))) with false
        by (symmetry; apply Z.ltb_ge; lia).
      rewrite andb_false_r. reflexivity.
  - intros outcome now.
    rewrite (Hin _ _ (mkMessage assistant (replyText outcome) now)); [reflexivity|].
    rewrite processMessage_log. apply list_lookup_middle. reflexivity.
Qed.

Lemma copy_within_bounds_witness :
  let p := panel (run forcedExchange (initial 0)) in
  Webview.copyMessageToClipboard p 2 = None
  /\ Webview.copyMessageToClipboard p 1 = Some "done".
Proof.
  intros p. destruct (copy_within_bounds p) as (Hout & Hin & _). split.
  - apply Hout. right. vm_compute. discriminate.
  - apply (Hin 1%nat (mkMessage assistant "done" 0)). reflexivity.
Defined.

End SessionInvariants.

(** ** More on the analysis of the conversation *)

Section AnalysisMore.

Import ApolloAI.

Lemma scanRecent_snoc l m : scanRecent (l ++ [m]) = scanMessage (scanRecent l) m.
Proof. unfold scanRecent. rewrite fold_left_app. reflexivity. Qed.

Lemma userTexts_snoc l m :
  userTexts (l ++ [m])
  = userTexts l ++ (if decide (role m = user) then [Js.toLowerCase (content m)] else []).
Proof.
  unfold userTexts. rewrite filter_app, !fmap_app. f_equal.
  cbn. destruct (decide (role m = user)); reflexivity.
Qed.

Lemma lastContent_snoc r l m :
  lastContent r (l ++ [m])
  = if decide (role m = r) then content m else lastContent r l.
Proof.
  unfold lastContent. rewrite filter_app, fmap_app. cbn.
  destruct (decide (role m = r)); cbn.
  - rewrite last_snoc. reflexivity.
  - rewrite app_nil_r. reflexivity.
Qed.

Lemma questionType_withUser ctx msg lc :
  questionType (withUser ctx msg lc) = default (questionType ctx) (verdict lc).
Proof.
  unfold withUser, verdict. cbn [questionType].
  destruct (Js.includes lc "output"), (Js.includes lc "print"),
    (Js.includes lc Js.dquote), (Js.includes lc "calculator"),
    (Js.includes lc "create"), (Js.includes lc "make"),
    (Js.includes lc "what"), (Js.includes lc "does"), (Js.includes lc "use"),
    (Js.includes lc "result"); reflexivity.
Qed.

(** What the loop of the analysis has gathered after the recent entries. *)
Lemma scanRecent_spec l :
  let st := scanRecent l in
  let c := context st in
  userQuestions st = userTexts l
  /\ hasPrintQuestions c = existsb (mentions ["print"]) (userTexts l)
  /\ hasCodeQuestions c
     = existsb (mentions ["code"; "function"; "python"]) (userTexts l)
  /\ hasCalculatorQuestions c
     = existsb (mentions ["calculator"; "create"; "make"]) (userTexts l)
  /\ questionType c = lastVerdict (userTexts l)
  /\ lastUserQuestion c = lastContent user l
  /\ lastAssistantResponse c = lastContent assistant l
  /\ repeatedTopics c = []
  /\ topicContinuity c = false.
Proof.
  induction l as [| m l IH] using rev_ind; [cbn; repeat split|].
  cbv zeta in *. destruct IH as (Hq & Hp & Hc & Hk & Ht & Hu & Ha & Hr & Hn).
  rewrite scanRecent_snoc, userTexts_snoc, !lastContent_snoc.
  unfold scanMessage. destruct m as [r c t]. destruct r; cbn [role content].
  - cbn [context userQuestions]. rewrite questionType_withUser.
    unfold withUser. cbn [hasPrintQuestions hasCodeQuestions hasCalculatorQuestions
      lastUserQuestion lastAssistantResponse repeatedTopics topicContinuity].
    rewrite Hq, Hp, Hc, Hk, Ht, Ha, Hr, Hn.
    destruct (decide (user = user)) as [_ |]; [| contradiction].
    destruct (decide (user = assistant)) as [Hne |]; [discriminate Hne|].
    rewrite !existsb_app. unfold lastVerdict at 2. rewrite foldl_snoc.
    fold (lastVerdict (userTexts l)). unfold mentions. cbn [existsb].
    repeat split;
      repeat match goal with
             | |- context [existsb ?f (userTexts l)] =>
                 generalize (existsb f (userTexts l)); intros []
             end;
      destruct (Js.includes (Js.toLowerCase c) "print"),
        (Js.includes (Js.toLowerCase c) "code"),
        (Js.includes (Js.toLowerCase c) "function"),
        (Js.includes (Js.toLowerCase c) "python"),
        (Js.includes (Js.toLowerCase c) "calculator"),
        (Js.includes (Js.toLowerCase c) "create"),
        (Js.includes (Js.toLowerCase c) "make"); reflexivity.
  - cbn [context userQuestions]. unfold withAssistant.
    cbn [hasPrintQuestions hasCodeQuestions hasCalculatorQuestions questionType
      lastUserQuestion lastAssistantResponse repeatedTopics topicContinuity].
    destruct (decide (assistant = user)) as [Hne |]; [discriminate Hne|].
    destruct (decide (assistant = assistant)) as [_ |]; [| contradiction].
    rewrite app_nil_r. repeat split; assumption.
Qed.

(** X11. A topic flag of the analysis is on exactly when one of the
    [user] entries among the last six mentions one of the flag's words,
    whatever the case of its letters: [print] for print questions; [code],
    [function], [python] for code questions; [calculator], [create],
    [make] for calculator questions. *)
Theorem flags_follow_keywords (h : list Message) :
  let texts := userTexts (Js.sliceLast 6 h) in
  let c := analyzeConversationContext h in
  hasPrintQuestions c = existsb (mentions ["print"]) texts
  /\ hasCodeQuestions c = existsb (mentions ["code"; "function"; "python"]) texts
  /\ hasCalculatorQuestions c
     = existsb (mentions ["calculator"; "create"; "make"]) texts.
Proof.
  intros texts c. subst c. rewrite analyze_by_recent. cbv zeta.
  destruct (scanRecent_spec (Js.sliceLast 6 h)) as (_ & Hp & Hc & Hk & _).
  cbn [hasPrintQuestions hasCodeQuestions hasCalculatorQuestions].
  split; [exact Hp|]. split; [exact Hc | exact Hk].
Qed.

(** X12. The question type is the verdict of the latest [user] entry,
    among the last six, on which one of the rules fires; entries on which
    none fires leave it as it is, and it is [general] when none fires at
    all. Within one entry, output together with print or a quote beats the
    project words, and those beat the print rules. *)
Theorem questionType_is_last_verdict (h : list Message) :
  questionType (analyzeConversationContext h)
  = lastVerdict (userTexts (Js.sliceLast 6 h)).
Proof.
  rewrite analyze_by_recent. cbv zeta. cbn [questionType].
  apply (scanRecent_spec (Js.sliceLast 6 h)).
Qed.

(** X13. The rest of the analysis. The last question and the last
    response are the contents of the latest [user] and [assistant] entries
    among the last six, empty when there is none; assistant entries change
    nothing else. [repeatedTopics] is always empty. The progression is
    [hands_on] for a code topic and more than 2 entries in the whole
    history, else [intermediate] for more than 4 entries, else [beginner].
    The topic continues exactly when the last two [user] entries both
    mention print or both mention calculator. *)
Theorem analysis_of_last_entries (h : list Message) :
  let recent := Js.sliceLast 6 h in
  let c := analyzeConversationContext h in
  lastUserQuestion c = lastContent user recent
  /\ lastAssistantResponse c = lastContent assistant recent
  /\ repeatedTopics c = []
  /\ userProgression c
     = (if hasCodeQuestions c && (2 <? length h)%nat then hands_on
        else if (4 <? length h)%nat then intermediate else beginner)
  /\ ((length (userTexts recent) < 2)%nat -> topicContinuity c = false)
  /\ (forall earlier q1 q2,
        userTexts recent = earlier ++ [q1; q2] ->
        topicContinuity c
        = (Js.includes q1 "print" && Js.includes q2 "print")
          || (Js.includes q1 "calculator" && Js.includes q2 "calculator")).
Proof.
  intros recent c. subst c. rewrite analyze_by_recent. cbv zeta.
  destruct (scanRecent_spec recent) as (Hq & _ & _ & _ & _ & Hu & Ha & Hr & Hn).
  fold recent.
  cbn [lastUserQuestion lastAssistantResponse repeatedTopics userProgression
       hasCodeQuestions topicContinuity].
  rewrite Hq, Hn. split; [exact Hu|]. split; [exact Ha|]. split; [exact Hr|].
  split; [reflexivity|]. split.
  - intros Hshort. unfold checkContinuity.
    replace (2 <=? length (userTexts recent))%nat with false
      by (symmetry; apply Nat.leb_gt; exact Hshort).
    reflexivity.
  - intros earlier q1 q2 ->. unfold checkContinuity.
    replace (2 <=? length (earlier ++ [q1; q2]))%nat with true
      by (symmetry; apply Nat.leb_le; rewrite length_app; simpl; lia).
    unfold Js.sliceLast. rewrite length_app. cbn [length].
    replace (length earlier + 2 - 2)%nat with (length earlier) by lia.
    rewrite drop_app_length. unfold every. cbn [forallb].
    rewrite !andb_true_r.
    destruct (Js.includes q1 "print" && Js.includes q2 "print"),
      (Js.includes q1 "calculator" && Js.includes q2 "calculator"); reflexivity.
Qed.

Lemma analysis_of_last_entries_witness :
  userTexts (Js.sliceLast 6 threeExchanges)
  = ["what does print do"] ++ ["show me the output"; "thanks"]
  /\ topicContinuity (analyzeConversationContext threeExchanges) = false
  /\ ((length (userTexts (Js.sliceLast 6 [mkMessage user "print it" 0])) < 2)%nat
      /\ topicContinuity (analyzeConversationContext [mkMessage user "print it" 0]) = false).
Proof.
  split; [reflexivity|]. split.
  - destruct (analysis_of_last_entries threeExchanges) as (_ & _ & _ & _ & _ & H).
    rewrite (H ["what does print do"] "show me the output" "thanks" eq_refl).
    reflexivity.
  - assert (Hshort : (length (userTexts (Js.sliceLast 6 [mkMessage user "print it" 0])) < 2)%nat)
      by (vm_compute; lia).
    split; [exact Hshort|].
    destruct (analysis_of_last_entries [mkMessage user "print it" 0])
      as (_ & _ & _ & _ & H & _).
    exact (H Hshort).
Defined.

End AnalysisMore.

(** ** The request *)

Section RequestProperties.

Import Request.

(** X8. Whatever the options, the request never asks for more than 250
    tokens, nor for more than the caller wanted (200 when unsaid). In
    force mode it asks for at most 200 tokens at temperature 0.1; otherwise
    the temperature is at most 0.5 and at most what the caller wanted (0.3
    when unsaid). The settings of [processMessage] pass as they are. *)
Theorem request_is_capped :
  (forall options h prompt editor,
     let body := requestBody options h prompt editor in
     max_tokens body <= 250
     /\ max_tokens body <= default 200 (Remote.maxTokens options)
     /\ stream body = false
     /\ force_mode body = default false (Remote.forceMode options)
     /\ (force_mode body = true ->
         max_tokens body <= 200 /\ temperature body = 0.1%Q)
     /\ (force_mode body = false ->
         (temperature body <= 0.5)%Q
         /\ (temperature body <= default 0.3%Q (Remote.temperature options))%Q))
  /\ (forall force h prompt editor,
        let body := requestBody (ThaxuAIProvider.processOptions force) h prompt editor in
        max_tokens body = (if force then 150 else 200)
        /\ temperature body = (if force then 0.1 else 0.3)%Q
        /\ force_mode body = force).
Proof.
  split.
  - intros options h prompt editor body. subst body. unfold requestBody.
    cbn [max_tokens stream force_mode temperature].
    destruct (default false (Remote.forceMode options)).
    + repeat split; try lia; discriminate.
    + repeat split; try lia; try discriminate.
      * destruct (Qle_bool _ 0.5) eqn:E; [apply Qle_bool_iff, E | apply Qle_refl].
      * destruct (Qle_bool _ 0.5) eqn:E; [apply Qle_refl|].
        apply Qlt_le_weak, Qnot_le_lt. intros Hle.
        apply Qle_bool_iff in Hle. congruence.
  - intros [] h prompt editor; repeat split.
Qed.

Lemma request_is_capped_witness :
  let body := requestBody
                (Remote.mkOptions (Some 0.2%Q) (Some 350) None None (Some true))
                [] "Create a beginner JavaScript project" None in
  force_mode body = true
  /\ max_tokens body = 200
  /\ max_tokens body <= 200 /\ temperature body = 0.1%Q.
Proof.
  intros body. split; [reflexivity|]. split; [reflexivity|].
  destruct request_is_capped as [H _].
  destruct (H (Remote.mkOptions (Some 0.2%Q) (Some 350) None None (Some true))
              [] "Create a beginner JavaScript project" None)
    as (_ & _ & _ & _ & Hforce & _).
  exact (Hforce eq_refl).
Defined.

Lemma exchangeRoles_of_whole h :
  wholeExchanges h = true ->
  exists k, length h = (2 * k)%nat /\ role <$> h = exchangeRoles k.
Proof.
  induction h as [| x | q a h IH] using list_pair_ind; intros H.
  - exists 0%nat. split; reflexivity.
  - discriminate H.
  - cbn [wholeExchanges] in H.
    apply andb_true_iff in H. destruct H as [H Hrest].
    apply andb_true_iff in H. destruct H as [Hq Ha].
    apply bool_decide_eq_true in Hq, Ha.
    destruct (IH Hrest) as (k & Hlen & Hroles).
    exists (S k). split; [simpl; lia|].
    cbn. rewrite Hq, Ha. f_equal. f_equal. exact Hroles.
Qed.

(** X9. In every world the extension can reach, the messages of a request
    are those of at most four whole exchanges of the history, in order,
    followed by the prompt: their roles alternate from [user] to [user],
    and they are at most nine. With [includeContext] off, the request is
    the trimmed prompt alone. *)
Theorem request_messages (w : Session.World) (prompt : string)
    (includeContext : bool) (editor : option Editor) :
  Session.Reachable w ->
  let ms := buildMessages (Session.conversationHistory w) prompt includeContext editor in
  (exists k, (k <= 4)%nat /\ ms.*1 = exchangeRoles k ++ [user])
  /\ (length ms <= 9)%nat
  /\ last ms = Some (user, userMessage prompt includeContext editor)
  /\ (includeContext = true ->
      ms = ApolloAI.getFormattedHistory (Session.conversationHistory w)
           ++ [(user, userMessage prompt includeContext editor)])
  /\ (includeContext = false -> ms = [(user, Js.trim prompt)]).
Proof.
  intros Hreach ms.
  pose proof (history_whole w Hreach) as Hwhole.
  pose proof (history_bounded w Hreach) as Hlen.
  destruct (exchangeRoles_of_whole _ Hwhole) as (k & Hk & Hroles).
  assert (Hfull : includeContext = true ->
            ms = ApolloAI.getFormattedHistory (Session.conversationHistory w)
                 ++ [(user, userMessage prompt includeContext editor)]).
  { intros ->. subst ms. unfold buildMessages, ApolloAI.getHistory. cbn [andb].
    destruct (Session.conversationHistory w); reflexivity. }
  assert (Hbare : includeContext = false -> ms = [(user, Js.trim prompt)]).
  { intros ->. subst ms. unfold buildMessages, userMessage. cbn.
    destruct editor; reflexivity. }
  split; [| split; [| split; [| split; assumption]]].
  - destruct includeContext.
    + exists k. split; [lia|]. rewrite Hfull by reflexivity.
      rewrite fmap_app. unfold ApolloAI.getFormattedHistory.
      rewrite <- Hroles. f_equal.
      rewrite <- list_fmap_compose. reflexivity.
    + exists 0%nat. split; [lia|]. rewrite Hbare by reflexivity. reflexivity.
  - destruct includeContext.
    + rewrite Hfull by reflexivity. rewrite length_app.
      unfold ApolloAI.getFormattedHistory. rewrite length_map. simpl. lia.
    + rewrite Hbare by reflexivity. simpl. lia.
  - subst ms. unfold buildMessages. apply last_snoc.
Qed.

Lemma request_messages_witness :
  let w := Session.run forcedExchange (Session.initial 0) in
  Session.Reachable w
  /\ buildMessages (Session.conversationHistory w) " explain this " true None
     = [(user, "fix this"); (assistant, "done"); (user, "explain this")]
  /\ buildMessages (Session.conversationHistory w) " explain this " false None
     = [(user, "explain this")].
Proof.
  intros w.
  assert (Hreach : Session.Reachable w) by (exists 0, forcedExchange; reflexivity).
  split; [exact Hreach|].
  destruct (request_messages w " explain this " true None Hreach)
    as (_ & _ & _ & Htrue & _).
  destruct (request_messages w " explain this " false None Hreach)
    as (_ & _ & _ & _ & Hfalse).
  split; [rewrite (Htrue eq_refl) | rewrite (Hfalse eq_refl)]; reflexivity.
Defined.

Lemma append_cons (x : ascii) (a b : string) :
  String x a +:+ b = String x (a +:+ b).
Proof. reflexivity. Qed.

Lemma append_nil (b : string) : "" +:+ b = b.
Proof. reflexivity. Qed.

Lemma append_assoc_string (a b c : string) : (a +:+ b) +:+ c = a +:+ (b +:+ c).
Proof.
  induction a as [| x a IH]; [reflexivity|].
  rewrite !append_cons, IH. reflexivity.
Qed.

Lemma append_empty_r (a : string) : a +:+ "" = a.
Proof.
  induction a as [| x a IH]; [reflexivity|]. rewrite append_cons, IH. reflexivity.
Qed.

Lemma hasNoSeparator_app a b :
  hasNoSeparator (a +:+ b) = hasNoSeparator a && hasNoSeparator b.
Proof.
  induction a as [| x a IH]; [reflexivity|].
  rewrite append_cons. unfold hasNoSeparator in *.
  cbn [list_ascii_of_string forallb]. rewrite IH. apply andb_assoc.
Qed.

Lemma lastSegment_spec fileName segment :
  hasNoSeparator segment = true ->
  hasNoSeparator (lastSegment fileName segment) = true
  /\ exists before,
       segment +:+ fileName = before +:+ lastSegment fileName segment
       /\ (before = ""
           \/ exists before' c,
                before = before' +:+ String c "" /\ isSeparator c = true).
Proof.
  revert segment. induction fileName as [| c rest IH]; intros segment Hseg.
  - cbn [lastSegment]. split; [exact Hseg|]. exists "".
    rewrite append_empty_r, append_nil. auto.
  - cbn [lastSegment]. destruct (isSeparator c) eqn:Hc.
    + destruct (IH "" eq_refl) as (Hno & before & Heq & Hbefore).
      rewrite append_nil in Heq. split; [exact Hno|].
      exists (segment +:+ String c "" +:+ before). split.
      * rewrite !append_assoc_string, append_cons, append_nil, <- Heq. reflexivity.
      * right. destruct Hbefore as [-> | (before' & c' & -> & Hc')].
        -- exists segment, c. rewrite append_empty_r. auto.
        -- exists (segment +:+ String c "" +:+ before'), c'.
           rewrite !append_assoc_string. auto.
    + destruct (IH (segment +:+ String c "")) as (Hno & before & Heq & Hbefore).
      { rewrite hasNoSeparator_app, Hseg. unfold hasNoSeparator.
        cbn [list_ascii_of_string forallb andb]. rewrite Hc. reflexivity. }
      split; [exact Hno|]. exists before. split; [| exact Hbefore].
      rewrite <- Heq, append_assoc_string, append_cons, append_nil. reflexivity.
Qed.

Lemma lastSegment_plain fileName segment :
  hasNoSeparator fileName = true ->
  lastSegment fileName segment = segment +:+ fileName.
Proof.
  revert segment. induction fileName as [| c rest IH]; intros segment Hno.
  - cbn [lastSegment]. symmetry. apply append_empty_r.
  - unfold hasNoSeparator in Hno. cbn [list_ascii_of_string forallb] in Hno.
    apply andb_true_iff in Hno. destruct Hno as [Hc Hrest].
    apply negb_true_iff in Hc. cbn [lastSegment]. rewrite Hc.
    rewrite IH by exact Hrest.
    rewrite append_assoc_string, append_cons, append_nil. reflexivity.
Qed.

(** X10. The file name put in the context note is what follows the last
    slash or backslash of the editor's path: it holds no separator, the
    path is some directory part followed by it, the directory part being
    empty or ending with a separator; a path without separator is taken
    whole. No directory of the user's path goes into the request. *)
Theorem baseName_is_last_segment (fileName : string) :
  hasNoSeparator (baseName fileName) = true
  /\ (exists directory,
        fileName = directory +:+ baseName fileName
        /\ (directory = ""
            \/ exists before c,
                 directory = before +:+ String c "" /\ isSeparator c = true))
  /\ (hasNoSeparator fileName = true -> baseName fileName = fileName).
Proof.
  unfold baseName.
  destruct (lastSegment_spec fileName "" eq_refl) as (Hno & before & Heq & Hbefore).
  split; [exact Hno|]. split.
  - exists before. split; [exact Heq | exact Hbefore].
  - intros Hplain. apply (lastSegment_plain fileName "" Hplain).
Qed.

Lemma baseName_is_last_segment_witness :
  baseName "/home/user/project/src/chat.ts" = "chat.ts"
  /\ hasNoSeparator "chat.ts" = true /\ baseName "chat.ts" = "chat.ts".
Proof.
  split; [reflexivity|]. split; [reflexivity|].
  destruct (baseName_is_last_segment "chat.ts") as (_ & _ & H).
  exact (H eq_refl).
Defined.

End RequestProperties.

(** ** Trimming *)

Section Trim.

Lemma stripPrefix_Some p l r : Js.stripPrefix p l = Some r -> l = p ++ r.
Proof.
  revert l. induction p as [| a p IH]; intros l H.
  - destruct l; cbn in H; injection H as <-; reflexivity.
  - destruct l as [| b l]; cbn in H; [discriminate|].
    destruct (Nat.eqb_spec a b) as [-> |]; [| discriminate].
    rewrite (IH l H). reflexivity.
Qed.

Lemma stripPrefix_app p r : Js.stripPrefix p (p ++ r) = Some r.
Proof.
  induction p as [| a p IH]; [destruct r; reflexivity|].
  cbn. rewrite Nat.eqb_refl. exact IH.
Qed.

Lemma stripAny_Some ps l r :
  Js.stripAny ps l = Some r -> exists p, In p ps /\ l = p ++ r.
Proof.
  induction ps as [| p ps IH]; cbn; [discriminate|].
  destruct (Js.stripPrefix p l) as [r' |] eqn:E.
  - intros [= ->]. exists p. split; [left; reflexivity | apply stripPrefix_Some, E].
  - intros H. destruct (IH H) as (p' & Hin & Heq). exists p'. split; [right|]; assumption.
Qed.

Lemma stripAny_None ps l p r :
  Js.stripAny ps l = None -> In p ps -> l <> p ++ r.
Proof.
  induction ps as [| q ps IH]; cbn; [intros _ []|].
  destruct (Js.stripPrefix q l) as [r' |] eqn:E; [discriminate|].
  intros H [-> | Hin] Heq.
  - rewrite Heq, stripPrefix_app in E. discriminate E.
  - exact (IH H Hin Heq).
Qed.

(** With fuel for every byte, stripping ends where nothing more can be
    stripped, and what is left is the end of the list. *)
Lemma stripAll_spec fuel ps l :
  Forall (fun p => p <> []) ps ->
  (length l <= fuel)%nat ->
  Js.stripAny ps (Js.stripAll fuel ps l) = None
  /\ exists stripped, l = stripped ++ Js.stripAll fuel ps l.
Proof.
  intros Hps. revert l. induction fuel as [| fuel IH]; intros l Hlen.
  - destruct l; [| simpl in Hlen; lia]. cbn. split; [| exists []; reflexivity].
    destruct (Js.stripAny ps []) as [r |] eqn:E; [| reflexivity].
    destruct (stripAny_Some _ _ _ E) as (p & Hin & Heq).
    rewrite Forall_forall in Hps. specialize (Hps p).
    destruct p; [exfalso; apply Hps; [apply list_elem_of_In, Hin | reflexivity]
                | discriminate Heq].
  - cbn [Js.stripAll]. destruct (Js.stripAny ps l) as [r |] eqn:E.
    + destruct (stripAny_Some _ _ _ E) as (p & Hin & ->).
      rewrite Forall_forall in Hps. pose proof (Hps p (proj2 (list_elem_of_In _ _) Hin)) as Hp.
      destruct (IH r) as (Hnone & stripped & Hr).
      { rewrite length_app in Hlen. destruct p; [contradiction | simpl in Hlen; lia]. }
      split; [exact Hnone|]. exists (p ++ stripped).
      rewrite <- app_assoc, <- Hr. reflexivity.
    + split; [exact E | exists []; reflexivity].
Qed.

Lemma stripAll_fixed fuel ps l : Js.stripAny ps l = None -> Js.stripAll fuel ps l = l.
Proof. intros H. destruct fuel; cbn; [| rewrite H]; reflexivity. Qed.

Lemma whiteSpace_nonempty : Forall (fun p => p <> []) Js.whiteSpace.
Proof. repeat constructor; discriminate. Qed.

Lemma whiteSpace_rev_nonempty : Forall (fun p => p <> []) (map (@rev nat) Js.whiteSpace).
Proof. repeat constructor; discriminate. Qed.

Lemma bytes_length s : length (Js.bytes s) = String.length s.
Proof.
  unfold Js.bytes. rewrite length_map.
  induction s as [| c s IH]; [reflexivity|]. cbn. rewrite IH. reflexivity.
Qed.

Lemma bytes_small s : Forall (fun b => (b < 256)%nat) (Js.bytes s).
Proof.
  unfold Js.bytes. induction s as [| c s IH]; [constructor|].
  cbn. constructor; [apply nat_ascii_bounded | exact IH].
Qed.

Lemma bytes_ofBytes l : Forall (fun b => (b < 256)%nat) l -> Js.bytes (Js.ofBytes l) = l.
Proof.
  intros Hl. unfold Js.bytes, Js.ofBytes.
  rewrite list_ascii_of_string_of_list_ascii.
  induction Hl as [| b l Hb _ IH]; [reflexivity|].
  cbn. rewrite nat_ascii_embedding by exact Hb. rewrite IH. reflexivity.
Qed.

(** X14. Trimming is done once and for all: a trimmed string has no
    white space left at either end, so trimming it again gives the same
    string. The completion [askAI] returns after a successful attempt is
    in this form. *)
Theorem trim_is_idempotent :
  (forall s, Js.trim (Js.trim s) = Js.trim s)
  /\ (forall prompt options http h now j text,
        1 <= j <= Remote.retriesOf options ->
        (forall k, 1 <= k < j -> fails (http k)) ->
        Remote.tryAttempt (http j) = inr text ->
        exists completion,
          Remote.settled (Remote.askAI prompt options http h now)
          = Remote.Returned completion
          /\ Js.trim completion = completion).
Proof.
  assert (Htrim : forall s, Js.trim (Js.trim s) = Js.trim s).
  { intros s. unfold Js.trim at 2 3. cbv zeta.
    set (front := Js.stripAll (String.length s) Js.whiteSpace (Js.bytes s)).
    set (back := Js.stripAll (String.length s) (map (@rev nat) Js.whiteSpace) (rev front)).
    destruct (stripAll_spec (String.length s) Js.whiteSpace (Js.bytes s)
                whiteSpace_nonempty) as (Hfront & sf & Hsf);
      [rewrite bytes_length; lia|]. fold front in Hfront, Hsf.
    assert (Hflen : (length front <= String.length s)%nat).
    { rewrite <- bytes_length, Hsf, length_app. lia. }
    destruct (stripAll_spec (String.length s) (map (@rev nat) Js.whiteSpace) (rev front)
                whiteSpace_rev_nonempty) as (Hback & sb & Hsb);
      [rewrite length_rev; exact Hflen|]. fold back in Hback, Hsb.
    assert (Hprefix : front = rev back ++ rev sb).
    { rewrite <- rev_app_distr, <- Hsb, rev_involutive. reflexivity. }
    assert (Hsmall : Forall (fun b => (b < 256)%nat) (rev back)).
    { pose proof (bytes_small s) as Hs. rewrite Hsf in Hs.
      apply Forall_app in Hs. destruct Hs as [_ Hs]. rewrite Hprefix in Hs.
      apply Forall_app in Hs. apply Hs. }
    unfold Js.trim. cbv zeta. rewrite bytes_ofBytes by exact Hsmall.
    assert (Hnone : Js.stripAny Js.whiteSpace (rev back) = None).
    { destruct (Js.stripAny Js.whiteSpace (rev back)) as [r |] eqn:E; [| reflexivity].
      destruct (stripAny_Some _ _ _ E) as (p & Hin & Heq). exfalso.
      apply (stripAny_None _ _ p (r ++ rev sb) Hfront Hin).
      rewrite Hprefix, Heq, <- app_assoc. reflexivity. }
    rewrite (stripAll_fixed _ _ _ Hnone), rev_involutive.
    rewrite (stripAll_fixed _ _ _ Hback). reflexivity. }
  split; [exact Htrim|].
  intros prompt options http h now j text Hj Hfail Hok.
  destruct (askAI_success prompt options http h now j text Hj Hfail Hok) as [Hsettled _].
  exists (Js.trim text). split; [exact Hsettled | apply Htrim].
Qed.

Lemma trim_is_idempotent_witness :
  1 <= 1 <= Remote.retriesOf noOptions
  /\ (forall k, 1 <= k < 1 -> fails (Session.answers "  Hi there " k))
  /\ Remote.tryAttempt (Session.answers "  Hi there " 1) = inr "  Hi there "
  /\ exists completion,
       Remote.settled (Remote.askAI "hello" noOptions (Session.answers "  Hi there ") [] 0)
       = Remote.Returned completion
       /\ Js.trim completion = completion.
Proof.
  assert (Hj : 1 <= 1 <= Remote.retriesOf noOptions) by (vm_compute; split; discriminate).
  assert (Hfail : forall k, 1 <= k < 1 -> fails (Session.answers "  Hi there " k))
    by (intros k Hk; lia).
  split; [exact Hj|]. split; [exact Hfail|]. split; [reflexivity|].
  exact (proj2 trim_is_idempotent "hello" noOptions (Session.answers "  Hi there ")
           [] 0 1 "  Hi there " Hj Hfail eq_refl).
Defined.

End Trim.

(** ** The mentor reply *)

Section MentorReply.

Import ThaxuAIProvider Session.

(** X24. The mentor reply of [handleUserMessage] is never given. In every
    world the extension can reach, the cooldown is on only with force
    answer on, so the condition of the mentor branch (mentor mode, cooldown,
    force answer off) never holds: every message that is not blank is
    shown in the log and sent to the remote model, in the mode force
    answer is in. *)
Theorem mentor_reply_is_never_given (w : World) (message : string) :
  Reachable w ->
  Js.trim message <> "" ->
  (_forceAnswerCooldown (panel w) = true -> _forceAnswerEnabled (panel w) = true)
  /\ _mentorMode (panel w) && _forceAnswerCooldown (panel w)
     && negb (_forceAnswerEnabled (panel w)) = false
  /\ _chatHistory (panel (step w (SendMessage message)))
     = _chatHistory (panel w) ++ [mkMessage user message (clock w)]
  /\ calls (step w (SendMessage message))
     = calls w
       ++ [mkCall message (processOptions (_forceAnswerEnabled (panel w)))
             ByHandleUserMessage].
Proof.
  intros Hreach Hblank. apply String.eqb_neq in Hblank.
  pose proof (cooldown_keeps_force_on w Hreach) as Hforce.
  assert (Hbranch : _mentorMode (panel w) && _forceAnswerCooldown (panel w)
                    && negb (_forceAnswerEnabled (panel w)) = false).
  { destruct (_forceAnswerCooldown (panel w)).
    - rewrite Hforce by reflexivity. apply andb_false_r.
    - rewrite andb_false_r. reflexivity. }
  split; [exact Hforce|]. split; [exact Hbranch|].
  cbn [step]. unfold handleUserMessage. rewrite Hblank, Hbranch. split; reflexivity.
Qed.

Lemma mentor_reply_is_never_given_witness :
  let w := run forcedExchange (initial 0) in
  Reachable w
  /\ Js.trim "how do I write a function?" <> ""
  /\ calls (step w (SendMessage "how do I write a function?"))
     = [mkCall "how do I write a function?" (processOptions true) ByHandleUserMessage].
Proof.
  intros w.
  assert (Hreach : Reachable w) by (exists 0, forcedExchange; reflexivity).
  assert (Hblank : Js.trim "how do I write a function?" <> "")
    by (vm_compute; discriminate).
  split; [exact Hreach|]. split; [exact Hblank|].
  destruct (mentor_reply_is_never_given w "how do I write a function?" Hreach Hblank)
    as (_ & _ & _ & H).
  exact H.
Defined.

End MentorReply.
